(** * Order reconciliation of the captain app's order screen

    A shallow embedding of the order-taking screen (the final iteration of
    [OrderScreen]): the draft of order lines, the sync from the server's
    bill ([fetchLastOrder]), the local edits ([handleAddToOrder],
    [handleDecrementQuantity], the restore button), the pricing functions
    ([getTotalOrderCost], [computeTaxAmounts]) and the diff sent by
    [updateKOT].

    React state is threaded explicitly: a handler reads the state of the
    render that created it and returns the state after its setters ran.
    Server answers, the clock and the random suffix of a local id are
    arguments of the handlers.

    Numbers.  Quantities are JavaScript numbers that only ever hold
    integers; they are embedded as [Z].  Money is embedded as IEEE 754
    binary64 ([PrimFloat.float]), which is what a JavaScript number is, so
    that totals are computed bit for bit as the screen computes them. *)

From Stdlib Require Import ZArith List String Bool Lia DecimalString.
From Stdlib Require Import Permutation.
From Stdlib Require Import Floats Uint63.
Import ListNotations.

Set Warnings "-inexact-float".

Local Open Scope string_scope.
Local Open Scope list_scope.
Local Open Scope Z_scope.

(** ** JavaScript helpers *)

Module Js.

(** Truthiness of a string: every string but the empty one. *)
Definition truthyStr (s : string) : bool :=
  match s with
  | EmptyString => false
  | String _ _ => true
  end.

(** Truthiness of an optional string ([undefined]/[null] is [None]). *)
Definition truthyOpt (o : option string) : bool :=
  match o with
  | Some s => truthyStr s
  | None => false
  end.

(** [o || null] on an optional string. *)
Definition orNull (o : option string) : option string :=
  if truthyOpt o then o else None.

(** [o || d] on an optional string, the default being a string. *)
Definition strOr (o : option string) (d : string) : string :=
  match o with
  | Some s => if truthyStr s then s else d
  | None => d
  end.

(** [q || 0] on an optional integer quantity. *)
Definition qtyOr0 (q : option Z) : Z :=
  match q with
  | Some z => z
  | None => 0
  end.

(** Truthiness of a number: neither a zero nor NaN. *)
Definition truthyNum (x : float) : bool :=
  negb (PrimFloat.is_zero x || PrimFloat.is_nan x).

(** Truthiness of an optional number. *)
Definition truthyNumOpt (o : option float) : bool :=
  match o with
  | Some x => truthyNum x
  | None => false
  end.

(** [x || d] on numbers. *)
Definition numOr (x d : float) : float :=
  if truthyNum x then x else d.

(** [o || d] on an optional number. *)
Definition numOptOr (o : option float) (d : float) : float :=
  match o with
  | Some x => numOr x d
  | None => d
  end.

(** An integer quantity as a number.  Exact on the safe integers
    (magnitude below 2^53), which is where quantities live. *)
Definition ofZ (z : Z) : float :=
  if z <? 0
  then PrimFloat.opp (PrimFloat.of_uint63 (Uint63.of_Z (- z)))
  else PrimFloat.of_uint63 (Uint63.of_Z z).

(** [Math.floor].  A number whose binary exponent is not negative is an
    integer already; zeros, infinities and NaN are returned as they
    are. *)
Definition Math_floor (x : float) : float :=
  match Prim2SF x with
  | S754_finite s m e =>
      if 0 <=? e then x
      else
        let k := - e in
        let q := Z.shiftr (Z.pos m) k in
        if s
        then
          let c := if Z.pos m mod 2 ^ k =? 0 then q else q + 1 in
          PrimFloat.opp (PrimFloat.of_uint63 (Uint63.of_Z c))
        else PrimFloat.of_uint63 (Uint63.of_Z q)
  | _ => x
  end.

(** [Math.max(0, z)] on an integer quantity. *)
Definition max0 (z : Z) : Z := Z.max 0 z.

(** [Array.prototype.find]. *)
Definition find {A} (f : A -> bool) (l : list A) : option A :=
  List.find f l.

(** [Array.prototype.findIndex], [None] standing for [-1]. *)
Fixpoint findIndex {A} (f : A -> bool) (l : list A) : option nat :=
  match l with
  | [] => None
  | x :: r =>
      if f x then Some O
      else match findIndex f r with
           | Some i => Some (S i)
           | None => None
           end
  end.

(** [l[i] = v] on a copy of the array, for an index inside it. *)
Fixpoint setAt {A} (l : list A) (i : nat) (v : A) : list A :=
  match l, i with
  | [], _ => []
  | _ :: r, O => v :: r
  | x :: r, S j => x :: setAt r j v
  end.

(** [l.splice(i, 1)] on a copy of the array. *)
Fixpoint removeAt {A} (l : list A) (i : nat) : list A :=
  match l, i with
  | [], _ => []
  | _ :: r, O => r
  | x :: r, S j => x :: removeAt r j
  end.

End Js.

(** ** A JavaScript [Map] with string keys

  Iteration ([forEach]) follows insertion order and [set] on a present
  key keeps its position, so the map is an association list without
  repeated keys. *)

Module JsMap.

Section WithValue.
Context {V : Type}.

Definition t := list (string * V).

Definition empty : t := [].

Fixpoint get (m : t) (k : string) : option V :=
  match m with
  | [] => None
  | (k', v) :: r => if String.eqb k' k then Some v else get r k
  end.

Definition has (m : t) (k : string) : bool :=
  match get m k with
  | Some _ => true
  | None => false
  end.

Fixpoint set (m : t) (k : string) (v : V) : t :=
  match m with
  | [] => [(k, v)]
  | (k', v') :: r =>
      if String.eqb k' k then (k', v) :: r else (k', v') :: set r k v
  end.

Definition keys (m : t) : list string := map fst m.

End WithValue.

Arguments t : clear implicits.

End JsMap.

(** ** Data model *)

(** [type ItemStatus = 'original' | 'addon' | 'removed']. *)
Inductive ItemStatus : Type :=
| original
| addon
| removed.

Definition ItemStatus_eqb (a b : ItemStatus) : bool :=
  match a, b with
  | original, original | addon, addon | removed, removed => true
  | _, _ => false
  end.

(** [interface Product].  The fields the order logic reads are kept; the
    category, the catalogue status and [Basequantity] are only displayed. *)
Record Product : Type := mkProduct {
  _id : string;
  name : string;
  price : option float
}.

(** [interface OrderItem]; an optional field that is [undefined] is
    [None]. *)
Record OrderItem : Type := mkOrderItem {
  product : Product;
  quantity : Z;
  itemStatus : option ItemStatus;
  originalQuantity : option Z;
  localId : option string;
  serverItemIds : option (list string)
}.

(** [item.itemStatus === s]. *)
Definition statusIs (s : ItemStatus) (item : OrderItem) : bool :=
  match itemStatus item with
  | Some s' => ItemStatus_eqb s' s
  | None => false
  end.

(** [item.itemStatus === 'original' || !item.itemStatus]. *)
Definition isOriginal (item : OrderItem) : bool :=
  match itemStatus item with
  | Some original => true
  | Some _ => false
  | None => true
  end.

(** [item.product._id === pid]. *)
Definition ofProduct (pid : string) (item : OrderItem) : bool :=
  String.eqb (_id (product item)) pid.

(** [{ ...item, quantity: q }]. *)
Definition withQuantity (item : OrderItem) (q : Z) : OrderItem :=
  mkOrderItem (product item) q (itemStatus item) (originalQuantity item)
              (localId item) (serverItemIds item).

(** [{ cgst, sgst, fssaiNumber }] of the screen's [taxSettings]. *)
Record TaxSettings : Type := mkTaxSettings {
  cgst : float;
  sgst : float;
  fssaiNumber : option string
}.

(** ** Pricing *)

(** [(item.product as any)?.price ? Number(price) : 0]. *)
Definition unitPrice (p : Product) : float :=
  match price p with
  | Some x => if Js.truthyNum x then x else 0%float
  | None => 0%float
  end.

Definition getItemTotal (item : OrderItem) : float :=
  (unitPrice (product item) * Js.ofZ (quantity item))%float.

Definition getTotalItems (orderItems : list OrderItem) : Z :=
  fold_left (fun total item => total + quantity item)
            (filter (fun item => negb (statusIs removed item)) orderItems) 0.

Definition getTotalOrderCost (orderItems : list OrderItem) : float :=
  fold_left
    (fun total item =>
       (total + unitPrice (product item) * Js.ofZ (quantity item))%float)
    (filter (fun item => negb (statusIs removed item)) orderItems)
    0%float.

Record TaxAmounts : Type := mkTaxAmounts {
  sgstAmount : float;
  cgstAmount : float;
  totalWithTax : float;
  payableAmount : float
}.

Definition computeTaxAmounts (taxSettings : TaxSettings) (subtotal : float)
  : TaxAmounts :=
  let sgstAmount := (subtotal * Js.numOr (sgst taxSettings) 0 / 100)%float in
  let cgstAmount := (subtotal * Js.numOr (cgst taxSettings) 0 / 100)%float in
  let totalWithTax := (subtotal + sgstAmount + cgstAmount)%float in
  let payableAmount := Js.Math_floor totalWithTax in
  mkTaxAmounts sgstAmount cgstAmount totalWithTax payableAmount.

(** The initial value of the [taxSettings] state cell. *)
Definition initialTaxSettings : TaxSettings :=
  mkTaxSettings 0%float 0%float None.

(** What [fetchTaxSettings] stores: [parseFloat(ts.cgst) || 0] and
    [parseFloat(ts.sgst) || 0], the arguments being the parsed numbers
    (NaN when the field does not parse), and
    [ts.fssaiNumber || ts.fssai || ''], [fssai] being the first of the
    two fields that is set. *)
Definition fetchedTaxSettings (parsedCgst parsedSgst : float)
  (fssai : option string) : TaxSettings :=
  mkTaxSettings (Js.numOr parsedCgst 0) (Js.numOr parsedSgst 0)
                (Some (Js.strOr fssai EmptyString)).

(** ** The server's bill *)

(** A populated product reference.  The backend populates a reference with
    the product document, whose [_id] is a non-empty identifier: it is
    kept as its first character and the rest. *)
Record ProductDoc : Type := mkProductDoc {
  doc_id_head : Ascii.ascii;
  doc_id_rest : string;
  doc_name : option string;
  doc_price : option float
}.

Definition doc_id (d : ProductDoc) : string :=
  String (doc_id_head d) (doc_id_rest d).

(** [bi.productId]: a populated document or a bare id. *)
Inductive ProductRef : Type :=
| RefDoc (d : ProductDoc)
| RefId (id : string).

(** The [changeType] of an update record and of an edited item. *)
Inductive ChangeType : Type :=
| add
| edit
| canceled.

(** A row of [bill.items]. *)
Record BillItem : Type := mkBillItem {
  item_id : option string;
  productId : option ProductRef;
  item_name : option string;
  item_quantity : option Z;
  item_price : option float;
  item_status : string
}.

(** The bill document of [getTableStatus]. *)
Record Bill : Type := mkBill {
  bill_id : option string;
  bill_billNumber : option string;
  bill_status : string;
  bill_items : option (list BillItem)
}.

(** The body of a [getTableStatus] answer: [{ status, data }]. *)
Record TableStatus : Type := mkTableStatus {
  ts_status : string;
  ts_data : option Bill
}.

(** What an awaited axios call does: it resolves with a status and a
    body, or it throws.  With axios's default [validateStatus] a call
    resolves only on a 2xx answer; [settle] is that rule. *)
Record AxiosError : Type := mkAxiosError {
  err_status : option Z;
  err_serverMessage : option string;
  err_message : option string
}.

Inductive Axios (A : Type) : Type :=
| Fulfilled (status : Z) (data : option A)
| Rejected (err : AxiosError).

Arguments Fulfilled {A} status data.
Arguments Rejected {A} err.

(** What the network did: no answer at all, or an HTTP answer. *)
Inductive Answer (A : Type) : Type :=
| NoAnswer (message : string)
| Http (status : Z) (serverMessage : option string) (data : option A).

Arguments NoAnswer {A} message.
Arguments Http {A} status serverMessage data.

Definition settle {A} (a : Answer A) : Axios A :=
  match a with
  | NoAnswer m => Rejected (mkAxiosError None None (Some m))
  | Http status msg data =>
      if (200 <=? status) && (status <? 300)
      then Fulfilled status data
      else Rejected (mkAxiosError (Some status) msg
                       (Some ("Request failed with status code "
                              ++ NilEmpty.string_of_int (Z.to_int status))%string))
  end.

(** [bi.productId?._id || bi.productId], kept when truthy. *)
Definition pidOf (bi : BillItem) : option string :=
  match productId bi with
  | Some (RefDoc d) => Some (doc_id d)
  | Some (RefId s) => if Js.truthyStr s then Some s else None
  | None => None
  end.

(** [proto.productId?.name || proto.name || '']. *)
Definition protoName (proto : BillItem) : string :=
  let fromDoc :=
    match productId proto with
    | Some (RefDoc d) => doc_name d
    | _ => None
    end in
  if Js.truthyOpt fromDoc then Js.strOr fromDoc EmptyString
  else Js.strOr (item_name proto) EmptyString.

(** [proto.price || proto.productId?.price || 0]. *)
Definition protoPrice (proto : BillItem) : float :=
  if Js.truthyNumOpt (item_price proto)
  then Js.numOptOr (item_price proto) 0
  else
    match productId proto with
    | Some (RefDoc d) => Js.numOptOr (doc_price d) 0
    | _ => 0%float
    end.

(** The product a synced line carries. *)
Definition protoProduct (pid : string) (proto : BillItem) : Product :=
  mkProduct pid (protoName proto) (Some (protoPrice proto)).

(** The [forEach] that fills [itemsByProduct] (and [serverItemsByProduct]
    in [updateKOT]): a row without a product id is skipped, a new id gets
    an empty group, and the row is pushed on its group. *)
Definition groupStep (m : JsMap.t (list BillItem)) (bi : BillItem)
  : JsMap.t (list BillItem) :=
  match pidOf bi with
  | None => m
  | Some pid =>
      let m1 := if JsMap.has m pid then m else JsMap.set m pid [] in
      match JsMap.get m1 pid with
      | Some group => JsMap.set m1 pid (group ++ [bi])
      | None => m1
      end
  end.

Definition groupByProduct (items : list BillItem) : JsMap.t (list BillItem) :=
  fold_left groupStep items JsMap.empty.

(** [g.status !== 'canceled' && (g.quantity || 0) > 0]. *)
Definition isActiveRow (g : BillItem) : bool :=
  negb (String.eqb (item_status g) "canceled")
  && (0 <? Js.qtyOr0 (item_quantity g)).

(** [g.status === 'canceled']. *)
Definition isCanceledRow (g : BillItem) : bool :=
  String.eqb (item_status g) "canceled".

(** [rows.reduce((s, it) => s + (it.quantity || 0), 0)]. *)
Definition sumQuantity (rows : list BillItem) : Z :=
  fold_left (fun s it => s + Js.qtyOr0 (item_quantity it)) rows 0.

(** [rows.map(a => a._id).filter(Boolean)]. *)
Definition rowIds (rows : list BillItem) : list string :=
  flat_map (fun a => match item_id a with
                     | Some s => if Js.truthyStr s then [s] else []
                     | None => []
                     end) rows.

(** The body of [itemsByProduct.forEach]: the lines one product's rows
    push on [mappedItems]. *)
Definition mapGroup (pid : string) (group : list BillItem) : list OrderItem :=
  let active := filter isActiveRow group in
  let canceledRows := filter isCanceledRow group in
  let activeLine :=
    match active with
    | proto :: _ =>
        let totalQty := sumQuantity active in
        [mkOrderItem (protoProduct pid proto) totalQty (Some original)
                     (Some totalQty) (Some ("srv-" ++ pid)%string)
                     (Some (rowIds active))]
    | [] => []
    end in
  let removedLine :=
    match canceledRows with
    | proto :: _ =>
        let canceledTotal := sumQuantity canceledRows in
        [mkOrderItem (protoProduct pid proto) 0 (Some removed)
                     (Some canceledTotal) (Some ("srv-removed-" ++ pid)%string)
                     (Some (rowIds canceledRows))]
    | [] => []
    end in
  activeLine ++ removedLine.

Definition mappedItems (items : list BillItem) : list OrderItem :=
  flat_map (fun kv => mapGroup (fst kv) (snd kv)) (groupByProduct items).

(** ** Screen state *)

(** The state cells of [OrderScreen] that the order logic reads or
    writes. *)
Record State : Type := mkState {
  orderItems : list OrderItem;
  originalSubmittedItems : list OrderItem;
  existingBillId : option string;
  billNumber : option string;
  hasPendingChanges : bool;
  suppressRemovedAfterFetch : bool;
  loading : bool;
  loadingLastOrder : bool
}.

(** What the screen is opened with: the server address, the table of the
    route and whether the address is still being loaded. *)
Record Env : Type := mkEnv {
  apiUrl : option string;
  tableNumber : option Z;
  isLoadingIp : bool
}.

(** [!tableNumber]: the table is missing or 0. *)
Definition noTable (env : Env) : bool :=
  match tableNumber env with
  | Some n => n =? 0
  | None => true
  end.

Definition setOrderItems (v : list OrderItem) (st : State) : State :=
  mkState v (originalSubmittedItems st) (existingBillId st) (billNumber st)
          (hasPendingChanges st) (suppressRemovedAfterFetch st) (loading st)
          (loadingLastOrder st).

Definition setOriginalSubmittedItems (v : list OrderItem) (st : State) : State :=
  mkState (orderItems st) v (existingBillId st) (billNumber st)
          (hasPendingChanges st) (suppressRemovedAfterFetch st) (loading st)
          (loadingLastOrder st).

Definition setExistingBillId (v : option string) (st : State) : State :=
  mkState (orderItems st) (originalSubmittedItems st) v (billNumber st)
          (hasPendingChanges st) (suppressRemovedAfterFetch st) (loading st)
          (loadingLastOrder st).

Definition setBillNumber (v : option string) (st : State) : State :=
  mkState (orderItems st) (originalSubmittedItems st) (existingBillId st) v
          (hasPendingChanges st) (suppressRemovedAfterFetch st) (loading st)
          (loadingLastOrder st).

Definition setHasPendingChanges (v : bool) (st : State) : State :=
  mkState (orderItems st) (originalSubmittedItems st) (existingBillId st)
          (billNumber st) v (suppressRemovedAfterFetch st) (loading st)
          (loadingLastOrder st).

Definition setSuppressRemovedAfterFetch (v : bool) (st : State) : State :=
  mkState (orderItems st) (originalSubmittedItems st) (existingBillId st)
          (billNumber st) (hasPendingChanges st) v (loading st)
          (loadingLastOrder st).

Definition setLoading (v : bool) (st : State) : State :=
  mkState (orderItems st) (originalSubmittedItems st) (existingBillId st)
          (billNumber st) (hasPendingChanges st)
          (suppressRemovedAfterFetch st) v (loadingLastOrder st).

Definition setLoadingLastOrder (v : bool) (st : State) : State :=
  mkState (orderItems st) (originalSubmittedItems st) (existingBillId st)
          (billNumber st) (hasPendingChanges st)
          (suppressRemovedAfterFetch st) (loading st) v.

(** The state of a freshly opened screen. *)
Definition initialState : State :=
  mkState [] [] None None false false false false.

(** An alert shown to the user: [Alert.alert(title, message)]. *)
Record Alert : Type := mkAlert {
  alert_title : string;
  alert_message : string
}.

(** ** Sync: [fetchLastOrder] *)

(** [{ ...m, localId: m.localId ?? `srv-${m.product._id}-${Date.now()}-${idx}` }]. *)
Definition ensureLocalId (now : string) (idx : nat) (m : OrderItem) : OrderItem :=
  match localId m with
  | Some _ => m
  | None =>
      mkOrderItem (product m) (quantity m) (itemStatus m) (originalQuantity m)
        (Some ("srv-" ++ _id (product m) ++ "-" ++ now ++ "-"
               ++ NilEmpty.string_of_uint (Nat.to_uint idx))%string)
        (serverItemIds m)
  end.

(** [l.map((m, idx) => f(idx, m))]. *)
Fixpoint mapi_from {A B} (f : nat -> A -> B) (i : nat) (l : list A) : list B :=
  match l with
  | [] => []
  | x :: r => f i x :: mapi_from f (S i) r
  end.

(** [bill.items || []]. *)
Definition billRows (bill : Bill) : list BillItem :=
  match bill_items bill with
  | Some l => l
  | None => []
  end.

(** The success branch: the bill's rows become the draft. *)
Definition syncFromBill (suppress : bool) (now : string) (bill : Bill)
  (st : State) : State :=
  let st := setExistingBillId (Js.orNull (bill_id bill)) st in
  let st := setBillNumber (Js.orNull (bill_billNumber bill)) st in
  let mapped := mappedItems (billRows bill) in
  let finalMapped :=
    if suppress
    then filter (fun i => negb (statusIs removed i)) mapped
    else mapped in
  let st := setOrderItems (mapi_from (ensureLocalId now) O finalMapped) st in
  let st := setOriginalSubmittedItems
              (filter (statusIs original) finalMapped) st in
  if suppress then setSuppressRemovedAfterFetch false st else st.

(** [fetchLastOrder].  [suppress] is the value of
    [suppressRemovedAfterFetch] that the memoised callback captured,
    [response] is what the awaited [getTableStatus] call did and [now] is
    [Date.now()].  On a 401 the handler also drops the stored token and
    navigates to the login screen, which is outside this state. *)
Definition fetchLastOrder (env : Env) (suppress : bool) (now : string)
  (response : Axios TableStatus) (st : State) : State :=
  if negb (Js.truthyOpt (apiUrl env)) || noTable env || isLoadingIp env
  then st
  else
    let st := setLoadingLastOrder true st in
    let st :=
      match response with
      | Fulfilled _ (Some data) =>
          match ts_data data with
          | Some bill =>
              if String.eqb (ts_status data) "success"
              then syncFromBill suppress now bill st
              else setExistingBillId None st
          | None => setExistingBillId None st
          end
      | Fulfilled _ None => setExistingBillId None st
      | Rejected _ =>
          setOriginalSubmittedItems []
            (setOrderItems [] (setExistingBillId None st))
      end in
    setLoadingLastOrder false st.

(** *** The earlier iteration's status gate

    The first iteration of the screen ([app/(tabs)/order.tsx]) has lines of
    a product and a quantity only and checks the bill's own status before
    it adopts the bill. *)

Module OrderV1.

(** [const activeStatuses = ['pending', 'preparing', 'ready']]. *)
Definition activeStatuses : list string := ["pending"; "preparing"; "ready"].

(** [activeStatuses.includes(s)]. *)
Definition includes (l : list string) (s : string) : bool :=
  existsb (String.eqb s) l.

Section Sync.

(** The mapping of an adopted bill's rows to lines, which looks products
    up in the catalogue; the gate does not depend on it. *)
Variable mapBillItems : list BillItem -> list OrderItem.

(** The [try] block of that iteration's [fetchLastOrder], on an answer
    that resolved. *)
Definition fetchLastOrder (data : TableStatus) (st : State) : State :=
  match ts_data data with
  | Some billData =>
      if String.eqb (ts_status data) "success"
      then
        if negb (includes activeStatuses (bill_status billData))
        then setOrderItems [] (setExistingBillId None st)
        else
          let st := setExistingBillId (bill_id billData) st in
          let st := setBillNumber (bill_billNumber billData) st in
          match bill_items billData with
          | Some l => setOrderItems (mapBillItems l) st
          | None => st
          end
      else if String.eqb (ts_status data) "table-free"
           then setOrderItems [] (setExistingBillId None st)
           else st
  | None =>
      if String.eqb (ts_status data) "table-free"
      then setOrderItems [] (setExistingBillId None st)
      else st
  end.

End Sync.

End OrderV1.

(** ** Editing the draft *)

(** [handleAddToOrder]: which arm of the handler runs. *)
Inductive AddBranch : Type :=
| RestoreRemovedAsAddon
| IncrementAddon
| CreateAddon
| IncrementMatching
| AppendNew.

(** The line [handleAddToOrder] looks for: same product, not removed. *)
Definition existingItemFor (pr : Product) (items : list OrderItem)
  : option OrderItem :=
  Js.find (fun item => ofProduct (_id pr) item
                       && negb (statusIs removed item)) items.

Definition addBranch (st : State) (pr : Product) : AddBranch :=
  match existingItemFor pr (orderItems st) with
  | Some existingItem =>
      if statusIs removed existingItem then RestoreRemovedAsAddon
      else if Js.truthyOpt (existingBillId st)
              && statusIs original existingItem
      then
        match Js.find (fun item => ofProduct (_id pr) item
                                   && statusIs addon item) (orderItems st) with
        | Some _ => IncrementAddon
        | None => CreateAddon
        end
      else IncrementMatching
  | None => AppendNew
  end.

(** [handleAddToOrder(product)], the product being [pr]; [fresh] is the
    [`${Date.now()}-${Math.random().toString(36).slice(2,8)}`] suffix of
    a new local id. *)
Definition handleAddToOrder (fresh : string) (pr : Product) (st : State)
  : State :=
  let items := orderItems st in
  let pid := _id pr in
  match addBranch st pr with
  | RestoreRemovedAsAddon =>
      setOrderItems
        (map (fun item =>
                if ofProduct pid item
                then mkOrderItem (product item) 1
                       (Some addon) None (localId item) (serverItemIds item)
                else item) items) st
  | IncrementAddon =>
      setOrderItems
        (map (fun item =>
                if ofProduct pid item && statusIs addon item
                then withQuantity item (quantity item + 1)
                else item) items) st
  | CreateAddon =>
      setOrderItems
        (items ++ [mkOrderItem pr 1 (Some addon) None None None]) st
  | IncrementMatching =>
      setOrderItems
        (map (fun item =>
                if ofProduct pid item
                then withQuantity item (quantity item + 1)
                else item) items) st
  | AppendNew =>
      let itemStatus := if Js.truthyOpt (existingBillId st)
                        then Some addon else None in
      setOrderItems
        (items ++ [mkOrderItem pr 1 itemStatus None
                     (Some ("local-" ++ fresh)%string) None]) st
  end.

(** [i.localId === localId], the argument being a string. *)
Definition hasLocalId (lid : string) (i : OrderItem) : bool :=
  match localId i with
  | Some s => String.eqb s lid
  | None => false
  end.

(** [handleIncrementQuantity(localId)]. *)
Definition handleIncrementQuantity (fresh : string) (lid : string) (st : State)
  : State :=
  let items := orderItems st in
  match Js.findIndex (hasLocalId lid) items with
  | None => st
  | Some idx =>
      match nth_error items idx with
      | None => st
      | Some target =>
          if Js.truthyOpt (existingBillId st) && isOriginal target
          then
            match Js.findIndex
                    (fun i => ofProduct (_id (product target)) i
                              && statusIs addon i) items with
            | Some addonIdx =>
                match nth_error items addonIdx with
                | Some a =>
                    setOrderItems
                      (Js.setAt items addonIdx
                         (withQuantity a (quantity a + 1))) st
                | None => st
                end
            | None =>
                setOrderItems
                  (items ++ [mkOrderItem (product target) 1 (Some addon) None
                               (Some ("local-" ++ fresh)%string) None]) st
            end
          else
            setOrderItems
              (Js.setAt items idx (withQuantity target (quantity target + 1)))
              st
      end
  end.

(** [handleDecrementQuantity(localId)]; [now] is [Date.now()].  An index
    returned by [findIndex] is inside the array, so the [None] arms of
    [nth_error] are never taken. *)
Definition handleDecrementQuantity (now : string) (lid : string) (st : State)
  : State :=
  let items := orderItems st in
  match Js.findIndex (hasLocalId lid) items with
  | None => st
  | Some idx =>
      match nth_error items idx with
      | None => st
      | Some target =>
          let newQuantity := Js.max0 (quantity target - 1) in
          if isOriginal target && Js.truthyOpt (existingBillId st)
          then
            let pid := _id (product target) in
            let prevQty := quantity target in
            let removedDelta := prevQty - newQuantity in
            let newItems := Js.setAt items idx (withQuantity target newQuantity) in
            let removedIdx :=
              Js.findIndex (fun i => ofProduct pid i && statusIs removed i)
                           newItems in
            let existingRemoved :=
              match removedIdx with
              | Some r => nth_error newItems r
              | None => None
              end in
            let origSubmitted :=
              Js.find (ofProduct pid) (originalSubmittedItems st) in
            let originalTotal :=
              match origSubmitted with
              | Some o => quantity o
              | None =>
                  prevQty + match existingRemoved with
                            | Some e => quantity e
                            | None => 0
                            end
              end in
            let newItems :=
              match removedIdx, existingRemoved with
              | Some r, Some e =>
                  Js.setAt newItems r
                    (mkOrderItem (product e) (quantity e + removedDelta)
                       (itemStatus e) (Some originalTotal) (localId e)
                       (serverItemIds e))
              | _, _ =>
                  newItems ++
                  [mkOrderItem (product target) removedDelta (Some removed)
                     (Some originalTotal)
                     (Some ("removed-" ++ pid ++ "-" ++ now)%string) None]
              end in
            setHasPendingChanges true (setOrderItems newItems st)
          else
            if newQuantity <=? 0
            then setOrderItems (Js.removeAt items idx) st
            else setOrderItems
                   (Js.setAt items idx (withQuantity target newQuantity)) st
      end
  end.

(** [a === b] on two optional local ids ([undefined === undefined]). *)
Definition sameLocalId (a b : option string) : bool :=
  match a, b with
  | Some x, Some y => String.eqb x y
  | None, None => true
  | _, _ => false
  end.

(** [item.originalQuantity || 1]. *)
Definition originalQuantityOr1 (item : OrderItem) : Z :=
  match originalQuantity item with
  | Some q => if q =? 0 then 1 else q
  | None => 1
  end.

(** The restore button of a removed line [item]:
    [{ ...i, quantity: item.originalQuantity || 1, itemStatus: 'original',
       originalQuantity: undefined }] on the lines with its local id. *)
Definition restoreRemoved (item : OrderItem) (st : State) : State :=
  setOrderItems
    (map (fun i =>
            if sameLocalId (localId i) (localId item)
            then mkOrderItem (product i) (originalQuantityOr1 item)
                   (Some original) None (localId i) (serverItemIds i)
            else i) (orderItems st)) st.

(** The effect that recomputes [hasPendingChanges] after a render. *)
Definition computePending (st : State) : bool :=
  if negb (Js.truthyOpt (existingBillId st))
  then negb (Nat.eqb (List.length (orderItems st)) 0)
  else
    let items := orderItems st in
    let added := existsb (fun i => statusIs addon i && (0 <? quantity i)) items in
    let editedOriginals :=
      existsb
        (fun orig =>
           let pid := _id (product orig) in
           let current := Js.find (fun i => ofProduct pid i && isOriginal i) items in
           let removedLine :=
             Js.find (fun i => ofProduct pid i && statusIs removed i) items in
           match removedLine, current with
           | Some _, _ => true
           | None, None => true
           | None, Some c => negb (quantity c =? quantity orig)
           end)
        (originalSubmittedItems st) in
    added || editedOriginals.

(** ** Update KOT: the diff *)

(** An entry of [addedItems]. *)
Record AddedItem : Type := mkAddedItem {
  added_productId : string;
  added_name : string;
  added_quantity : Z;
  added_price : float
}.

(** An entry of [editedItems]. *)
Record EditedItem : Type := mkEditedItem {
  itemId : option string;
  newQuantity : Z;
  changeType : ChangeType
}.

(** [orderItems.filter(addon with quantity > 0).map(...)]. *)
Definition addedItems (items : list OrderItem) : list AddedItem :=
  map (fun item =>
         mkAddedItem (_id (product item)) (name (product item))
                     (quantity item) (unitPrice (product item)))
      (filter (fun item => statusIs addon item && (0 <? quantity item)) items).

(** The body of the [forEach] that fills [desiredByProduct]. *)
Definition desiredStep (items submitted : list OrderItem) (m : JsMap.t Z)
  (oi : OrderItem) : JsMap.t Z :=
  let pid := _id (product oi) in
  if isOriginal oi then JsMap.set m pid (quantity oi)
  else if statusIs removed oi
  then
    match Js.find (fun i => ofProduct pid i && isOriginal i) items with
    | Some orig => JsMap.set m pid (quantity orig)
    | None =>
        let submittedQty :=
          match Js.find (ofProduct pid) submitted with
          | Some s => quantity s
          | None => 0
          end in
        let remaining := Js.max0 (submittedQty - quantity oi) in
        JsMap.set m pid remaining
    end
  else m.

Definition desiredByProduct (st : State) : JsMap.t Z :=
  fold_left (desiredStep (orderItems st) (originalSubmittedItems st))
            (orderItems st) JsMap.empty.

(** [s.status !== 'canceled'] of [updateKOT]'s [activeServerItems]. *)
Definition isActiveServerItem (s : BillItem) : bool :=
  negb (String.eqb (item_status s) "canceled").

(** One turn of the [for (const sItem of activeServerItems)] loop, on the
    pair of [remaining] and [editedItems]. *)
Definition distributeStep (acc : Z * list EditedItem) (sItem : BillItem)
  : Z * list EditedItem :=
  let remaining := fst acc in
  let editedItems := snd acc in
  let origQty := Js.qtyOr0 (item_quantity sItem) in
  let assign := Z.min origQty remaining in
  let editedItems :=
    if negb (assign =? origQty)
    then editedItems ++
         [mkEditedItem (item_id sItem) assign
                       (if assign =? 0 then canceled else edit)]
    else editedItems in
  (Js.max0 (remaining - assign), editedItems).

(** The body of [serverItemsByProduct.forEach]. *)
Definition productStep (desired : JsMap.t Z) (editedItems : list EditedItem)
  (kv : string * list BillItem) : list EditedItem :=
  let activeServerItems := filter isActiveServerItem (snd kv) in
  match JsMap.get desired (fst kv) with
  | None => editedItems
  | Some d => snd (fold_left distributeStep activeServerItems (d, editedItems))
  end.

Definition computeEditedItems (st : State) (billItems : list BillItem)
  : list EditedItem :=
  fold_left (productStep (desiredByProduct st)) (groupByProduct billItems) [].

(** The fields of [updateData] that depend on the diff.  The request also
    carries the rebuilt item list with its audit trail and the totals;
    they are derived from these values and the current bill. *)
Record UpdateData : Type := mkUpdateData {
  update_id : option string;
  update_status : string;
  update_editedItems : list EditedItem;
  update_addedItems : list AddedItem
}.

Definition buildUpdateData (st : State) (currentBill : Bill)
  (billItems : list BillItem) : UpdateData :=
  let added := addedItems (orderItems st) in
  let edited := computeEditedItems st billItems in
  let isCompleteOrder :=
    Nat.eqb (List.length added) 0 && Nat.eqb (List.length edited) 0 in
  mkUpdateData (existingBillId st)
    (if isCompleteOrder then "bill-printed" else bill_status currentBill)
    edited added.

(** [err.response?.data?.message || err.message || 'Unknown error']. *)
Definition errorText (err : AxiosError) : string :=
  if Js.truthyOpt (err_serverMessage err)
  then Js.strOr (err_serverMessage err) EmptyString
  else Js.strOr (err_message err) "Unknown error".

(** The [catch] arm of [updateKOT]. *)
Definition updateFailed (err : AxiosError) : Alert :=
  mkAlert "Failed to update KOT" (errorText err).

(** A thrown [Error(message)] or [TypeError], seen as what [catch]
    receives: no response, only a message. *)
Definition thrown (message : string) : AxiosError :=
  mkAxiosError None None (Some message).

(** What one run of [updateKOT] leaves: the state, the alerts shown and
    the request that was sent, if one was. *)
Record Run : Type := mkRun {
  run_state : State;
  run_alerts : list Alert;
  run_request : option UpdateData
}.

(** The local commit after a 200/201 answer, before the re-sync. *)
Definition commitUpdate (st : State) : State :=
  let updatedItems :=
    filter (fun item => negb (statusIs removed item))
      (map (fun item =>
              if statusIs addon item
              then mkOrderItem (product item) (quantity item) (Some original)
                     (originalQuantity item) (localId item)
                     (serverItemIds item)
              else item) (orderItems st)) in
  setSuppressRemovedAfterFetch true
    (setHasPendingChanges false
       (setOriginalSubmittedItems (filter isOriginal updatedItems)
          (setOrderItems updatedItems st))).

(** The effect declared beside [computePending], as it runs after a
    render in which [orderItems], [originalSubmittedItems] or
    [existingBillId] changed: [setHasPendingChanges(computePending())]. *)
Definition pendingEffect (st : State) : State :=
  setHasPendingChanges (computePending st) st.

(** [updateKOT].  [billResponse] is what the awaited [getTableStatus] did,
    [putResponse] what the awaited [PUT /api/bill/update] did and
    [refetch] what the [getTableStatus] of the closing [fetchLastOrder]
    did; [typeError] is the text of the engine's [TypeError].

    Before the answer of the update no setter of the handler touches a
    dependency of the pending-changes effect, so the effect does not run
    on those paths.  After a 200/201 answer the commit stores a new
    [orderItems] array and the render that follows runs the effect; the
    closing [fetchLastOrder], which passes its guard here, stores
    [orderItems] again or drops the bill id, and the effect runs once
    more, so the flag that stays is the one computed from the final
    draft and not the [false] the handler wrote. *)
Definition updateKOT (env : Env) (suppress : bool) (now typeError : string)
  (billResponse : Axios TableStatus) (putResponse : Axios unit)
  (refetch : Axios TableStatus) (st : State) : Run :=
  if isLoadingIp env then mkRun st [] None
  else if negb (Js.truthyOpt (apiUrl env))
  then mkRun st [mkAlert "Error" "Server IP not configured. Please login first."] None
  else if noTable env
  then mkRun st [mkAlert "Select Table" "Please select a table before updating KOT."] None
  else if negb (Js.truthyOpt (existingBillId st))
  then mkRun st [mkAlert "Error" "No existing order found. Please submit a new order first."] None
  else
    let st1 := setLoading true st in
    let caught err req := mkRun (setLoading false st1) [updateFailed err] req in
    match billResponse with
    | Rejected err => caught err None
    | Fulfilled _ None => caught (thrown typeError) None
    | Fulfilled _ (Some data) =>
        match ts_data data with
        | None => caught (thrown "Could not fetch current bill") None
        | Some currentBill =>
            if negb (String.eqb (ts_status data) "success")
            then caught (thrown "Could not fetch current bill") None
            else
              match bill_items currentBill with
              | None => caught (thrown typeError) None
              | Some billItems =>
                  let updateData := buildUpdateData st currentBill billItems in
                  match putResponse with
                  | Rejected err => caught err (Some updateData)
                  | Fulfilled status _ =>
                      if (status =? 200) || (status =? 201)
                      then
                        let st2 := pendingEffect (commitUpdate st1) in
                        let st3 :=
                          pendingEffect
                            (fetchLastOrder env suppress now refetch st2) in
                        mkRun (setLoading false st3)
                              [mkAlert "Success" "KOT updated successfully!"]
                              (Some updateData)
                      else mkRun (setLoading false st1) [] (Some updateData)
                  end
              end
        end
    end.

(** ** The distribution rule in the specification's words

    For one product, walk its active rows in order, give each row
    [min(row quantity, remaining)] and take that away from [remaining];
    a row whose share differs from its quantity is an edit, of type
    [edit] when the share is positive and [canceled] when it is zero. *)

Definition rowQuantity (r : BillItem) : Z := Js.qtyOr0 (item_quantity r).

Fixpoint greedyShares (remaining : Z) (rows : list BillItem)
  : list (BillItem * Z) :=
  match rows with
  | [] => []
  | r :: rest =>
      let share := Z.min (rowQuantity r) remaining in
      (r, share) :: greedyShares (remaining - share) rest
  end.

Definition shareDiffers (rs : BillItem * Z) : bool :=
  negb (snd rs =? rowQuantity (fst rs)).

Definition editOfShare (rs : BillItem * Z) : EditedItem :=
  mkEditedItem (item_id (fst rs)) (snd rs)
               (if 0 <? snd rs then edit else canceled).

Definition greedyEdits (desired : Z) (rows : list BillItem) : list EditedItem :=
  map editOfShare (filter shareDiffers (greedyShares desired rows)).

(** ** Vocabulary of the statements *)

(** The screen can talk to the server: address known, table selected. *)
Definition ready (env : Env) : bool :=
  Js.truthyOpt (apiUrl env) && negb (noTable env) && negb (isLoadingIp env).

(** The rows of a bill that belong to one product, in the bill's order. *)
Definition rowsFor (pid : string) (items : list BillItem) : list BillItem :=
  filter (fun bi => match pidOf bi with
                    | Some k => String.eqb k pid
                    | None => false
                    end) items.

(** The sum of a list of quantities. *)
Definition Zsum (l : list Z) : Z := fold_right Z.add 0 l.

(** The lines of a draft for one product with one status. *)
Definition linesOf (pid : string) (s : ItemStatus) (items : list OrderItem)
  : list OrderItem :=
  filter (fun l => ofProduct pid l && statusIs s l) items.

(** The units a draft holds for a product, removed lines aside. *)
Definition draftQuantity (pid : string) (items : list OrderItem) : Z :=
  getTotalItems (filter (ofProduct pid) items).

(** The units recorded as removed for a product. *)
Definition removedUnits (pid : string) (items : list OrderItem) : Z :=
  Zsum (map quantity (linesOf pid removed items)).

(** On a submitted bill the lines of a product are classified: each is
    original, addon or removed (a line without a status is only ever
    made while there is no bill). *)
Definition classified (pid : string) (items : list OrderItem) : Prop :=
  forall l, In l items -> ofProduct pid l = true -> itemStatus l <> None.

(** The removed line of a product, if the draft has one. *)
Definition removedLineOf (pid : string) (items : list OrderItem)
  : option OrderItem :=
  Js.find (fun i => ofProduct pid i && statusIs removed i) items.

(** The amount a decrement of [target] records as the pre-removal
    quantity: what was submitted for the product, or else what the line
    holds plus what was already removed. *)
Definition preRemovalTotal (st : State) (target : OrderItem) : Z :=
  let pid := _id (product target) in
  match Js.find (ofProduct pid) (originalSubmittedItems st) with
  | Some o => quantity o
  | None =>
      quantity target
      + match removedLineOf pid (orderItems st) with
        | Some e => quantity e
        | None => 0
        end
  end.

(** What the grouping loop maintains: keys are distinct and the group of
    a key is the rows seen so far for it, in order. *)
Definition groupsOf (seen : list BillItem) (m : JsMap.t (list BillItem)) : Prop :=
  NoDup (JsMap.keys m)
  /\ forall k, JsMap.get m k
               = match rowsFor k seen with
                 | [] => None
                 | l => Some l
                 end.

(** The one original line of a product with active rows. *)
Definition activeLineOf (pid : string) (rows : list BillItem) (proto : BillItem)
  : OrderItem :=
  let active := filter isActiveRow rows in
  mkOrderItem (protoProduct pid proto) (sumQuantity active) (Some original)
              (Some (sumQuantity active)) (Some ("srv-" ++ pid)%string)
              (Some (rowIds active)).

(** A call that failed: the network gave no answer, or the server
    answered outside 2xx. *)
Definition failedAnswer {A} (a : Answer A) : Prop :=
  match a with
  | NoAnswer _ => True
  | Http status _ _ => status < 200 \/ 300 <= status
  end.

(** An answer of [getTableStatus] that resolved with a bill. *)
Definition successWith (code : Z) (bill : Bill) : Axios TableStatus :=
  Fulfilled code (Some (mkTableStatus "success" (Some bill))).

(** ** Sample data

    A table of the dining room, a two-unit tea order and the bill the
    server holds for it once the order was completed. *)

Definition tableFour : Env :=
  mkEnv (Some "http://192.168.1.20:5000") (Some 4) false.

Definition teaRow : BillItem :=
  mkBillItem (Some "i1") (Some (RefId "p1")) (Some "Tea") (Some 2)
             (Some 10%float) "active".

Definition completedBill : Bill :=
  mkBill (Some "b1") (Some "B-7") "completed" (Some [teaRow]).

Definition pendingBill : Bill :=
  mkBill (Some "b1") (Some "B-7") "pending" (Some [teaRow]).

Definition tea : Product := mkProduct "p1" "Tea" (Some 10%float).

(** The line sync makes of [teaRow]. *)
Definition teaLine : OrderItem :=
  mkOrderItem tea 2 (Some original) (Some 2) (Some "srv-p1") (Some ["i1"]).

(** A draft as sync leaves it for a bill with one line of [q] units of
    [pr], on the bill [String c rest]. *)
Definition syncedLine (pr : Product) (q : Z) (ids : option (list string))
  : OrderItem :=
  mkOrderItem pr q (Some original) (Some q) (Some ("srv-" ++ _id pr)%string) ids.

Definition syncedState (pr : Product) (q : Z) (ids : option (list string))
  (c : Ascii.ascii) (rest : string) (number : option string) : State :=
  mkState [syncedLine pr q ids] [syncedLine pr q ids] (Some (String c rest))
          number false false false false.

(** The removed line a first decrement at time [now] creates. *)
Definition removedCompanion (pr : Product) (units total : Z) (now : string)
  : OrderItem :=
  mkOrderItem pr units (Some removed) (Some total)
              (Some ("removed-" ++ _id pr ++ "-" ++ now)%string) None.

(** ** The bill's life cycle

    The handlers that create, complete, cancel and clear a bill also keep
    the reserved bill number's sequence and its loading flag, which sit
    beside the cells of [State]. *)

Record Screen : Type := mkScreen {
  core : State;
  sequenceNumber : Z;
  billNumberLoading : bool
}.

Definition withCore (f : State -> State) (sc : Screen) : Screen :=
  mkScreen (f (core sc)) (sequenceNumber sc) (billNumberLoading sc).

Definition setSequenceNumber (v : Z) (sc : Screen) : Screen :=
  mkScreen (core sc) v (billNumberLoading sc).

Definition setBillNumberLoading (v : bool) (sc : Screen) : Screen :=
  mkScreen (core sc) (sequenceNumber sc) v.

(** The body of a [getBillNumber] answer. *)
Record BillNumberInfo : Type := mkBillNumberInfo {
  currentBillNumber : option string;
  number : Z
}.

(** An entry of [sanitizedItems]. *)
Record SanitizedItem : Type := mkSanitizedItem {
  sanitized_productId : string;
  sanitized_name : string;
  sanitized_quantity : Z;
  sanitized_price : float;
  sanitized_subtotal : float
}.

(** The [billData] of a create request, its date aside. *)
Record BillData : Type := mkBillData {
  data_billNumber : option string;
  data_paymentMethod : string;
  data_status : string;
  data_orderType : string;
  data_tableNumber : option Z;
  data_items : list SanitizedItem;
  data_totalAmount : float;
  data_cgst : float;
  data_sgst : float;
  data_payableAmount : float
}.

(** A request that changes the server. *)
Inductive Sent : Type :=
| SentCreate (billData : BillData)
| SentUpdateStatus (billId : option string) (status : string)
| SentSequence (n : Z).

(** What the server does to each call of one handler run. *)
Record Server : Type := mkServer {
  onGetBillNumber : Axios BillNumberInfo;
  onCreate : Axios unit;
  onUpdateSequence : Axios unit;
  onRefreshBillNumber : Axios BillNumberInfo;
  onUpdateStatus : Axios unit;
  onGetTableStatus : Axios TableStatus
}.

(** What a handler run leaves. *)
Record Outcome : Type := mkOutcome {
  out_screen : Screen;
  out_alerts : list Alert;
  out_sent : list Sent
}.

(** [response.status === 200 || response.status === 201]. *)
Definition okStatus (status : Z) : bool :=
  (status =? 200) || (status =? 201).

(** [fetchBillNumber]: the screen after it and what it returns ([None]
    for [null]). *)
Definition fetchBillNumber (env : Env) (response : Axios BillNumberInfo)
  (sc : Screen) : Screen * option (option string * Z) :=
  if negb (Js.truthyOpt (apiUrl env)) then (sc, None)
  else
    let sc := setBillNumberLoading true sc in
    match response with
    | Fulfilled _ (Some data) =>
        let sc := withCore (setBillNumber (currentBillNumber data)) sc in
        let sc := setSequenceNumber (number data) sc in
        (setBillNumberLoading false sc,
         Some (currentBillNumber data, number data))
    | _ => (setBillNumberLoading false sc, None)
    end.

(** [updateBillNumber(currentSequenceNumber)]: the screen after it, what
    it returns and the sequence it sent. *)
Definition updateBillNumber (env : Env) (currentSequenceNumber : option Z)
  (put : Axios unit) (refreshed : Axios BillNumberInfo) (sc : Screen)
  : Screen * bool * list Sent :=
  if negb (Js.truthyOpt (apiUrl env)) then (sc, false, [])
  else
    let seqToUse := match currentSequenceNumber with
                    | Some n => n
                    | None => sequenceNumber sc
                    end in
    let sent := [SentSequence (seqToUse + 1)] in
    match put with
    | Fulfilled status _ =>
        if okStatus status
        then
          match refreshed with
          | Fulfilled _ (Some data) =>
              (setSequenceNumber (number data)
                 (withCore (setBillNumber (currentBillNumber data)) sc),
               true, sent)
          | _ => (setSequenceNumber (seqToUse + 1) sc, true, sent)
          end
        else (sc, false, sent)
    | Rejected _ => (sc, false, sent)
    end.

(** [orderItems.map(...)] of [submitKOT] and [handleCompleteOrder]. *)
Definition sanitizedItems (items : list OrderItem) : list SanitizedItem :=
  map (fun item =>
         let price := unitPrice (product item) in
         mkSanitizedItem (_id (product item)) (name (product item))
                         (quantity item) price
                         (price * Js.ofZ (quantity item))%float)
      items.

(** The [billData] both handlers build. *)
Definition buildBillData (taxSettings : TaxSettings) (env : Env)
  (fetchedBillNumber : option string) (status : string)
  (items : list OrderItem) : BillData :=
  let totalAmount := getTotalOrderCost items in
  let taxes := computeTaxAmounts taxSettings totalAmount in
  mkBillData fetchedBillNumber "cash" status "dine-in" (tableNumber env)
             (sanitizedItems items) totalAmount (cgstAmount taxes)
             (sgstAmount taxes) (payableAmount taxes).

(** [{ ...item, itemStatus: 'original' }]. *)
Definition asOriginal (item : OrderItem) : OrderItem :=
  mkOrderItem (product item) (quantity item) (Some original)
              (originalQuantity item) (localId item) (serverItemIds item).

(** The state reset shared by a completed and a cancelled order. *)
Definition clearedForNewOrder (sc : Screen) : Screen :=
  setSequenceNumber 0
    (withCore (fun st =>
                 setExistingBillId None
                   (setBillNumber None
                      (setOriginalSubmittedItems [] (setOrderItems [] st))))
              sc).

Definition serverIpAlert : Alert :=
  mkAlert "Error" "Server IP not configured. Please login first.".

Definition billNumberAlert : Alert :=
  mkAlert "Error" "Failed to fetch bill number. Please try again.".

(** The alert of [submitKOT] when the table already has a bill; the
    button's name is quoted in it. *)
Definition conflictAlert : Alert :=
  let q := String (Ascii.ascii_of_nat 34) EmptyString in
  mkAlert "Error"
    ("An order already exists for this table. Please use " ++ q
     ++ "Update KOT" ++ q ++ " to modify it.")%string.

(** [submitKOT].  [suppress] and [now] are those of the closing
    [fetchLastOrder]. *)
Definition submitKOT (taxSettings : TaxSettings) (env : Env) (suppress : bool)
  (now : string) (srv : Server) (sc : Screen) : Outcome :=
  if isLoadingIp env then mkOutcome sc [] []
  else if negb (Js.truthyOpt (apiUrl env))
  then mkOutcome sc [serverIpAlert] []
  else if noTable env
  then mkOutcome sc
         [mkAlert "Select Table" "Please select a table before submitting KOT."] []
  else if Nat.eqb (List.length (orderItems (core sc))) 0
  then mkOutcome sc
         [mkAlert "Empty Order" "Add items to the order before submitting."] []
  else
    let items := orderItems (core sc) in
    let sc1 := withCore (setLoading true) sc in
    let fetched := fetchBillNumber env (onGetBillNumber srv) sc1 in
    let sc2 := fst fetched in
    let stop alerts sent := mkOutcome (withCore (setLoading false) sc2) alerts sent in
    match snd fetched with
    | None => stop [billNumberAlert] []
    | Some (fetchedBillNumber, fetchedSequenceNumber) =>
        if negb (Js.truthyOpt fetchedBillNumber) then stop [billNumberAlert] []
        else
          let billData :=
            buildBillData taxSettings env fetchedBillNumber "pending" items in
          if Js.truthyOpt (existingBillId (core sc))
          then stop [conflictAlert] []
          else
            match onCreate srv with
            | Rejected err =>
                stop [mkAlert "Failed to create bill" (errorText err)]
                     [SentCreate billData]
            | Fulfilled status _ =>
                if okStatus status
                then
                  let updated :=
                    updateBillNumber env (Some fetchedSequenceNumber)
                      (onUpdateSequence srv) (onRefreshBillNumber srv) sc2 in
                  let sc3 := fst (fst updated) in
                  let originalItems := map asOriginal items in
                  let sc4 :=
                    withCore (fun st =>
                                setOriginalSubmittedItems originalItems
                                  (setOrderItems originalItems st)) sc3 in
                  let sc5 :=
                    withCore (fetchLastOrder env suppress now
                                (onGetTableStatus srv)) sc4 in
                  mkOutcome (withCore (setLoading false) sc5)
                            [mkAlert "Success" "KOT submitted successfully!"]
                            (SentCreate billData :: snd updated)
                else stop [] [SentCreate billData]
            end
    end.


(** [handleCompleteOrder]. *)
Definition handleCompleteOrder (taxSettings : TaxSettings) (env : Env)
  (srv : Server) (sc : Screen) : Outcome :=
  if isLoadingIp env then mkOutcome sc [] []
  else if negb (Js.truthyOpt (apiUrl env))
  then mkOutcome sc [serverIpAlert] []
  else if noTable env
  then mkOutcome sc
         [mkAlert "Select Table" "Please select a table before completing order."] []
  else if Nat.eqb (List.length (orderItems (core sc))) 0
  then mkOutcome sc
         [mkAlert "Empty Order" "Add items to the order before completing."] []
  else
    let items := orderItems (core sc) in
    let sc1 := withCore (setLoading true) sc in
    let finish sc' response sent :=
      match response with
      | Rejected err =>
          mkOutcome (withCore (setLoading false) sc')
                    [mkAlert "Failed to complete order" (errorText err)] sent
      | Fulfilled status _ =>
          if okStatus status
          then mkOutcome (withCore (setLoading false) (clearedForNewOrder sc'))
                         [mkAlert "Success" "Order completed successfully!"]
                         sent
          else mkOutcome (withCore (setLoading false) sc') [] sent
      end in
    if Js.truthyOpt (existingBillId (core sc))
    then finish sc1 (onUpdateStatus srv)
                [SentUpdateStatus (existingBillId (core sc)) "completed"]
    else
      let fetched := fetchBillNumber env (onGetBillNumber srv) sc1 in
      let sc2 := fst fetched in
      let noNumber :=
        mkOutcome (withCore (setLoading false) sc2) [billNumberAlert] [] in
      match snd fetched with
      | None => noNumber
      | Some (fetchedBillNumber, fetchedSequenceNumber) =>
          if negb (Js.truthyOpt fetchedBillNumber) then noNumber
          else
            let billData :=
              buildBillData taxSettings env fetchedBillNumber "completed"
                            items in
            match onCreate srv with
            | Fulfilled status _ =>
                if okStatus status
                then
                  let updated :=
                    updateBillNumber env (Some fetchedSequenceNumber)
                      (onUpdateSequence srv) (onRefreshBillNumber srv) sc2 in
                  finish (fst (fst updated)) (onCreate srv)
                         (SentCreate billData :: snd updated)
                else finish sc2 (onCreate srv) [SentCreate billData]
            | Rejected _ => finish sc2 (onCreate srv) [SentCreate billData]
            end
      end.

(** The [Clear] button of [handleClearOrder]'s dialog. *)
Definition clearConfirmed (sc : Screen) : Screen :=
  let sc := withCore (fun st => setOriginalSubmittedItems []
                                  (setOrderItems [] st)) sc in
  if negb (Js.truthyOpt (existingBillId (core sc)))
  then setSequenceNumber 0 (withCore (setBillNumber None) sc)
  else sc.

(** [handleClearOrder]; [confirmed] tells whether the user pressed
    [Clear] in the dialog. *)
Definition handleClearOrder (confirmed : bool) (sc : Screen) : Screen :=
  if confirmed then clearConfirmed sc else sc.

(** [handleCancelOrder]; [confirmed] tells whether the user confirmed the
    dialog that the handler opens. *)
Definition handleCancelOrder (env : Env) (confirmed : bool) (srv : Server)
  (sc : Screen) : Outcome :=
  if isLoadingIp env then mkOutcome sc [] []
  else if negb (Js.truthyOpt (apiUrl env))
  then mkOutcome sc [serverIpAlert] []
  else if negb (Js.truthyOpt (existingBillId (core sc)))
  then mkOutcome (handleClearOrder confirmed sc) [] []
  else if negb confirmed then mkOutcome sc [] []
  else
    let sc1 := withCore (setLoading true) sc in
    let sent := [SentUpdateStatus (existingBillId (core sc)) "cancelled"] in
    match onUpdateStatus srv with
    | Rejected err =>
        mkOutcome (withCore (setLoading false) sc1)
                  [mkAlert "Failed to cancel order" (errorText err)] sent
    | Fulfilled status _ =>
        if okStatus status
        then mkOutcome (withCore (setLoading false) (clearedForNewOrder sc1))
                       [mkAlert "Success" "Order cancelled successfully!"] sent
        else mkOutcome (withCore (setLoading false) sc1) [] sent
    end.

(** The effect that runs when the table of the route changes. *)
Definition tableChanged (st : State) : State :=
  setBillNumber None
    (setExistingBillId None
       (setOriginalSubmittedItems [] (setOrderItems [] st))).

(** ** The earlier decrement

    The third iteration of the screen ([app/(tabs)/order.tsx]) removes an
    original line in place when its last unit goes, which is the shape
    the restore button was written for. *)

Module OrderV3.

Definition handleDecrementQuantity (lid : string) (st : State) : State :=
  let items := orderItems st in
  match Js.findIndex (hasLocalId lid) items with
  | None => st
  | Some idx =>
      match nth_error items idx with
      | None => st
      | Some target =>
          let newQuantity := quantity target - 1 in
          if newQuantity <=? 0
          then
            if isOriginal target && Js.truthyOpt (existingBillId st)
            then setOrderItems
                   (Js.setAt items idx
                      (mkOrderItem (product target) 0 (Some removed)
                         (Some (quantity target)) (localId target)
                         (serverItemIds target))) st
            else setOrderItems (Js.removeAt items idx) st
          else setOrderItems
                 (Js.setAt items idx (withQuantity target newQuantity)) st
      end
  end.

End OrderV3.

(** ** Invariants of the draft *)

(** A line whose quantity, and stored original quantity if any, is not
    negative. *)
Definition lineNonneg (l : OrderItem) : Prop :=
  0 <= quantity l /\ forall q, originalQuantity l = Some q -> 0 <= q.

(** No negative quantity in the draft or in the last submitted lines. *)
Definition nonnegDraft (st : State) : Prop :=
  Forall lineNonneg (orderItems st)
  /\ Forall lineNonneg (originalSubmittedItems st).

(** While a bill id is set, every line of the draft is classified. *)
Definition billClassified (st : State) : Prop :=
  Js.truthyOpt (existingBillId st) = true ->
  forall l, In l (orderItems st) -> itemStatus l <> None.

(** The active units held by the groups of a map. *)
Definition groupedUnits (m : JsMap.t (list BillItem)) : Z :=
  Zsum (map (fun kv => Zsum (map rowQuantity (filter isActiveRow (snd kv)))) m).

(** The rows sync counts: active ones that name a product. *)
Definition countedRow (bi : BillItem) : bool :=
  match pidOf bi with
  | Some _ => isActiveRow bi
  | None => false
  end.

(** No product id of the rows begins with [removed-] (the ids of the
    backend are hexadecimal). *)
Definition plainIds (rows : list BillItem) : Prop :=
  forall r k, In r rows -> pidOf r = Some k ->
              String.prefix "removed-" k = false.

(** The minus button of the line [lid] pressed once per entry of
    [nows], each entry being the clock at that press. *)
Definition pressMinus (lid : string) (nows : list string) (st : State) : State :=
  fold_left (fun s now => handleDecrementQuantity now lid s) nows st.

(** A product tapped once per entry of [freshes], each entry being the
    suffix a new local id would get at that tap. *)
Definition tapProduct (pr : Product) (freshes : list string) (st : State)
  : State :=
  fold_left (fun s fresh => handleAddToOrder fresh pr s) freshes st.

(** The alert of a created bill. *)
Definition submitSuccess : Alert :=
  mkAlert "Success" "KOT submitted successfully!".

(** ** The table screen

    [HomeScreen] of [app/(tabs)/index.tsx] lists the tables and marks
    the occupied ones. *)

Module Home.

(** The body of a [currentCount] answer. *)
Record CountInfo : Type := mkCountInfo {
  count : option Z
}.

(** The cells of the screen that [fetchAvailableTables] writes.
    [occupiedTables] is a [Set]: its members are listed in insertion
    order. *)
Record Tables : Type := mkTables {
  availableTables : list Z;
  occupiedTables : list Z;
  tablesLoading : bool
}.

(** [const occupiedStatuses = ['pending', 'preparing', 'ready']]. *)
Definition occupiedStatuses : list string := ["pending"; "preparing"; "ready"].

(** Whether one table's check pushes the table to
    [occupiedTableNumbers]; a check that throws is caught and pushes
    nothing. *)
Definition isOccupied (tableResponse : Axios TableStatus) : bool :=
  match tableResponse with
  | Fulfilled _ (Some data) =>
      match ts_data data with
      | Some bill =>
          String.eqb (ts_status data) "success"
          && OrderV1.includes occupiedStatuses (bill_status bill)
      | None => false
      end
  | Fulfilled _ None => false
  | Rejected _ => false
  end.

(** [Array.from({ length: count }, (_, i) => i + 1)]. *)
Definition allTables (count : Z) : list Z :=
  map (fun i => Z.of_nat i + 1) (seq 0 (Z.to_nat count)).

(** [err.response?.data?.message || err.message || '...']. *)
Definition failureText (err : AxiosError) : string :=
  if Js.truthyOpt (err_serverMessage err)
  then Js.strOr (err_serverMessage err) EmptyString
  else Js.strOr (err_message err)
         "Please check your connection and try again.".

(** [fetchAvailableTables], once the checks it starts have all settled.
    [tablesResponse] is what the count call did, [checks] what the
    [getTableStatus] call of each table did and [settled] the order in
    which those calls settled, which is the order of the pushes. *)
Definition fetchAvailableTables (env : Env) (typeError : string)
  (tablesResponse : Axios CountInfo) (checks : Z -> Axios TableStatus)
  (settled : list Z) (s : Tables) : Tables * list Alert :=
  if isLoadingIp env then (s, [])
  else if negb (Js.truthyOpt (apiUrl env))
  then (s, [mkAlert "Error" "Server IP not configured. Please login first."])
  else
    let failed err :=
      (mkTables [] [] false,
       [mkAlert "Failed to fetch available tables" (failureText err)]) in
    let noTables :=
      (mkTables [] [] false,
       [mkAlert "No Tables" "No available tables found."]) in
    match tablesResponse with
    | Rejected err => failed err
    | Fulfilled status data =>
        if status =? 200
        then
          match data with
          | None => failed (thrown typeError)
          | Some data =>
              match count data with
              | Some c =>
                  if 1 <=? c
                  then (mkTables (allTables c)
                                 (filter (fun t => isOccupied (checks t))
                                         settled)
                                 false, [])
                  else noTables
              | None => noTables
              end
          end
        else noTables
    end.

End Home.

(** The units the last submitted lines hold for a product: what the
    last sync, or the last successful submit or update, left as the
    server's quantity of the product. *)
Definition submittedQuantity (pid : string) (st : State) : Z :=
  Zsum (map quantity (filter (ofProduct pid) (originalSubmittedItems st))).

(** * Properties *)

(** ** Pricing *)

Section PricingFacts.

Local Open Scope float_scope.

Example Math_floor_fraction : Js.Math_floor 209.9895 = 209.
Proof. vm_compute. reflexivity. Qed.

Example Math_floor_negative : Js.Math_floor (-2.5) = -3.
Proof. vm_compute. reflexivity. Qed.

Example Math_floor_small : Js.Math_floor 0.5 = 0 /\ Js.Math_floor (-0.5) = -1.
Proof. split; vm_compute; reflexivity. Qed.

Example Math_floor_integer : Js.Math_floor 130 = 130 /\ Js.Math_floor 1e300 = 1e300.
Proof. split; vm_compute; reflexivity. Qed.

Example ofZ_quantity : Js.ofZ 3 = 3 /\ Js.ofZ (-2) = -2 /\ Js.ofZ 0 = 0.
Proof. repeat split; vm_compute; reflexivity. Qed.

(** Scenario of the specification: two of a product at 50 and one of a
    product at 30 make a subtotal of 130. *)
Example subtotal_fresh_order :
  getTotalOrderCost
    [mkOrderItem (mkProduct "a" "A" (Some 50)) 2 None None (Some "local-1") None;
     mkOrderItem (mkProduct "b" "B" (Some 30)) 1 None None (Some "local-2") None]
  = 130.
Proof. vm_compute. reflexivity. Qed.

Lemma numOr_idempotent (x : float) : Js.numOr (Js.numOr x 0) 0 = Js.numOr x 0.
Proof.
  unfold Js.numOr.
  destruct (Js.truthyNum x) eqn:E.
  - rewrite E. reflexivity.
  - reflexivity.
Qed.

Lemma not_infinity_spec (x : float) (s : bool) :
  PrimFloat.is_infinity x = false -> Prim2SF x <> S754_infinity s.
Proof.
  intros H E. unfold PrimFloat.is_infinity in H.
  rewrite FloatAxioms.eqb_spec, FloatAxioms.abs_spec, E in H.
  vm_compute in H. discriminate.
Qed.

(** Adding two zero tax amounts to an amount that is not infinite gives
    the amount back, sign of zero included. *)
Lemma zero_tax_total (x : float) :
  PrimFloat.is_infinity x = false ->
  x + x * 0 / 100 + x * 0 / 100 = x.
Proof.
  intros H. apply Prim2SF_inj.
  rewrite !FloatAxioms.add_spec, !FloatAxioms.div_spec, !FloatAxioms.mul_spec.
  change (Prim2SF 0) with (S754_zero false).
  let v := eval vm_compute in (Prim2SF 100) in change (Prim2SF 100) with v.
  destruct (Prim2SF x) as [s|s| |s m e] eqn:E.
  - destruct s; vm_compute; reflexivity.
  - exfalso. exact (not_infinity_spec x s H E).
  - vm_compute. reflexivity.
  - unfold SF64mul, SF64div, SF64add, SFmul, SFdiv, SFadd.
    destruct s; reflexivity.
Qed.

Lemma subtotal_skips_removed (items : list OrderItem) :
  getTotalOrderCost items
  = getTotalOrderCost (filter (fun i => negb (statusIs removed i)) items).
Proof.
  unfold getTotalOrderCost. f_equal.
  induction items as [|i r IH]; simpl.
  - reflexivity.
  - destruct (negb (statusIs removed i)) eqn:E; simpl.
    + rewrite E. f_equal. exact IH.
    + exact IH.
Qed.

(** C7. The payable amount is the floor of subtotal plus both tax
    amounts, each tax amount being subtotal times its percentage over
    100, for the initial tax settings and for any settings the screen
    stores after a fetch; subtotal 199.99 at 2.5% and 2.5% gives 209 in
    binary64 arithmetic; with both percentages 0 the payable amount of a
    subtotal that is not infinite is its floor; a product without a
    price has unit price 0 and its line total is the number 0 times the
    quantity. *)
Theorem C7_payable_amount :
  (forall parsedCgst parsedSgst fssai subtotal,
      let ts := fetchedTaxSettings parsedCgst parsedSgst fssai in
      let r := computeTaxAmounts ts subtotal in
      sgstAmount r = subtotal * sgst ts / 100
      /\ cgstAmount r = subtotal * cgst ts / 100
      /\ payableAmount r
         = Js.Math_floor (subtotal + sgstAmount r + cgstAmount r))
  /\ (forall subtotal,
         let r := computeTaxAmounts initialTaxSettings subtotal in
         sgstAmount r = subtotal * 0 / 100
         /\ cgstAmount r = subtotal * 0 / 100
         /\ payableAmount r
            = Js.Math_floor (subtotal + sgstAmount r + cgstAmount r))
  /\ payableAmount
       (computeTaxAmounts (fetchedTaxSettings 2.5 2.5 None) 199.99) = 209
  /\ (forall subtotal fssai,
         PrimFloat.is_infinity subtotal = false ->
         payableAmount (computeTaxAmounts (mkTaxSettings 0 0 fssai) subtotal)
         = Js.Math_floor subtotal)
  /\ (forall id nm, unitPrice (mkProduct id nm None) = 0)
  /\ (forall id nm q st oq lid ids,
         getItemTotal (mkOrderItem (mkProduct id nm None) q st oq lid ids)
         = 0 * Js.ofZ q).
Proof.
  split; [|split; [|split; [|split; [|split]]]].
  - intros parsedCgst parsedSgst fssai subtotal.
    cbv [computeTaxAmounts fetchedTaxSettings sgstAmount cgstAmount
         payableAmount sgst cgst].
    rewrite !numOr_idempotent. repeat split.
  - intros subtotal.
    cbv [computeTaxAmounts initialTaxSettings sgstAmount cgstAmount
         payableAmount sgst cgst].
    change (Js.numOr 0 0) with 0. repeat split.
  - vm_compute. reflexivity.
  - intros subtotal fssai H.
    cbv [computeTaxAmounts payableAmount sgst cgst].
    change (Js.numOr 0 0) with 0.
    rewrite (zero_tax_total subtotal H). reflexivity.
  - intros id nm. reflexivity.
  - intros id nm q st oq lid ids. reflexivity.
Qed.

Lemma C7_payable_amount_witness :
  PrimFloat.is_infinity 199.99 = false
  /\ payableAmount (computeTaxAmounts (mkTaxSettings 0 0 None) 199.99)
     = Js.Math_floor 199.99.
Proof.
  split.
  - vm_compute. reflexivity.
  - destruct C7_payable_amount as (_ & _ & _ & H & _).
    apply H. vm_compute. reflexivity.
Defined.

End PricingFacts.

(** ** Sync and the bill's own status *)

Lemma ready_guard (env : Env) :
  ready env = true ->
  negb (Js.truthyOpt (apiUrl env)) || noTable env || isLoadingIp env = false.
Proof.
  unfold ready. intros H.
  destruct (Js.truthyOpt (apiUrl env)), (noTable env), (isLoadingIp env);
    simpl in *; congruence.
Qed.

(** The final iteration never reads the bill's status. *)
Lemma fetchLastOrder_ignores_bill_status env suppress now code bill s st :
  fetchLastOrder env suppress now (successWith code bill) st
  = fetchLastOrder env suppress now
      (successWith code
         (mkBill (bill_id bill) (bill_billNumber bill) s (bill_items bill))) st.
Proof. reflexivity. Qed.

(** The first iteration frees the table when the bill's status is not an
    active one. *)
Lemma OrderV1_gate_frees_table mapBillItems bill st :
  OrderV1.includes OrderV1.activeStatuses (bill_status bill) = false ->
  let st' := OrderV1.fetchLastOrder mapBillItems
               (mkTableStatus "success" (Some bill)) st in
  existingBillId st' = None /\ orderItems st' = [].
Proof.
  intros Hs st'. subst st'. unfold OrderV1.fetchLastOrder.
  cbn [ts_data ts_status]. rewrite Hs. split; reflexivity.
Qed.

(** C1. On a [success] answer whose bill is [completed], the final
    iteration's sync adopts the bill: the bill id is kept and the bill's
    row becomes an original line, where the specification wants the
    draft cleared and the table free. The first iteration, on the same
    answer, clears the draft and keeps no bill id. *)
Theorem C1_completed_bill_is_adopted :
  let answer := mkTableStatus "success" (Some completedBill) in
  let st' := fetchLastOrder tableFour false "1700000000000"
               (Fulfilled 200 (Some answer)) initialState in
  existingBillId st' = Some "b1"
  /\ orderItems st' = [teaLine]
  /\ originalSubmittedItems st' = [teaLine]
  /\ (forall mapBillItems,
         let v1 := OrderV1.fetchLastOrder mapBillItems answer initialState in
         existingBillId v1 = None /\ orderItems v1 = []).
Proof.
  split; [|split; [|split]].
  - vm_compute. reflexivity.
  - vm_compute. reflexivity.
  - vm_compute. reflexivity.
  - intros mapBillItems. split; reflexivity.
Qed.

(** ** Adding a product *)

Lemma find_app_found {A} (f : A -> bool) (l l' : list A) (x : A) :
  List.find f l = Some x -> List.find f (l ++ l') = Some x.
Proof.
  induction l as [|a r IH]; simpl.
  - discriminate.
  - destruct (f a); [trivial | exact IH].
Qed.

Lemma find_app_missing {A} (f : A -> bool) (l l' : list A) :
  List.find f l = None -> List.find f (l ++ l') = List.find f l'.
Proof.
  induction l as [|a r IH]; simpl.
  - reflexivity.
  - destruct (f a); [discriminate | exact IH].
Qed.

Lemma map_unchanged {A} (f : A -> A) (l : list A) :
  (forall x, In x l -> f x = x) -> map f l = l.
Proof.
  induction l as [|a r IH]; simpl; intros H.
  - reflexivity.
  - rewrite H by (left; reflexivity).
    rewrite IH by (intros x Hx; apply H; right; exact Hx).
    reflexivity.
Qed.

(** The line the lookup of [handleAddToOrder] returns is never a removed
    one. *)
Lemma existingItem_not_removed pr items e :
  existingItemFor pr items = Some e -> statusIs removed e = false.
Proof.
  unfold existingItemFor, Js.find. intros H.
  apply List.find_some in H. destruct H as [_ H].
  apply andb_true_iff in H. destruct H as [_ H].
  apply negb_true_iff in H. exact H.
Qed.

Lemma addBranch_never_restores st pr :
  addBranch st pr <> RestoreRemovedAsAddon.
Proof.
  unfold addBranch.
  destruct (existingItemFor pr (orderItems st)) as [e|] eqn:E.
  - rewrite (existingItem_not_removed _ _ _ E).
    destruct (Js.truthyOpt (existingBillId st) && statusIs original e).
    + destruct (Js.find _ (orderItems st)); discriminate.
    + discriminate.
  - discriminate.
Qed.

(** C10. The arm of [handleAddToOrder] that would restore a removed line
    as an addon is never taken; and when every line of the draft for a
    product is a removed one, adding the product appends one new line of
    quantity 1 (an addon when a bill id is set, unclassified otherwise)
    after the lines of the draft, which stay as they were. *)
Theorem C10_add_skips_removed_lines :
  (forall st pr, addBranch st pr <> RestoreRemovedAsAddon)
  /\ (forall fresh pr st,
         (forall l, In l (orderItems st) ->
                    ofProduct (_id pr) l = true -> statusIs removed l = true) ->
         orderItems (handleAddToOrder fresh pr st)
         = orderItems st
           ++ [mkOrderItem pr 1
                 (if Js.truthyOpt (existingBillId st) then Some addon else None)
                 None (Some ("local-" ++ fresh)%string) None]).
Proof.
  split.
  - exact addBranch_never_restores.
  - intros fresh pr st H.
    assert (E : existingItemFor pr (orderItems st) = None).
    { unfold existingItemFor, Js.find.
      destruct (List.find _ (orderItems st)) as [e|] eqn:F; [|reflexivity].
      apply List.find_some in F. destruct F as [Hin F].
      apply andb_true_iff in F. destruct F as [F1 F2].
      rewrite (H e Hin F1) in F2. discriminate. }
    unfold handleAddToOrder, addBranch. rewrite E. reflexivity.
Qed.

Lemma C10_add_skips_removed_lines_witness :
  let st := mkState [removedCompanion tea 2 2 "17"] [] (Some "b1") None
                    false false false false in
  orderItems (handleAddToOrder "17-ab12cd" tea st)
  = [removedCompanion tea 2 2 "17";
     mkOrderItem tea 1 (Some addon) None (Some "local-17-ab12cd") None].
Proof.
  intros st.
  apply (proj2 C10_add_skips_removed_lines "17-ab12cd" tea st).
  intros l [<-|[]] _. reflexivity.
Defined.

Lemma fold_quantity_shift (l : list OrderItem) (z : Z) :
  fold_left (fun total item => total + quantity item) l z
  = z + fold_left (fun total item => total + quantity item) l 0.
Proof.
  revert z. induction l as [|a r IH]; intros z; simpl.
  - lia.
  - rewrite IH, (IH (quantity a)). lia.
Qed.

Lemma getTotalItems_app (l l' : list OrderItem) :
  getTotalItems (l ++ l') = getTotalItems l + getTotalItems l'.
Proof.
  unfold getTotalItems. rewrite filter_app, fold_left_app.
  apply fold_quantity_shift.
Qed.

Lemma draftQuantity_app pid (l l' : list OrderItem) :
  draftQuantity pid (l ++ l') = draftQuantity pid l + draftQuantity pid l'.
Proof.
  unfold draftQuantity. rewrite filter_app. apply getTotalItems_app.
Qed.

Section AddonIsolation.

Variables (pr : Product) (st : State).

Hypothesis billSubmitted : Js.truthyOpt (existingBillId st) = true.
Hypothesis linesClassified : classified (_id pr) (orderItems st).
Hypothesis hasOriginal : linesOf (_id pr) original (orderItems st) <> [].
Hypothesis noAddon : linesOf (_id pr) addon (orderItems st) = [].

Lemma noAddon_line l :
  In l (orderItems st) -> ofProduct (_id pr) l && statusIs addon l = false.
Proof.
  intros Hin. destruct (ofProduct (_id pr) l && statusIs addon l) eqn:E.
  - assert (Hl : In l (linesOf (_id pr) addon (orderItems st))).
    { apply filter_In. split; assumption. }
    rewrite noAddon in Hl. destruct Hl.
  - reflexivity.
Qed.

Lemma existing_is_original :
  exists e, existingItemFor pr (orderItems st) = Some e
            /\ statusIs original e = true.
Proof.
  unfold existingItemFor, Js.find.
  destruct (List.find _ (orderItems st)) as [e|] eqn:F.
  - exists e. split; [reflexivity|].
    apply List.find_some in F. destruct F as [Hin F].
    apply andb_true_iff in F. destruct F as [F1 F2].
    pose proof (linesClassified e Hin F1) as Hc.
    pose proof (noAddon_line e Hin) as Ha. rewrite F1 in Ha. simpl in Ha.
    unfold statusIs in *. destruct (itemStatus e) as [[| |]|];
      simpl in *; congruence.
  - exfalso.
    destruct (linesOf (_id pr) original (orderItems st)) as [|o r] eqn:L.
    + apply hasOriginal. reflexivity.
    + assert (Ho : In o (linesOf (_id pr) original (orderItems st))).
      { rewrite L. left. reflexivity. }
      apply filter_In in Ho. destruct Ho as [Hin Ho].
      apply andb_true_iff in Ho. destruct Ho as [Ho1 Ho2].
      pose proof (List.find_none _ _ F o Hin) as N. simpl in N.
      rewrite Ho1 in N. simpl in N.
      unfold statusIs in *. destruct (itemStatus o) as [[| |]|];
        simpl in *; congruence.
Qed.

Lemma no_addon_found :
  Js.find (fun item => ofProduct (_id pr) item && statusIs addon item)
          (orderItems st) = None.
Proof.
  unfold Js.find.
  destruct (List.find _ (orderItems st)) as [a|] eqn:F; [|reflexivity].
  apply List.find_some in F. destruct F as [Hin F].
  rewrite (noAddon_line a Hin) in F. discriminate.
Qed.

Lemma first_add_creates_addon fresh :
  orderItems (handleAddToOrder fresh pr st)
  = orderItems st ++ [mkOrderItem pr 1 (Some addon) None None None].
Proof.
  destruct existing_is_original as (e & E & Ho).
  unfold handleAddToOrder, addBranch.
  rewrite E, (existingItem_not_removed _ _ _ E), billSubmitted, Ho.
  simpl. rewrite no_addon_found. reflexivity.
Qed.

Lemma second_add_increments_addon fresh fresh' :
  orderItems (handleAddToOrder fresh' pr (handleAddToOrder fresh pr st))
  = orderItems st ++ [mkOrderItem pr 2 (Some addon) None None None].
Proof.
  destruct existing_is_original as (e & E & Ho).
  set (st1 := handleAddToOrder fresh pr st).
  assert (I1 : orderItems st1
               = orderItems st ++ [mkOrderItem pr 1 (Some addon) None None None])
    by apply first_add_creates_addon.
  assert (B1 : existingBillId st1 = existingBillId st).
  { unfold st1, handleAddToOrder.
    destruct (addBranch st pr); reflexivity. }
  unfold handleAddToOrder at 1. unfold addBranch.
  rewrite I1, B1.
  unfold existingItemFor, Js.find in *.
  rewrite (find_app_found _ _ _ _ E).
  assert (R : statusIs removed e = false).
  { apply (existingItem_not_removed pr (orderItems st)). exact E. }
  rewrite R, billSubmitted, Ho. simpl andb. cbv iota.
  rewrite find_app_missing by apply no_addon_found.
  simpl List.find. unfold ofProduct at 1. simpl.
  rewrite String.eqb_refl. simpl.
  rewrite map_app. simpl. unfold ofProduct at 2. simpl.
  rewrite String.eqb_refl. simpl.
  rewrite map_unchanged.
  - reflexivity.
  - intros x Hx. rewrite (noAddon_line x Hx). reflexivity.
Qed.

End AddonIsolation.

(** C6. On a draft of a submitted bill whose lines for a product are
    classified (original, addon or removed), with an original line and
    no addon line for it, adding
    the product appends a separate addon line of quantity 1 and leaves
    every other line, the original one included, as it was, so the
    draft's quantity for the product grows by one (an original line at 2
    gives 3); adding it again raises that addon line to 2 and creates no
    further line. *)
Theorem C6_addon_isolation (fresh fresh' : string) (pr : Product) (st : State) :
  Js.truthyOpt (existingBillId st) = true ->
  classified (_id pr) (orderItems st) ->
  linesOf (_id pr) original (orderItems st) <> [] ->
  linesOf (_id pr) addon (orderItems st) = [] ->
  let st1 := handleAddToOrder fresh pr st in
  let st2 := handleAddToOrder fresh' pr st1 in
  orderItems st1
  = orderItems st ++ [mkOrderItem pr 1 (Some addon) None None None]
  /\ linesOf (_id pr) original (orderItems st1)
     = linesOf (_id pr) original (orderItems st)
  /\ draftQuantity (_id pr) (orderItems st1)
     = draftQuantity (_id pr) (orderItems st) + 1
  /\ orderItems st2
     = orderItems st ++ [mkOrderItem pr 2 (Some addon) None None None]
  /\ linesOf (_id pr) original (orderItems st2)
     = linesOf (_id pr) original (orderItems st)
  /\ linesOf (_id pr) addon (orderItems st2)
     = [mkOrderItem pr 2 (Some addon) None None None].
Proof.
  intros Hb Hc Ho Ha st1 st2.
  assert (I1 := first_add_creates_addon pr st Hb Hc Ho Ha fresh).
  assert (I2 := second_add_increments_addon pr st Hb Hc Ho Ha fresh fresh').
  fold st1 in I1, I2. fold st2 in I2.
  assert (E : ofProduct (_id pr) (mkOrderItem pr 2 (Some addon) None None None)
              = true) by apply String.eqb_refl.
  assert (E1 : ofProduct (_id pr) (mkOrderItem pr 1 (Some addon) None None None)
               = true) by apply String.eqb_refl.
  repeat split.
  - exact I1.
  - rewrite I1. unfold linesOf. rewrite filter_app. simpl.
    rewrite E1. simpl. apply app_nil_r.
  - rewrite I1, draftQuantity_app. f_equal.
    unfold draftQuantity. simpl. rewrite E1. reflexivity.
  - exact I2.
  - rewrite I2. unfold linesOf. rewrite filter_app. simpl.
    rewrite E. simpl. apply app_nil_r.
  - rewrite I2. unfold linesOf in *. rewrite filter_app, Ha. simpl.
    rewrite E. reflexivity.
Qed.

Lemma C6_addon_isolation_witness :
  let st := mkState [teaLine] [teaLine] (Some "b1") (Some "B-7")
                    false false false false in
  let st1 := handleAddToOrder "17-ab12cd" tea st in
  quantity teaLine = 2
  /\ orderItems st1 = [teaLine; mkOrderItem tea 1 (Some addon) None None None]
  /\ draftQuantity "p1" (orderItems st1) = 3.
Proof.
  intros st st1.
  assert (Hb : Js.truthyOpt (existingBillId st) = true) by reflexivity.
  assert (Hc : classified (_id tea) (orderItems st)).
  { intros l [<-|[]] _. discriminate. }
  assert (Ho : linesOf (_id tea) original (orderItems st) <> [])
    by discriminate.
  assert (Ha : linesOf (_id tea) addon (orderItems st) = []) by reflexivity.
  destruct (C6_addon_isolation "17-ab12cd" "18-ef34ab" tea st Hb Hc Ho Ha)
    as (H1 & _ & H3 & _).
  split; [reflexivity|]. split; [exact H1|]. exact H3.
Defined.

(** The increment button of an original line on a submitted bill adds to
    an addon line instead, and the pending-changes effect sees it. *)
Example increment_original_makes_addon :
  let st := mkState [teaLine] [teaLine] (Some "b1") (Some "B-7")
                    false false false false in
  let st' := handleIncrementQuantity "17-ab12cd" "srv-p1" st in
  orderItems st'
  = [teaLine;
     mkOrderItem tea 1 (Some addon) None (Some "local-17-ab12cd") None]
  /\ computePending st = false
  /\ computePending st' = true.
Proof. repeat split; vm_compute; reflexivity. Qed.

(** ** Removing and restoring *)

Lemma srv_is_not_removed_id (x y : string) :
  String.eqb ("removed-" ++ x) ("srv-" ++ y) = false.
Proof. reflexivity. Qed.

Lemma removed_is_not_srv_id (x y : string) :
  String.eqb ("srv-" ++ y) ("removed-" ++ x) = false.
Proof. reflexivity. Qed.

(** Evaluation of the handlers on drafts whose ids are symbolic. *)
Ltac crunch :=
  repeat first
    [ rewrite String.eqb_refl
    | rewrite srv_is_not_removed_id
    | rewrite removed_is_not_srv_id
    | progress cbn -[String.eqb String.append]
    | progress unfold ofProduct, hasLocalId, sameLocalId ].

(** C2. From a draft with one original line of 5 units on a submitted
    bill, two decrements leave the original line at 3 and a removed line
    with quantity 2 and originalQuantity 5, as specified. Restoring
    that removed line turns it into an original line of 5 units and
    leaves the reduced original line in place: the draft then holds two
    original lines for the product, 8 units in all, where the
    specification wants a single original line at 5. *)
Theorem C2_restore_keeps_reduced_original
  (pr : Product) (ids : option (list string)) (c : Ascii.ascii)
  (rest : string) (number : option string) (now now' : string) :
  let lid := ("srv-" ++ _id pr)%string in
  let st0 := syncedState pr 5 ids c rest number in
  let st2 := handleDecrementQuantity now' lid
               (handleDecrementQuantity now lid st0) in
  let gone := removedCompanion pr 2 5 now in
  let st3 := restoreRemoved gone st2 in
  orderItems st2 = [withQuantity (syncedLine pr 5 ids) 3; gone]
  /\ orderItems st3
     = [withQuantity (syncedLine pr 5 ids) 3;
        mkOrderItem pr 5 (Some original) None (localId gone) None]
  /\ linesOf (_id pr) removed (orderItems st3) = []
  /\ List.length (linesOf (_id pr) original (orderItems st3)) = 2%nat
  /\ draftQuantity (_id pr) (orderItems st3) = 8.
Proof.
  intros lid st0 st2 gone st3.
  assert (E2 : orderItems st2 = [withQuantity (syncedLine pr 5 ids) 3; gone]).
  { subst st2 st0 lid gone.
    unfold handleDecrementQuantity, syncedState, syncedLine, removedCompanion.
    crunch. reflexivity. }
  assert (E3 : orderItems st3
               = [withQuantity (syncedLine pr 5 ids) 3;
                  mkOrderItem pr 5 (Some original) None (localId gone) None]).
  { subst st3. unfold restoreRemoved. cbn [orderItems setOrderItems].
    rewrite E2. subst gone. unfold removedCompanion, syncedLine.
    crunch. reflexivity. }
  split; [exact E2|]. split; [exact E3|].
  rewrite E3. unfold linesOf, draftQuantity, syncedLine.
  crunch. repeat split.
Qed.

(** ** Update KOT: failure *)

Lemma settle_failed {A} (a : Answer A) :
  failedAnswer a -> exists err, settle a = Rejected err.
Proof.
  destruct a as [m|status msg data]; simpl; intros H.
  - eexists. reflexivity.
  - assert (E : (200 <=? status) && (status <? 300) = false).
    { apply andb_false_iff. destruct H as [H|H].
      - left. apply Z.leb_gt. exact H.
      - right. apply Z.ltb_ge. exact H. }
    rewrite E. eexists. reflexivity.
Qed.

Lemma ready_parts (env : Env) :
  ready env = true ->
  isLoadingIp env = false
  /\ Js.truthyOpt (apiUrl env) = true
  /\ noTable env = false.
Proof.
  unfold ready. intros H.
  destruct (Js.truthyOpt (apiUrl env)), (noTable env), (isLoadingIp env);
    simpl in H; try discriminate. repeat split.
Qed.

(** C9. When the update call fails (no answer, or an answer outside
    2xx), whatever the preceding fetch of the bill did, [updateKOT]
    shows one "Failed to update KOT" alert and leaves orderItems,
    originalSubmittedItems, hasPendingChanges, existingBillId and
    billNumber as they were; when the request had been sent, the alert
    carries the text of that failure. *)
Theorem C9_failed_update_keeps_state
  (env : Env) (suppress : bool) (now typeError : string)
  (billResponse : Axios TableStatus) (putAnswer : Answer unit)
  (refetch : Axios TableStatus) (st : State) :
  ready env = true ->
  Js.truthyOpt (existingBillId st) = true ->
  failedAnswer putAnswer ->
  let r := updateKOT env suppress now typeError billResponse
             (settle putAnswer) refetch st in
  orderItems (run_state r) = orderItems st
  /\ originalSubmittedItems (run_state r) = originalSubmittedItems st
  /\ hasPendingChanges (run_state r) = hasPendingChanges st
  /\ existingBillId (run_state r) = existingBillId st
  /\ billNumber (run_state r) = billNumber st
  /\ (exists err, run_alerts r = [updateFailed err])
  /\ (forall req err,
         run_request r = Some req ->
         settle putAnswer = Rejected err ->
         run_alerts r = [updateFailed err]).
Proof.
  intros Hready Hbill Hfail r.
  destruct (ready_parts env Hready) as (H1 & H2 & H3).
  destruct (settle_failed putAnswer Hfail) as [perr Hput].
  subst r. unfold updateKOT. rewrite H1, H2, H3, Hbill, Hput. simpl.
  destruct billResponse as [code [data|]|berr]; simpl.
  - destruct (ts_data data) as [bill|]; simpl.
    + destruct (String.eqb (ts_status data) "success"); simpl.
      * destruct (bill_items bill) as [rows|]; simpl.
        -- repeat split; eauto. intros req err _ E. congruence.
        -- repeat split; eauto. intros req err E. discriminate.
      * repeat split; eauto. intros req err E. discriminate.
    + repeat split; eauto. intros req err E. discriminate.
  - repeat split; eauto. intros req err E. discriminate.
  - repeat split; eauto. intros req err E. discriminate.
Qed.

Lemma C9_failed_update_keeps_state_witness :
  let st := mkState [teaLine; mkOrderItem tea 1 (Some addon) None None None]
                    [teaLine] (Some "b1") (Some "B-7") true false false false in
  let r := updateKOT tableFour false "17" "TypeError"
             (successWith 200 pendingBill)
             (settle (Http 500 (Some "Bill is locked") None))
             (successWith 200 pendingBill) st in
  orderItems (run_state r) = orderItems st
  /\ existingBillId (run_state r) = Some "b1"
  /\ run_alerts r = [mkAlert "Failed to update KOT" "Bill is locked"].
Proof.
  intros st r.
  assert (Hr : ready tableFour = true) by reflexivity.
  assert (Hb : Js.truthyOpt (existingBillId st) = true) by reflexivity.
  assert (Hf : failedAnswer (Http 500 (Some "Bill is locked") (@None unit))).
  { simpl. lia. }
  destruct (C9_failed_update_keeps_state tableFour false "17" "TypeError"
              (successWith 200 pendingBill)
              (Http 500 (Some "Bill is locked") None)
              (successWith 200 pendingBill) st Hr Hb Hf)
    as (H1 & _ & _ & H4 & _ & _ & H7).
  split; [exact H1|]. split; [exact H4|].
  exact (H7 (buildUpdateData st pendingBill [teaRow])
            (mkAxiosError (Some 500) (Some "Bill is locked")
                          (Some "Request failed with status code 500"))
            eq_refl eq_refl).
Defined.

(** ** Maps and grouping *)

Section MapFacts.

Context {V : Type}.

Implicit Types (m : JsMap.t V) (k : string) (v : V).

Lemma get_set_same m k v : JsMap.get (JsMap.set m k v) k = Some v.
Proof.
  induction m as [|[k' v'] r IH]; simpl.
  - rewrite String.eqb_refl. reflexivity.
  - destruct (String.eqb k' k) eqn:E; simpl; rewrite E; [reflexivity | exact IH].
Qed.

Lemma get_set_other m k k' v :
  k <> k' -> JsMap.get (JsMap.set m k v) k' = JsMap.get m k'.
Proof.
  intros N. induction m as [|[k0 v0] r IH]; simpl.
  - destruct (String.eqb k k') eqn:E; [|reflexivity].
    apply String.eqb_eq in E. contradiction.
  - destruct (String.eqb k0 k) eqn:E; simpl.
    + apply String.eqb_eq in E. subst k0.
      destruct (String.eqb k k') eqn:E'; [|reflexivity].
      apply String.eqb_eq in E'. contradiction.
    + rewrite IH. reflexivity.
Qed.

Lemma get_set m k k' v :
  JsMap.get (JsMap.set m k v) k'
  = if String.eqb k k' then Some v else JsMap.get m k'.
Proof.
  destruct (String.eqb k k') eqn:E.
  - apply String.eqb_eq in E. subst k'. apply get_set_same.
  - apply String.eqb_neq in E. apply get_set_other. exact E.
Qed.

Lemma set_set m k v v' :
  JsMap.set (JsMap.set m k v) k v' = JsMap.set m k v'.
Proof.
  induction m as [|[k0 v0] r IH]; simpl.
  - rewrite String.eqb_refl. reflexivity.
  - destruct (String.eqb k0 k) eqn:E; simpl; rewrite E.
    + reflexivity.
    + rewrite IH. reflexivity.
Qed.

Lemma get_none_not_key m k :
  JsMap.get m k = None -> ~ In k (JsMap.keys m).
Proof.
  induction m as [|[k0 v0] r IH]; simpl; intros H.
  - intros [].
  - destruct (String.eqb k0 k) eqn:E; [discriminate|].
    apply String.eqb_neq in E. intros [F|F]; [contradiction|].
    exact (IH H F).
Qed.

Lemma keys_set m k v :
  JsMap.keys (JsMap.set m k v)
  = match JsMap.get m k with
    | Some _ => JsMap.keys m
    | None => JsMap.keys m ++ [k]
    end.
Proof.
  unfold JsMap.keys. induction m as [|[k0 v0] r IH]; simpl.
  - reflexivity.
  - destruct (String.eqb k0 k) eqn:E; simpl.
    + reflexivity.
    + rewrite IH. destruct (JsMap.get r k); reflexivity.
Qed.

Lemma keys_set_NoDup m k v :
  NoDup (JsMap.keys m) -> NoDup (JsMap.keys (JsMap.set m k v)).
Proof.
  intros H. rewrite keys_set.
  destruct (JsMap.get m k) eqn:E; [exact H|].
  apply NoDup_app; [exact H | repeat constructor; intros [] | ].
  intros x Hx [->|[]]. exact (get_none_not_key m x E Hx).
Qed.

Lemma In_get m k v :
  NoDup (JsMap.keys m) -> In (k, v) m -> JsMap.get m k = Some v.
Proof.
  induction m as [|[k0 v0] r IH]; simpl; intros Hn Hin.
  - destruct Hin.
  - inversion Hn as [|? ? Hk Hr]; subst.
    destruct Hin as [E|Hin].
    + inversion E; subst. rewrite String.eqb_refl. reflexivity.
    + destruct (String.eqb k0 k) eqn:E.
      * apply String.eqb_eq in E. subst k0. exfalso. apply Hk.
        apply (in_map fst) in Hin. exact Hin.
      * apply IH; assumption.
Qed.

End MapFacts.

(** The two steps of the grouping loop amount to one push. *)
Lemma groupStep_push (m : JsMap.t (list BillItem)) (bi : BillItem) :
  groupStep m bi
  = match pidOf bi with
    | None => m
    | Some pid =>
        JsMap.set m pid
          (match JsMap.get m pid with
           | Some group => group ++ [bi]
           | None => [bi]
           end)
    end.
Proof.
  unfold groupStep. destruct (pidOf bi) as [pid|]; [|reflexivity].
  unfold JsMap.has. destruct (JsMap.get m pid) as [g|] eqn:E.
  - rewrite E. reflexivity.
  - rewrite get_set_same, set_set. reflexivity.
Qed.

Lemma rowsFor_app pid (l l' : list BillItem) :
  rowsFor pid (l ++ l') = rowsFor pid l ++ rowsFor pid l'.
Proof. apply filter_app. Qed.

Lemma groupStep_groupsOf seen m bi :
  groupsOf seen m -> groupsOf (seen ++ [bi]) (groupStep m bi).
Proof.
  intros [Hn Hg]. rewrite groupStep_push. unfold groupsOf.
  destruct (pidOf bi) as [pid|] eqn:P.
  - split; [apply keys_set_NoDup; exact Hn|].
    intros k. rewrite get_set, rowsFor_app.
    unfold rowsFor at 2. simpl. rewrite P.
    destruct (String.eqb pid k) eqn:E.
    + apply String.eqb_eq in E. subst k.
      rewrite Hg. destruct (rowsFor pid seen); reflexivity.
    + rewrite app_nil_r. apply Hg.
  - split; [exact Hn|].
    intros k. rewrite rowsFor_app. unfold rowsFor at 2. simpl. rewrite P.
    rewrite app_nil_r. apply Hg.
Qed.

Lemma fold_groupsOf items seen m :
  groupsOf seen m -> groupsOf (seen ++ items) (fold_left groupStep items m).
Proof.
  revert seen m. induction items as [|bi r IH]; intros seen m H; simpl.
  - rewrite app_nil_r. exact H.
  - replace (seen ++ bi :: r) with ((seen ++ [bi]) ++ r)
      by (rewrite <- app_assoc; reflexivity).
    apply IH. apply groupStep_groupsOf. exact H.
Qed.

Lemma groupByProduct_groupsOf items : groupsOf items (groupByProduct items).
Proof.
  apply (fold_groupsOf items [] JsMap.empty).
  split; [constructor | intros k; reflexivity].
Qed.

(** A group of the map is the rows of its product, in the bill's order,
    and is not empty. *)
Lemma group_is_rowsFor items k g :
  In (k, g) (groupByProduct items) -> g = rowsFor k items /\ g <> [].
Proof.
  intros Hin. destruct (groupByProduct_groupsOf items) as [Hn Hg].
  pose proof (In_get _ _ _ Hn Hin) as E. rewrite Hg in E.
  destruct (rowsFor k items); [discriminate|].
  inversion E; subst. split; [reflexivity | discriminate].
Qed.

Lemma sumQuantity_Zsum rows :
  sumQuantity rows = Zsum (map rowQuantity rows).
Proof.
  unfold sumQuantity, Zsum, rowQuantity.
  assert (H : forall z,
             fold_left (fun s it => s + Js.qtyOr0 (item_quantity it)) rows z
             = z + fold_right Z.add 0
                     (map (fun r => Js.qtyOr0 (item_quantity r)) rows)).
  { induction rows as [|a r IH]; intros z; simpl.
    - lia.
    - rewrite IH. lia. }
  rewrite H. lia.
Qed.

(** Every line made for a group carries the group's product id and a
    local id. *)
Lemma mapGroup_line pid g line :
  In line (mapGroup pid g) ->
  _id (product line) = pid /\ localId line <> None.
Proof.
  unfold mapGroup. intros H. apply in_app_or in H.
  destruct H as [H|H].
  - destruct (filter isActiveRow g); [destruct H|].
    destruct H as [<-|[]]. split; [reflexivity | discriminate].
  - destruct (filter isCanceledRow g); [destruct H|].
    destruct H as [<-|[]]. split; [reflexivity | discriminate].
Qed.

Lemma filter_none {A} (f : A -> bool) (l : list A) :
  (forall x, In x l -> f x = false) -> filter f l = [].
Proof.
  induction l as [|a r IH]; simpl; intros H.
  - reflexivity.
  - rewrite H by (left; reflexivity). apply IH.
    intros x Hx. apply H. right. exact Hx.
Qed.

Lemma filter_all {A} (f : A -> bool) (l : list A) :
  (forall x, In x l -> f x = true) -> filter f l = l.
Proof.
  induction l as [|a r IH]; simpl; intros H.
  - reflexivity.
  - rewrite H by (left; reflexivity). f_equal. apply IH.
    intros x Hx. apply H. right. exact Hx.
Qed.

Lemma filter_mapGroup pid k g :
  filter (ofProduct pid) (mapGroup k g)
  = if String.eqb k pid then mapGroup k g else [].
Proof.
  destruct (String.eqb k pid) eqn:E.
  - apply filter_all. intros x Hx.
    destruct (mapGroup_line _ _ _ Hx) as [Hp _].
    unfold ofProduct. rewrite Hp. exact E.
  - apply filter_none. intros x Hx.
    destruct (mapGroup_line _ _ _ Hx) as [Hp _].
    unfold ofProduct. rewrite Hp. exact E.
Qed.

Lemma lines_of_groups pid (m : JsMap.t (list BillItem)) :
  NoDup (JsMap.keys m) ->
  filter (ofProduct pid) (flat_map (fun kv => mapGroup (fst kv) (snd kv)) m)
  = match JsMap.get m pid with
    | Some g => mapGroup pid g
    | None => []
    end.
Proof.
  induction m as [|[k g] r IH]; simpl; intros Hn.
  - reflexivity.
  - inversion Hn as [|? ? Hk Hr]; subst.
    rewrite filter_app, filter_mapGroup, (IH Hr).
    destruct (String.eqb k pid) eqn:E.
    + apply String.eqb_eq in E. subst k.
      destruct (JsMap.get r pid) eqn:G.
      * exfalso. apply Hk. clear -G.
        induction r as [|[k0 v0] r IH]; simpl in *; [discriminate|].
        destruct (String.eqb k0 pid) eqn:E.
        -- left. apply String.eqb_eq. exact E.
        -- right. apply IH. exact G.
      * apply app_nil_r.
    + reflexivity.
Qed.

(** The lines sync makes for one product are the lines of that product's
    rows. *)
Lemma mappedItems_of_product pid items :
  filter (ofProduct pid) (mappedItems items)
  = mapGroup pid (rowsFor pid items).
Proof.
  unfold mappedItems.
  destruct (groupByProduct_groupsOf items) as [Hn Hg].
  rewrite (lines_of_groups pid _ Hn), Hg.
  destruct (rowsFor pid items); reflexivity.
Qed.

Lemma mappedItems_line items line :
  In line (mappedItems items) ->
  In line (mapGroup (_id (product line))
                    (rowsFor (_id (product line)) items)).
Proof.
  intros H. rewrite <- mappedItems_of_product.
  apply filter_In. split; [exact H|]. apply String.eqb_refl.
Qed.

Lemma mapi_ensureLocalId now (l : list OrderItem) i :
  (forall x, In x l -> localId x <> None) ->
  mapi_from (ensureLocalId now) i l = l.
Proof.
  revert i. induction l as [|a r IH]; intros i H; simpl.
  - reflexivity.
  - rewrite IH by (intros x Hx; apply H; right; exact Hx).
    unfold ensureLocalId.
    destruct (localId a) eqn:E; [reflexivity|].
    exfalso. apply (H a); [left; reflexivity | exact E].
Qed.

(** The draft after a successful sync. *)
Lemma synced_orderItems env suppress now code bill st :
  ready env = true ->
  orderItems (fetchLastOrder env suppress now (successWith code bill) st)
  = if suppress
    then filter (fun i => negb (statusIs removed i)) (mappedItems (billRows bill))
    else mappedItems (billRows bill).
Proof.
  intros Hr. unfold fetchLastOrder. rewrite (ready_guard env Hr).
  unfold successWith. cbn [ts_data ts_status].
  change (String.eqb "success" "success") with true. cbv iota.
  unfold syncFromBill.
  assert (L : forall l, In l (mappedItems (billRows bill)) -> localId l <> None).
  { intros l Hl. apply mappedItems_line in Hl.
    apply (mapGroup_line _ _ _ Hl). }
  destruct suppress; cbn.
  - apply mapi_ensureLocalId. intros x Hx. apply filter_In in Hx.
    apply L. apply Hx.
  - apply mapi_ensureLocalId. exact L.
Qed.

(** ** Sync: aggregation *)

Lemma filter_filter_comm {A} (f g : A -> bool) (l : list A) :
  filter f (filter g l) = filter g (filter f l).
Proof.
  induction l as [|a r IH]; simpl.
  - reflexivity.
  - destruct (f a) eqn:F, (g a) eqn:G; simpl; rewrite ?F, ?G, IH; reflexivity.
Qed.

Lemma filter_and {A} (f g : A -> bool) (l : list A) :
  filter (fun x => f x && g x) l = filter g (filter f l).
Proof.
  induction l as [|a r IH]; simpl.
  - reflexivity.
  - destruct (f a) eqn:F; simpl.
    + destruct (g a); rewrite IH; reflexivity.
    + exact IH.
Qed.

Lemma linesOf_filter pid s items :
  linesOf pid s items = filter (statusIs s) (filter (ofProduct pid) items).
Proof. apply filter_and. Qed.

Lemma filter_length_le {A} (f : A -> bool) (l : list A) :
  (List.length (filter f l) <= List.length l)%nat.
Proof.
  induction l as [|a r IH]; simpl.
  - constructor.
  - destruct (f a); simpl; lia.
Qed.

Lemma original_lines_of_group pid rows :
  filter (statusIs original) (mapGroup pid rows)
  = match filter isActiveRow rows with
    | proto :: _ => [activeLineOf pid rows proto]
    | [] => []
    end.
Proof.
  unfold mapGroup, activeLineOf. rewrite filter_app.
  destruct (filter isActiveRow rows) as [|p r];
    destruct (filter isCanceledRow rows) as [|p' r']; reflexivity.
Qed.

Lemma removed_lines_of_group pid rows :
  (List.length (filter (statusIs removed) (mapGroup pid rows)) <= 1)%nat.
Proof.
  unfold mapGroup. rewrite filter_app.
  destruct (filter isActiveRow rows) as [|p r];
    destruct (filter isCanceledRow rows) as [|p' r']; simpl; lia.
Qed.

Lemma rowIds_complete rows r id :
  In r rows -> item_id r = Some id -> Js.truthyStr id = true ->
  In id (rowIds rows).
Proof.
  intros Hin Hid Ht. unfold rowIds. apply in_flat_map.
  exists r. split; [exact Hin|]. rewrite Hid, Ht. left. reflexivity.
Qed.

Lemma originals_survive_suppress pid (l : list OrderItem) :
  linesOf pid original (filter (fun i => negb (statusIs removed i)) l)
  = linesOf pid original l.
Proof.
  unfold linesOf. rewrite <- filter_and. apply filter_ext. intros a.
  unfold statusIs. destruct (itemStatus a) as [[| |]|]; simpl;
    rewrite ?andb_false_r, ?andb_true_r; reflexivity.
Qed.

Lemma removed_gone_after_suppress pid (l : list OrderItem) :
  linesOf pid removed (filter (fun i => negb (statusIs removed i)) l) = [].
Proof.
  unfold linesOf. rewrite <- filter_and. apply filter_none. intros a _.
  unfold statusIs. destruct (itemStatus a) as [[| |]|]; simpl;
    rewrite ?andb_false_r; reflexivity.
Qed.

(** C3. After a successful sync, a product with active rows in the bill
    (status not canceled, quantity above 0) has exactly one original
    line, whose quantity is the sum of those rows' quantities and whose
    serverItemIds are those rows' ids, every id among them; a product
    without active rows has no original line; and a product has at most
    one removed line, however many canceled rows it has. *)
Theorem C3_sync_collapses_rows
  (env : Env) (suppress : bool) (now : string) (code : Z) (bill : Bill)
  (st : State) (pid : string) :
  ready env = true ->
  let st' := fetchLastOrder env suppress now (successWith code bill) st in
  let active := filter isActiveRow (rowsFor pid (billRows bill)) in
  (active <> [] ->
   exists line,
     linesOf pid original (orderItems st') = [line]
     /\ quantity line = Zsum (map rowQuantity active)
     /\ serverItemIds line = Some (rowIds active))
  /\ (forall r id, In r active -> item_id r = Some id ->
                   Js.truthyStr id = true -> In id (rowIds active))
  /\ (active = [] -> linesOf pid original (orderItems st') = [])
  /\ (List.length (linesOf pid removed (orderItems st')) <= 1)%nat.
Proof.
  intros Hr st' active.
  assert (O : linesOf pid original (orderItems st')
              = match active with
                | proto :: _ => [activeLineOf pid (rowsFor pid (billRows bill)) proto]
                | [] => []
                end).
  { subst st'. rewrite (synced_orderItems env suppress now code bill st Hr).
    assert (E : linesOf pid original (mappedItems (billRows bill))
                = match active with
                  | proto :: _ =>
                      [activeLineOf pid (rowsFor pid (billRows bill)) proto]
                  | [] => []
                  end).
    { rewrite linesOf_filter, mappedItems_of_product.
      apply original_lines_of_group. }
    destruct suppress; [|exact E].
    rewrite originals_survive_suppress. exact E. }
  split; [|split; [|split]].
  - intros Hne. destruct active as [|proto rest] eqn:A; [contradiction|].
    exists (activeLineOf pid (rowsFor pid (billRows bill)) proto).
    split; [exact O|]. unfold activeLineOf. cbn [quantity serverItemIds].
    fold active. rewrite A. split; [apply sumQuantity_Zsum | reflexivity].
  - intros r id. apply rowIds_complete.
  - intros Hnil. rewrite O, Hnil. reflexivity.
  - subst st'. rewrite (synced_orderItems env suppress now code bill st Hr).
    destruct suppress.
    + rewrite removed_gone_after_suppress. simpl. lia.
    + rewrite linesOf_filter, mappedItems_of_product.
      apply removed_lines_of_group.
Qed.

Lemma C3_sync_collapses_rows_witness :
  let rows := [mkBillItem (Some "i1") (Some (RefId "p1")) (Some "Tea")
                          (Some 2) (Some 10%float) "active";
               mkBillItem (Some "i2") (Some (RefId "p2")) (Some "Bun")
                          (Some 1) (Some 15%float) "active";
               mkBillItem (Some "i3") (Some (RefId "p1")) (Some "Tea")
                          (Some 3) (Some 10%float) "active"] in
  let bill := mkBill (Some "b1") (Some "B-7") "pending" (Some rows) in
  let st' := fetchLastOrder tableFour false "17" (successWith 200 bill)
               initialState in
  ready tableFour = true
  /\ exists line,
       linesOf "p1" original (orderItems st') = [line]
       /\ quantity line = 5
       /\ serverItemIds line = Some ["i1"; "i3"].
Proof.
  intros rows bill st'. split; [reflexivity|].
  exact (proj1 (C3_sync_collapses_rows tableFour false "17" 200 bill
                  initialState "p1" eq_refl)
               ltac:(discriminate)).
Defined.

(** ** Update KOT: the distribution *)

(** The loop over one product's active rows computes the rule: from a
    remaining quantity that is not negative, it appends the rule's edits
    and never needs its clamp. *)
Lemma distribute_is_greedy rows :
  forall remaining acc,
    0 <= remaining ->
    snd (fold_left distributeStep rows (remaining, acc))
    = acc ++ greedyEdits remaining rows.
Proof.
  induction rows as [|r rest IH]; intros remaining acc Hr.
  - simpl. unfold greedyEdits. simpl. rewrite app_nil_r. reflexivity.
  - simpl fold_left. unfold distributeStep at 2. cbn [fst snd].
    fold (rowQuantity r).
    set (share := Z.min (rowQuantity r) remaining).
    assert (Hs : share <= remaining) by (unfold share; lia).
    assert (Hm : Js.max0 (remaining - share) = remaining - share)
      by (unfold Js.max0; lia).
    rewrite Hm, IH by lia.
    unfold greedyEdits. cbn [greedyShares filter]. fold share.
    unfold shareDiffers at 2. cbn [fst snd].
    destruct (negb (share =? rowQuantity r)) eqn:D.
    + cbn [map]. rewrite <- app_assoc. cbn [app]. do 2 f_equal.
      unfold editOfShare. cbn [fst snd]. f_equal.
      apply negb_true_iff, Z.eqb_neq in D.
      assert (share = remaining) by (unfold share in *; lia).
      destruct (share =? 0) eqn:Z0.
      * apply Z.eqb_eq in Z0. rewrite Z0. reflexivity.
      * apply Z.eqb_neq in Z0.
        assert (L : (0 <? share) = true) by (apply Z.ltb_lt; lia).
        rewrite L. reflexivity.
    + reflexivity.
Qed.

Lemma products_are_greedy (desired : JsMap.t Z)
  (groups : list (string * list BillItem)) :
  (forall k d, JsMap.get desired k = Some d -> 0 <= d) ->
  forall acc,
    fold_left (productStep desired) groups acc
    = acc ++ flat_map
               (fun kv =>
                  match JsMap.get desired (fst kv) with
                  | Some d => greedyEdits d (filter isActiveServerItem (snd kv))
                  | None => []
                  end) groups.
Proof.
  intros Hd. induction groups as [|[k g] rest IH]; intros acc; simpl.
  - rewrite app_nil_r. reflexivity.
  - rewrite IH. unfold productStep. cbn [fst snd].
    destruct (JsMap.get desired k) as [d|] eqn:E.
    + rewrite distribute_is_greedy by (apply (Hd k); exact E).
      rewrite app_assoc. reflexivity.
    + reflexivity.
Qed.

Lemma find_in {A} (f : A -> bool) (l : list A) (x : A) :
  Js.find f l = Some x -> In x l.
Proof. intros H. apply List.find_some in H. apply H. Qed.

Lemma desiredStep_nonneg items submitted m oi :
  (forall x, In x items -> 0 <= quantity x) ->
  0 <= quantity oi ->
  (forall k d, JsMap.get m k = Some d -> 0 <= d) ->
  forall k d, JsMap.get (desiredStep items submitted m oi) k = Some d -> 0 <= d.
Proof.
  intros Hi Ho Hm k d. unfold desiredStep.
  destruct (isOriginal oi).
  - rewrite get_set. destruct (String.eqb _ k); [|apply Hm].
    intros E. inversion E. subst. exact Ho.
  - destruct (statusIs removed oi); [|apply Hm].
    destruct (Js.find _ items) as [orig|] eqn:F.
    + rewrite get_set. destruct (String.eqb _ k); [|apply Hm].
      intros E. inversion E. subst. apply Hi. exact (find_in _ _ _ F).
    + rewrite get_set. destruct (String.eqb _ k); [|apply Hm].
      intros E. inversion E. unfold Js.max0. lia.
Qed.

Lemma desired_nonneg st :
  (forall x, In x (orderItems st) -> 0 <= quantity x) ->
  forall k d, JsMap.get (desiredByProduct st) k = Some d -> 0 <= d.
Proof.
  intros Hi. unfold desiredByProduct.
  assert (G : forall l m,
             (forall x, In x l -> 0 <= quantity x) ->
             (forall k d, JsMap.get m k = Some d -> 0 <= d) ->
             forall k d,
               JsMap.get (fold_left (desiredStep (orderItems st)
                                       (originalSubmittedItems st)) l m) k
               = Some d -> 0 <= d).
  { induction l as [|oi r IH]; intros m Hl Hm; simpl.
    - exact Hm.
    - apply IH.
      + intros x Hx. apply Hl. right. exact Hx.
      + apply desiredStep_nonneg; [exact Hi | apply Hl; left; reflexivity | exact Hm]. }
  apply G; [exact Hi | intros k d E; discriminate].
Qed.

Lemma get_is_member {V} (m : JsMap.t V) k v :
  JsMap.get m k = Some v -> In (k, v) m.
Proof.
  induction m as [|[k0 v0] r IH]; simpl; intros H; [discriminate|].
  destruct (String.eqb k0 k) eqn:E.
  - apply String.eqb_eq in E. subst k0. inversion H. left. reflexivity.
  - right. exact (IH H).
Qed.

(** Every row that names a product is in the group of that product. *)
Lemma row_has_group items r k :
  In r items -> pidOf r = Some k ->
  In (k, rowsFor k items) (groupByProduct items).
Proof.
  intros Hin Hp. apply get_is_member.
  destruct (groupByProduct_groupsOf items) as [_ Hg]. rewrite Hg.
  assert (Hr : In r (rowsFor k items)).
  { apply filter_In. split; [exact Hin|]. rewrite Hp. apply String.eqb_refl. }
  destruct (rowsFor k items); [destruct Hr | reflexivity].
Qed.

(** C4. With a draft whose quantities are not negative, the edited items
    of Update KOT are, product by product in the order of the bill's
    groups, the edits of the rule: the desired quantity of the product is
    handed to its active rows in the bill's order, each row taking
    min(row quantity, remaining) and remaining dropping by that share;
    an edit is recorded for exactly the rows whose share differs from
    their quantity, of type edit when the share is positive and canceled
    when it is zero. Products the draft gives no desired quantity
    produce no edit. The groups are the products of the bill: their
    keys are distinct, the group of a key is the rows of that product in
    the bill's order, and every row that names a product is in the
    group of that product. So for every product with a desired
    quantity, the edits of the rule on its active rows stand together,
    in row order, in the edited items. *)
Theorem C4_greedy_distribution (st : State) (billItems : list BillItem) :
  (forall oi, In oi (orderItems st) -> 0 <= quantity oi) ->
  computeEditedItems st billItems
  = flat_map
      (fun kv =>
         match JsMap.get (desiredByProduct st) (fst kv) with
         | Some d => greedyEdits d (filter isActiveServerItem (snd kv))
         | None => []
         end) (groupByProduct billItems)
  /\ NoDup (JsMap.keys (groupByProduct billItems))
  /\ (forall k g, In (k, g) (groupByProduct billItems) ->
                  g = rowsFor k billItems)
  /\ (forall r k, In r billItems -> pidOf r = Some k ->
                  In (k, rowsFor k billItems) (groupByProduct billItems))
  /\ (forall k d,
        JsMap.get (desiredByProduct st) k = Some d ->
        exists before after,
          computeEditedItems st billItems
          = before
            ++ greedyEdits d (filter isActiveServerItem (rowsFor k billItems))
            ++ after).
Proof.
  intros Hq.
  assert (E : computeEditedItems st billItems
              = flat_map
                  (fun kv =>
                     match JsMap.get (desiredByProduct st) (fst kv) with
                     | Some d =>
                         greedyEdits d (filter isActiveServerItem (snd kv))
                     | None => []
                     end) (groupByProduct billItems)).
  { unfold computeEditedItems.
    rewrite (products_are_greedy _ _ (desired_nonneg st Hq)). reflexivity. }
  split; [exact E|]. split; [|split; [|split]].
  - apply groupByProduct_groupsOf.
  - intros k g Hin. apply (group_is_rowsFor _ _ _ Hin).
  - intros r k. apply row_has_group.
  - intros k d Hd.
    destruct (rowsFor k billItems) as [|r0 rest] eqn:R.
    + exists (computeEditedItems st billItems), [].
      cbn [filter]. unfold greedyEdits. cbn. rewrite app_nil_r. reflexivity.
    + assert (Hr0 : In r0 (rowsFor k billItems))
        by (rewrite R; left; reflexivity).
      apply filter_In in Hr0. destruct Hr0 as [Hin Hk].
      destruct (pidOf r0) as [k'|] eqn:P; [|discriminate].
      apply String.eqb_eq in Hk. subst k'.
      pose proof (row_has_group billItems r0 k Hin P) as G. rewrite R in G.
      apply in_split in G. destruct G as (g1 & g2 & G).
      rewrite E, G, flat_map_app. cbn [flat_map fst snd]. rewrite Hd.
      eexists. eexists. reflexivity.
Qed.

Lemma C4_greedy_distribution_witness :
  let rows := [mkBillItem (Some "i1") (Some (RefId "p1")) (Some "Tea")
                          (Some 2) (Some 10%float) "active";
               mkBillItem (Some "i2") (Some (RefId "p2")) (Some "Bun")
                          (Some 4) (Some 15%float) "active";
               mkBillItem (Some "i3") (Some (RefId "p1")) (Some "Tea")
                          (Some 3) (Some 10%float) "active"] in
  let bun := mkProduct "p2" "Bun" (Some 15%float) in
  let st := mkState [withQuantity (syncedLine tea 5 (Some ["i1"; "i3"])) 1;
                     withQuantity (syncedLine bun 4 (Some ["i2"])) 3]
                    [syncedLine tea 5 (Some ["i1"; "i3"]);
                     syncedLine bun 4 (Some ["i2"])]
                    (Some "b1") (Some "B-7") true false false false in
  (forall oi, In oi (orderItems st) -> 0 <= quantity oi)
  /\ computeEditedItems st rows
     = [mkEditedItem (Some "i1") 1 edit; mkEditedItem (Some "i3") 0 canceled;
        mkEditedItem (Some "i2") 3 edit]
  /\ In ("p2", rowsFor "p2" rows) (groupByProduct rows).
Proof.
  intros rows bun st.
  assert (H : forall oi, In oi (orderItems st) -> 0 <= quantity oi).
  { intros oi [<-|[<-|[]]]; simpl; lia. }
  split; [exact H|].
  destruct (C4_greedy_distribution st rows H) as (E & _ & _ & G & _).
  split; [rewrite E; reflexivity|].
  apply (G (mkBillItem (Some "i2") (Some (RefId "p2")) (Some "Bun")
              (Some 4) (Some 15%float) "active") "p2").
  - right. left. reflexivity.
  - reflexivity.
Defined.

(** ** Update KOT: nothing to send *)

(** When the rows are not negative and the remaining quantity covers
    them, every row keeps its quantity: the loop records no edit. *)
Lemma distribute_no_edit rows :
  (forall r, In r rows -> 0 <= rowQuantity r) ->
  forall remaining acc,
    Zsum (map rowQuantity rows) <= remaining ->
    snd (fold_left distributeStep rows (remaining, acc)) = acc.
Proof.
  induction rows as [|r rest IH]; intros Hq remaining acc Hs.
  - reflexivity.
  - simpl fold_left. unfold distributeStep at 2. cbn [fst snd].
    fold (rowQuantity r). simpl in Hs.
    assert (Hr : 0 <= rowQuantity r) by (apply Hq; left; reflexivity).
    assert (Hrest : 0 <= Zsum (map rowQuantity rest)).
    { clear -Hq. induction rest as [|a l IH]; simpl; [lia|].
      assert (0 <= rowQuantity a) by (apply Hq; right; left; reflexivity).
      assert (0 <= Zsum (map rowQuantity l)).
      { apply IH. intros x [<-|Hx]; apply Hq; [left | right; right]; auto. }
      lia. }
    assert (E : Z.min (rowQuantity r) remaining = rowQuantity r) by lia.
    rewrite E, Z.eqb_refl. cbn [negb].
    apply IH.
    + intros x Hx. apply Hq. right. exact Hx.
    + unfold Js.max0. lia.
Qed.

(** Rows of quantity 0 add nothing: the active rows of sync and those of
    Update KOT have the same total. *)
Lemma active_totals_agree rows :
  (forall r, In r rows -> 0 <= rowQuantity r) ->
  Zsum (map rowQuantity (filter isActiveServerItem rows))
  = Zsum (map rowQuantity (filter isActiveRow rows)).
Proof.
  induction rows as [|r rest IH]; intros Hq; simpl.
  - reflexivity.
  - assert (Hr : 0 <= rowQuantity r) by (apply Hq; left; reflexivity).
    assert (IH' := IH (fun x Hx => Hq x (or_intror Hx))).
    unfold isActiveServerItem, isActiveRow at 1.
    destruct (negb (String.eqb (item_status r) "canceled")); simpl.
    + fold (rowQuantity r).
      destruct (0 <? rowQuantity r) eqn:P; simpl.
      * unfold isActiveServerItem in IH'. rewrite IH'. reflexivity.
      * apply Z.ltb_ge in P. unfold isActiveServerItem in IH'.
        rewrite IH'. lia.
    + exact IH'.
Qed.

Lemma length_zero_nil {A} (l : list A) :
  Nat.eqb (List.length l) 0 = true <-> l = [].
Proof.
  destruct l; simpl; split; intros H; try reflexivity; discriminate.
Qed.

Lemma no_edits_when_desired_matches (st : State) (billItems : list BillItem) :
  (forall r, In r billItems -> 0 <= rowQuantity r) ->
  (forall k d, JsMap.get (desiredByProduct st) k = Some d ->
               d = Zsum (map rowQuantity
                           (filter isActiveRow (rowsFor k billItems)))) ->
  computeEditedItems st billItems = [].
Proof.
  intros Hq Hd. unfold computeEditedItems.
  assert (G : forall groups acc,
             (forall k g, In (k, g) groups -> g = rowsFor k billItems) ->
             fold_left (productStep (desiredByProduct st)) groups acc = acc).
  { induction groups as [|[k g] rest IH]; intros acc Hg; simpl.
    - reflexivity.
    - rewrite IH by (intros k' g' H'; apply Hg; right; exact H').
      unfold productStep. cbn [fst snd].
      destruct (JsMap.get (desiredByProduct st) k) as [d|] eqn:D;
        [|reflexivity].
      assert (Hrows : forall r, In r g -> 0 <= rowQuantity r).
      { intros r Hr. apply Hq.
        rewrite (Hg k g (or_introl eq_refl)) in Hr.
        apply filter_In in Hr. apply Hr. }
      apply distribute_no_edit.
      + intros r Hr. apply filter_In in Hr. apply Hrows. apply Hr.
      + rewrite (Hd k d D), (active_totals_agree g Hrows).
        rewrite (Hg k g (or_introl eq_refl)). lia. }
  apply G. intros k g Hin. apply (group_is_rowsFor _ _ _ Hin).
Qed.

Lemma no_added_without_addons (items : list OrderItem) :
  (forall l, In l items -> statusIs addon l = true -> quantity l <= 0) ->
  addedItems items = [].
Proof.
  intros Ha. unfold addedItems. rewrite filter_none; [reflexivity|].
  intros l Hl. destruct (statusIs addon l) eqn:S; [|reflexivity].
  simpl. apply Z.ltb_ge. apply Ha; assumption.
Qed.

(** *** A draft that was just synced asks for no change *)

Lemma synced_originals env suppress now code bill st :
  ready env = true ->
  let st' := fetchLastOrder env suppress now (successWith code bill) st in
  originalSubmittedItems st' = filter (statusIs original) (orderItems st').
Proof.
  intros Hr st'. subst st'.
  rewrite (synced_orderItems env suppress now code bill st Hr).
  unfold fetchLastOrder. rewrite (ready_guard env Hr).
  unfold successWith. cbn [ts_data ts_status].
  change (String.eqb "success" "success") with true. cbv iota.
  unfold syncFromBill. destruct suppress; reflexivity.
Qed.

Lemma mapped_line_cases rows l :
  In l (mappedItems rows) ->
  (itemStatus l = Some original
   /\ quantity l
      = Zsum (map rowQuantity
                (filter isActiveRow (rowsFor (_id (product l)) rows))))
  \/ (itemStatus l = Some removed /\ quantity l = 0).
Proof.
  intros H. apply mappedItems_line in H. revert H.
  generalize (_id (product l)) as k. intros k.
  unfold mapGroup. intros H. apply in_app_or in H. destruct H as [H|H].
  - destruct (filter isActiveRow (rowsFor k rows)) as [|p r] eqn:A;
      [destruct H|].
    destruct H as [<-|[]]. left. cbn [itemStatus quantity].
    split; [reflexivity | apply sumQuantity_Zsum].
  - destruct (filter isCanceledRow (rowsFor k rows)); [destruct H|].
    destruct H as [<-|[]]. right. split; reflexivity.
Qed.

Lemma active_rows_have_original rows k :
  filter isActiveRow (rowsFor k rows) <> [] ->
  exists o, In o (mappedItems rows)
            /\ ofProduct k o = true /\ itemStatus o = Some original.
Proof.
  intros Hne.
  pose proof (original_lines_of_group k (rowsFor k rows)) as O.
  rewrite <- mappedItems_of_product in O.
  destruct (filter isActiveRow (rowsFor k rows)) as [|p r]; [contradiction|].
  exists (activeLineOf k (rowsFor k rows) p).
  assert (I : In (activeLineOf k (rowsFor k rows) p)
                 (filter (statusIs original)
                    (filter (ofProduct k) (mappedItems rows)))).
  { rewrite O. left. reflexivity. }
  apply filter_In in I. destruct I as [I _].
  apply filter_In in I. destruct I as [I P].
  split; [exact I|]. split; [exact P | reflexivity].
Qed.

(** After a sync, the desired quantity of every product is the total of
    its active rows. *)
Lemma synced_desired env suppress now code bill st :
  ready env = true ->
  let st' := fetchLastOrder env suppress now (successWith code bill) st in
  forall k d,
    JsMap.get (desiredByProduct st') k = Some d ->
    d = Zsum (map rowQuantity
                (filter isActiveRow (rowsFor k (billRows bill)))).
Proof.
  intros Hr st'.
  pose proof (synced_orderItems env suppress now code bill st Hr) as HI.
  pose proof (synced_originals env suppress now code bill st Hr) as HS.
  fold st' in HI. cbv zeta in HS. fold st' in HS.
  set (rows := billRows bill) in *.
  set (S := fun k => Zsum (map rowQuantity (filter isActiveRow (rowsFor k rows)))).
  assert (Sub : forall x, In x (orderItems st') -> In x (mappedItems rows)).
  { intros x Hx. rewrite HI in Hx.
    destruct suppress; [apply filter_In in Hx; apply Hx | exact Hx]. }
  assert (Keep : forall x, In x (mappedItems rows) ->
                           itemStatus x = Some original ->
                           In x (orderItems st')).
  { intros x Hx Ho. rewrite HI. destruct suppress; [|exact Hx].
    apply filter_In. split; [exact Hx|].
    unfold statusIs. rewrite Ho. reflexivity. }
  unfold desiredByProduct.
  assert (G : forall l m,
             (forall x, In x l -> In x (orderItems st')) ->
             (forall k d, JsMap.get m k = Some d -> d = S k) ->
             forall k d,
               JsMap.get
                 (fold_left (desiredStep (orderItems st')
                               (originalSubmittedItems st')) l m) k = Some d ->
               d = S k).
  { induction l as [|oi r IH]; intros m Hl Hm; simpl; [exact Hm|].
    apply IH; [intros x Hx; apply Hl; right; exact Hx|].
    assert (Hoi : In oi (orderItems st')) by (apply Hl; left; reflexivity).
    intros k d. unfold desiredStep.
    destruct (mapped_line_cases rows oi (Sub oi Hoi)) as [[Ho Hq]|[Ho Hq]].
    - assert (IO : isOriginal oi = true) by (unfold isOriginal; rewrite Ho; reflexivity).
      rewrite IO, get_set.
      destruct (String.eqb (_id (product oi)) k) eqn:E; [|apply Hm].
      apply String.eqb_eq in E. subst k. intros D. inversion D. exact Hq.
    - assert (IO : isOriginal oi = false) by (unfold isOriginal; rewrite Ho; reflexivity).
      assert (SR : statusIs removed oi = true) by (unfold statusIs; rewrite Ho; reflexivity).
      rewrite IO, SR.
      set (pid := _id (product oi)).
      destruct (Js.find (fun i => ofProduct pid i && isOriginal i)
                        (orderItems st')) as [orig|] eqn:F.
      + rewrite get_set.
        destruct (String.eqb pid k) eqn:E; [|apply Hm].
        apply String.eqb_eq in E. subst k. intros D. inversion D.
        apply List.find_some in F. destruct F as [Fin F].
        apply andb_true_iff in F. destruct F as [F1 F2].
        apply String.eqb_eq in F1.
        destruct (mapped_line_cases rows orig (Sub orig Fin)) as [[_ Q]|[Q _]].
        * rewrite Q, F1. reflexivity.
        * unfold isOriginal in F2. rewrite Q in F2. discriminate.
      + assert (NoSub : Js.find (ofProduct pid) (originalSubmittedItems st') = None).
        { destruct (Js.find (ofProduct pid) (originalSubmittedItems st'))
            as [s0|] eqn:F'; [|reflexivity].
          apply List.find_some in F'. destruct F' as [Sin Sp].
          rewrite HS in Sin. apply filter_In in Sin. destruct Sin as [Sin So].
          pose proof (List.find_none _ _ F s0 Sin) as N. cbn beta in N.
          rewrite Sp in N. unfold isOriginal in N. unfold statusIs in So.
          destruct (itemStatus s0) as [[| |]|]; simpl in *; discriminate. }
        rewrite NoSub, get_set.
        destruct (String.eqb pid k) eqn:E; [|apply Hm].
        apply String.eqb_eq in E. subst k. intros D. inversion D.
        rewrite Hq. unfold S.
        destruct (filter isActiveRow (rowsFor pid rows)) as [|p0 r0] eqn:A;
          [reflexivity|].
        exfalso.
        destruct (active_rows_have_original rows pid) as (o & Oin & Op & Oo).
        { rewrite A. discriminate. }
        pose proof (List.find_none _ _ F o (Keep o Oin Oo)) as N. cbn beta in N.
        rewrite Op in N. unfold isOriginal in N. rewrite Oo in N.
        discriminate. }
  apply G; [auto | intros k d E; discriminate].
Qed.

(** Update KOT right after a sync, against the bill that was synced,
    edits no row and adds none. *)
Lemma synced_draft_sends_nothing env suppress now code bill st :
  ready env = true ->
  (forall r, In r (billRows bill) -> 0 <= rowQuantity r) ->
  let st' := fetchLastOrder env suppress now (successWith code bill) st in
  computeEditedItems st' (billRows bill) = []
  /\ addedItems (orderItems st') = [].
Proof.
  intros Hr Hq st'. split.
  - apply no_edits_when_desired_matches; [exact Hq|].
    apply (synced_desired env suppress now code bill st Hr).
  - apply no_added_without_addons. intros l Hl Ha.
    assert (Hm : In l (mappedItems (billRows bill))).
    { unfold st' in Hl.
      rewrite (synced_orderItems env suppress now code bill st Hr) in Hl.
      destruct suppress; [apply filter_In in Hl; apply Hl | exact Hl]. }
    unfold statusIs in Ha.
    destruct (mapped_line_cases _ _ Hm) as [[E _]|[E _]];
      rewrite E in Ha; discriminate.
Qed.

(** C5 (counterexample). The status is not "bill-printed" only when the
    diff is empty. A bill whose own status is "bill-printed" is adopted
    by the sync, which never reads that status; after one product is
    added to the draft, Update KOT sends a request with one added item
    and the status "bill-printed", the bill's status carried over. And
    a draft that still equals the last sync produces an edit when the
    bill fetched by Update KOT no longer holds the synced quantity: the
    diff is taken against the rows fetched at that moment, not against
    the last submitted lines. *)
Lemma C5_counterexample :
  let printed := mkBill (Some "b1") (Some "B-7") "bill-printed"
                        (Some [teaRow]) in
  let bun := mkProduct "p2" "Bun" (Some 15%float) in
  let st := handleAddToOrder "17-ab12cd" bun
              (fetchLastOrder tableFour false "16" (successWith 200 printed)
                 initialState) in
  let r := updateKOT tableFour false "18" "TypeError"
             (successWith 200 printed) (Fulfilled 200 None)
             (successWith 200 printed) st in
  let req := buildUpdateData st printed [teaRow] in
  let raised := [mkBillItem (Some "i1") (Some (RefId "p1")) (Some "Tea")
                            (Some 3) (Some 10%float) "active"] in
  let st0 := fetchLastOrder tableFour false "16" (successWith 200 pendingBill)
               initialState in
  (run_request r = Some req
   /\ update_status req = "bill-printed"
   /\ update_addedItems req = [mkAddedItem "p2" "Bun" 1 15%float]
   /\ ~ (update_status req = "bill-printed"
         <-> update_editedItems req = [] /\ update_addedItems req = []))
  /\ (JsMap.get (desiredByProduct st0) "p1" = Some (submittedQuantity "p1" st0)
      /\ JsMap.keys (desiredByProduct st0) = ["p1"]
      /\ addedItems (orderItems st0) = []
      /\ computeEditedItems st0 raised = [mkEditedItem (Some "i1") 2 edit]).
Proof.
  intros printed bun st r req raised st0. split.
  - split; [reflexivity|]. split; [reflexivity|]. split; [reflexivity|].
    intros [H _]. destruct (H eq_refl) as [_ A]. discriminate A.
  - repeat split; reflexivity.
Qed.

(** C5, amended. The request's status is "bill-printed" when the diff
    has no edited and no added item, and the bill's own status
    otherwise; so it is "bill-printed" exactly when the diff is empty or
    the bill already had that status. The diff is taken against the
    rows of the bill fetched by Update KOT: when those rows are not
    negative, every desired quantity equals the total of the product's
    active rows and no addon line has a positive quantity, the diff has
    no edited and no added item and the request is the finalising one.
    In terms of the last sync: this is so when every desired quantity
    equals the quantity the last submitted lines hold for the product
    and the fetched bill still holds, for every product, that quantity
    in its active rows. *)
Theorem C5_status_and_empty_diff
  (st : State) (currentBill : Bill) (billItems : list BillItem) :
  let req := buildUpdateData st currentBill billItems in
  (update_editedItems req = [] /\ update_addedItems req = [] ->
   update_status req = "bill-printed")
  /\ (~ (update_editedItems req = [] /\ update_addedItems req = []) ->
      update_status req = bill_status currentBill)
  /\ (update_status req = "bill-printed"
      <-> (update_editedItems req = [] /\ update_addedItems req = [])
          \/ bill_status currentBill = "bill-printed")
  /\ update_editedItems req = computeEditedItems st billItems
  /\ update_addedItems req = addedItems (orderItems st)
  /\ ((forall r, In r billItems -> 0 <= rowQuantity r) ->
      (forall k d, JsMap.get (desiredByProduct st) k = Some d ->
                   d = Zsum (map rowQuantity
                               (filter isActiveRow (rowsFor k billItems)))) ->
      (forall l, In l (orderItems st) -> statusIs addon l = true ->
                 quantity l <= 0) ->
      update_editedItems req = []
      /\ update_addedItems req = []
      /\ update_status req = "bill-printed")
  /\ ((forall r, In r billItems -> 0 <= rowQuantity r) ->
      (forall k d, JsMap.get (desiredByProduct st) k = Some d ->
                   d = submittedQuantity k st) ->
      (forall k, submittedQuantity k st
                 = Zsum (map rowQuantity
                           (filter isActiveRow (rowsFor k billItems)))) ->
      (forall l, In l (orderItems st) -> statusIs addon l = true ->
                 quantity l <= 0) ->
      update_editedItems req = []
      /\ update_addedItems req = []
      /\ update_status req = "bill-printed").
Proof.
  intros req.
  assert (S1 : update_editedItems req = [] /\ update_addedItems req = [] ->
               update_status req = "bill-printed").
  { intros [He Ha]. subst req. unfold buildUpdateData in *.
    cbn [update_editedItems update_addedItems update_status] in *.
    rewrite He, Ha. reflexivity. }
  assert (S2 : ~ (update_editedItems req = [] /\ update_addedItems req = []) ->
               update_status req = bill_status currentBill).
  { intros N. subst req. unfold buildUpdateData in *.
    cbn [update_editedItems update_addedItems update_status] in *.
    destruct (Nat.eqb (List.length (addedItems (orderItems st))) 0) eqn:A;
      [|reflexivity].
    destruct (Nat.eqb (List.length (computeEditedItems st billItems)) 0) eqn:E;
      [|reflexivity].
    exfalso. apply N. split; apply length_zero_nil; assumption. }
  assert (S3 : (forall r, In r billItems -> 0 <= rowQuantity r) ->
               (forall k d, JsMap.get (desiredByProduct st) k = Some d ->
                            d = Zsum (map rowQuantity
                                        (filter isActiveRow
                                           (rowsFor k billItems)))) ->
               (forall l, In l (orderItems st) -> statusIs addon l = true ->
                          quantity l <= 0) ->
               update_editedItems req = []
               /\ update_addedItems req = []
               /\ update_status req = "bill-printed").
  { intros Hq Hd Ha.
    assert (E : update_editedItems req = [])
      by exact (no_edits_when_desired_matches st billItems Hq Hd).
    assert (A : update_addedItems req = [])
      by exact (no_added_without_addons (orderItems st) Ha).
    split; [exact E|]. split; [exact A|]. apply S1. split; assumption. }
  split; [exact S1|]. split; [exact S2|].
  split; [|split; [reflexivity|split; [reflexivity|split; [exact S3|]]]].
  - split.
    + intros P.
      destruct (update_editedItems req) as [|e es] eqn:E;
        [destruct (update_addedItems req) as [|a l] eqn:A|].
      * left. split; reflexivity.
      * right. rewrite <- P. symmetry. apply S2. intros [_ N]. discriminate N.
      * right. rewrite <- P. symmetry. apply S2. intros [N _]. discriminate N.
    + intros [H|H]; [exact (S1 H)|].
      destruct (update_editedItems req) as [|e es] eqn:E;
        [destruct (update_addedItems req) as [|a l] eqn:A|].
      * apply S1. split; reflexivity.
      * rewrite <- H. apply S2. intros [_ N]. discriminate N.
      * rewrite <- H. apply S2. intros [N _]. discriminate N.
  - intros Hq Hd Hs Ha. apply S3; [exact Hq | | exact Ha].
    intros k d Hk. rewrite (Hd k d Hk). apply Hs.
Qed.

Lemma C5_status_and_empty_diff_witness :
  let rows := [mkBillItem (Some "i1") (Some (RefId "p1")) (Some "Tea")
                          (Some 2) (Some 10%float) "active";
               mkBillItem (Some "i3") (Some (RefId "p1")) (Some "Tea")
                          (Some 3) (Some 10%float) "active";
               mkBillItem (Some "i4") (Some (RefId "p2")) (Some "Bun")
                          (Some 1) (Some 15%float) "canceled"] in
  let bill := mkBill (Some "b1") (Some "B-7") "pending" (Some rows) in
  let st := fetchLastOrder tableFour false "17" (successWith 200 bill)
              initialState in
  let req := buildUpdateData st bill rows in
  update_editedItems req = []
  /\ update_addedItems req = []
  /\ update_status req = "bill-printed".
Proof.
  intros rows bill st req.
  apply (proj2 (proj2 (proj2 (proj2 (proj2 (proj2
           (C5_status_and_empty_diff st bill rows))))))).
  - intros r [<-|[<-|[<-|[]]]]; vm_compute; discriminate.
  - intros k d.
    replace (desiredByProduct st) with [("p1", 5); ("p2", 0)]
      by (vm_compute; reflexivity).
    unfold submittedQuantity.
    replace (originalSubmittedItems st)
      with [mkOrderItem (mkProduct "p1" "Tea" (Some 10%float)) 5
              (Some original) (Some 5) (Some "srv-p1") (Some ["i1"; "i3"])]
      by (vm_compute; reflexivity).
    cbn [JsMap.get filter]. unfold ofProduct. cbn [product _id].
    destruct (String.eqb "p1" k) eqn:E1.
    + intros E. inversion E. reflexivity.
    + destruct (String.eqb "p2" k) eqn:E2; [|discriminate].
      intros E. inversion E. reflexivity.
  - intros k. unfold submittedQuantity.
    replace (originalSubmittedItems st)
      with [mkOrderItem (mkProduct "p1" "Tea" (Some 10%float)) 5
              (Some original) (Some 5) (Some "srv-p1") (Some ["i1"; "i3"])]
      by (vm_compute; reflexivity).
    unfold rowsFor, rows, ofProduct, pidOf.
    cbn [filter product _id productId].
    change (Js.truthyStr "p1") with true.
    change (Js.truthyStr "p2") with true. cbv iota.
    destruct (String.eqb "p1" k) eqn:E1.
    + apply String.eqb_eq in E1. subst k. reflexivity.
    + destruct (String.eqb "p2" k); reflexivity.
  - intros l Hl. vm_compute in Hl.
    destruct Hl as [<-|[<-|[]]]; discriminate.
Defined.

(** ** Removed lines *)

Lemma findIndex_split {A} (f : A -> bool) (l : list A) (i : nat) :
  Js.findIndex f l = Some i ->
  exists l1 x l2,
    l = l1 ++ x :: l2 /\ List.length l1 = i /\ f x = true
    /\ (forall y, In y l1 -> f y = false).
Proof.
  revert i. induction l as [|a r IH]; simpl; intros i H.
  - discriminate.
  - destruct (f a) eqn:F.
    + inversion H; subst. exists [], a, r. repeat split; auto.
      intros y [].
    + destruct (Js.findIndex f r) as [j|] eqn:E; [|discriminate].
      inversion H; subst.
      destruct (IH j eq_refl) as (l1 & x & l2 & -> & Hl & Hx & Hn).
      exists (a :: l1), x, l2. repeat split; simpl; auto.
      intros y [<-|Hy]; auto.
Qed.

Lemma nth_error_middle {A} (l1 l2 : list A) (x : A) :
  nth_error (l1 ++ x :: l2) (List.length l1) = Some x.
Proof. induction l1; simpl; auto. Qed.

Lemma setAt_middle {A} (l1 l2 : list A) (x v : A) :
  Js.setAt (l1 ++ x :: l2) (List.length l1) v = l1 ++ v :: l2.
Proof. induction l1 as [|a r IH]; simpl; [|rewrite IH]; reflexivity. Qed.

Lemma nth_error_setAt_other {A} (l : list A) (i j : nat) (v : A) :
  i <> j -> nth_error (Js.setAt l i v) j = nth_error l j.
Proof.
  revert i j. induction l as [|a r IH]; intros i j N; simpl.
  - reflexivity.
  - destruct i, j; simpl; try reflexivity; try contradiction.
    apply IH. intros E. apply N. f_equal. exact E.
Qed.

Lemma find_middle_skip {A} (f : A -> bool) (l1 l2 : list A) (x y : A) :
  f x = false -> f y = false ->
  List.find f (l1 ++ x :: l2) = List.find f (l1 ++ y :: l2).
Proof.
  intros Hx Hy. induction l1 as [|a r IH]; simpl.
  - rewrite Hx, Hy. reflexivity.
  - destruct (f a); [reflexivity | exact IH].
Qed.

Lemma find_of_split {A} (f : A -> bool) (l1 l2 : list A) (x : A) :
  f x = true -> (forall y, In y l1 -> f y = false) ->
  List.find f (l1 ++ x :: l2) = Some x.
Proof.
  intros Hx Hn. induction l1 as [|a r IH]; simpl.
  - rewrite Hx. reflexivity.
  - rewrite (Hn a) by (left; reflexivity). apply IH.
    intros y Hy. apply Hn. right. exact Hy.
Qed.

Lemma findIndex_none_find {A} (f : A -> bool) (l : list A) :
  Js.findIndex f l = None -> List.find f l = None.
Proof.
  induction l as [|a r IH]; simpl; intros H.
  - reflexivity.
  - destruct (f a); [discriminate|].
    destruct (Js.findIndex f r); [discriminate|]. apply IH. reflexivity.
Qed.

Lemma removedUnits_app pid (l l' : list OrderItem) :
  removedUnits pid (l ++ l') = removedUnits pid l + removedUnits pid l'.
Proof.
  unfold removedUnits, linesOf, Zsum. rewrite filter_app, map_app.
  induction (map quantity (filter _ l)) as [|z r IH]; simpl; lia.
Qed.

Lemma removedUnits_cons pid (x : OrderItem) (l : list OrderItem) :
  removedUnits pid (x :: l)
  = (if ofProduct pid x && statusIs removed x then quantity x else 0)
    + removedUnits pid l.
Proof.
  unfold removedUnits, linesOf. simpl.
  destruct (ofProduct pid x && statusIs removed x); reflexivity.
Qed.

Lemma original_not_removed (x : OrderItem) :
  isOriginal x = true -> statusIs removed x = false.
Proof.
  unfold isOriginal, statusIs.
  destruct (itemStatus x) as [[| |]|]; simpl; congruence.
Qed.

Section Decrement.

Variables (now lid : string) (st : State) (idx : nat) (target : OrderItem).

Hypothesis found : Js.findIndex (hasLocalId lid) (orderItems st) = Some idx.
Hypothesis atIdx : nth_error (orderItems st) idx = Some target.
Hypothesis targetOriginal : isOriginal target = true.
Hypothesis billSubmitted : Js.truthyOpt (existingBillId st) = true.

Let pid := _id (product target).
Let newQuantity := Js.max0 (quantity target - 1).
Let delta := quantity target - newQuantity.
Let isRemovedOfPid := fun i : OrderItem => ofProduct pid i && statusIs removed i.

Lemma decrement_original_shape :
  let st' := handleDecrementQuantity now lid st in
  nth_error (orderItems st') idx = Some (withQuantity target newQuantity)
  /\ removedUnits pid (orderItems st') = removedUnits pid (orderItems st) + delta
  /\ (exists line,
         In line (linesOf pid removed (orderItems st'))
         /\ originalQuantity line = Some (preRemovalTotal st target))
  /\ hasPendingChanges st' = true.
Proof.
  destruct (findIndex_split _ _ _ found) as (l1 & x & l2 & Hl & Hlen & Hx & Hn).
  assert (x = target).
  { rewrite Hl, <- Hlen, nth_error_middle in atIdx. congruence. }
  subst x.
  assert (Tr : isRemovedOfPid target = false).
  { unfold isRemovedOfPid. rewrite (original_not_removed _ targetOriginal).
    apply andb_false_r. }
  set (t' := withQuantity target newQuantity).
  assert (Tr' : isRemovedOfPid t' = false) by exact Tr.
  unfold handleDecrementQuantity.
  rewrite found, atIdx, targetOriginal, billSubmitted. cbn [andb].
  fold pid newQuantity delta t'.
  rewrite Hl, <- Hlen, setAt_middle.
  fold isRemovedOfPid.
  assert (U0 : removedUnits pid (l1 ++ t' :: l2)
               = removedUnits pid (l1 ++ target :: l2)).
  { rewrite !removedUnits_app, !removedUnits_cons.
    fold (isRemovedOfPid t') (isRemovedOfPid target).
    rewrite Tr, Tr'. reflexivity. }
  assert (F0 : removedLineOf pid (orderItems st)
               = List.find isRemovedOfPid (l1 ++ t' :: l2)).
  { unfold removedLineOf, Js.find. rewrite Hl.
    apply find_middle_skip; assumption. }
  unfold preRemovalTotal. fold pid. rewrite F0.
  destruct (Js.findIndex isRemovedOfPid (l1 ++ t' :: l2)) as [r|] eqn:R.
  - destruct (findIndex_split _ _ _ R) as (a & e & b & Hab & Ha & He & Hna).
    rewrite Hab, <- Ha, nth_error_middle, setAt_middle.
    rewrite (find_of_split _ _ _ _ He Hna).
    set (e' := mkOrderItem (product e) (quantity e + delta) (itemStatus e)
                 (Some match Js.find (ofProduct pid) (originalSubmittedItems st) with
                       | Some o => quantity o
                       | None => quantity target + quantity e
                       end) (localId e) (serverItemIds e)).
    assert (He' : isRemovedOfPid e' = true) by exact He.
    cbn [orderItems setOrderItems setHasPendingChanges hasPendingChanges].
    split; [|split; [|split; [|reflexivity]]].
    + assert (N : List.length a <> List.length l1).
      { intros E.
        assert (Q : nth_error (a ++ e :: b) (List.length a) = Some t').
        { rewrite <- Hab, E. apply nth_error_middle. }
        rewrite nth_error_middle in Q. inversion Q; subst e.
        rewrite He in Tr'. discriminate. }
      rewrite <- (setAt_middle a b e e'), nth_error_setAt_other by exact N.
      rewrite <- Hab. apply nth_error_middle.
    + rewrite <- U0, Hab, !removedUnits_app, !removedUnits_cons.
      fold (isRemovedOfPid e') (isRemovedOfPid e). rewrite He, He'.
      unfold e'. cbn [quantity]. lia.
    + exists e'. split; [|reflexivity].
      apply filter_In. split; [|exact He'].
      apply in_or_app. right. left. reflexivity.
  - rewrite (findIndex_none_find _ _ R).
    cbn [orderItems setOrderItems setHasPendingChanges hasPendingChanges].
    set (gone := mkOrderItem (product target) delta (Some removed)
                   (Some match Js.find (ofProduct pid) (originalSubmittedItems st) with
                         | Some o => quantity o
                         | None => quantity target + 0
                         end)
                   (Some ("removed-" ++ pid ++ "-" ++ now)%string) None).
    assert (Hg : isRemovedOfPid gone = true).
    { unfold isRemovedOfPid, gone, ofProduct, statusIs. cbn.
      fold pid. rewrite String.eqb_refl. reflexivity. }
    split; [|split; [|split; [|reflexivity]]].
    + rewrite <- app_assoc. cbn [app]. apply nth_error_middle.
    + rewrite removedUnits_app, U0, removedUnits_cons.
      fold (isRemovedOfPid gone). rewrite Hg.
      unfold gone, removedUnits. cbn. lia.
    + exists gone. split; [|reflexivity].
      apply filter_In. split; [|exact Hg].
      apply in_or_app. right. left. reflexivity.
Qed.

End Decrement.

Lemma removed_line_of_group pid rows line :
  In line (mapGroup pid rows) -> statusIs removed line = true ->
  quantity line = 0
  /\ originalQuantity line
     = Some (Zsum (map rowQuantity (filter isCanceledRow rows))).
Proof.
  unfold mapGroup. intros H S. apply in_app_or in H. destruct H as [H|H].
  - destruct (filter isActiveRow rows); [destruct H|].
    destruct H as [<-|[]]. discriminate.
  - destruct (filter isCanceledRow rows) as [|p r] eqn:C; [destruct H|].
    destruct H as [<-|[]]. cbn [quantity originalQuantity].
    rewrite sumQuantity_Zsum. split; reflexivity.
Qed.

Lemma restored_lines item st l :
  In l (orderItems (restoreRemoved item st)) ->
  sameLocalId (localId l) (localId item) = true ->
  itemStatus l = Some original
  /\ quantity l = originalQuantityOr1 item
  /\ originalQuantity l = None.
Proof.
  unfold restoreRemoved. cbn [orderItems setOrderItems]. intros H S.
  apply in_map_iff in H. destruct H as (i & E & _).
  destruct (sameLocalId (localId i) (localId item)) eqn:Si.
  - subst l. repeat split.
  - subst l. rewrite Si in S. discriminate.
Qed.

(** C8 (counterexample). The invariant that every removed line has
    quantity 0 does not survive a decrement: after a sync that leaves no
    removed line, one decrement of the original line makes a removed
    line of quantity 1. *)
Lemma C8_counterexample :
  let st := fetchLastOrder tableFour false "17" (successWith 200 pendingBill)
              initialState in
  (forall l, In l (orderItems st) -> statusIs removed l = true ->
             quantity l = 0)
  /\ ~ (forall l, In l (orderItems (handleDecrementQuantity "18" "srv-p1" st)) ->
                  statusIs removed l = true -> quantity l = 0).
Proof.
  split.
  - intros l Hl. vm_compute in Hl. destruct Hl as [<-|[]]. discriminate.
  - intros H.
    specialize (H (removedCompanion tea 1 2 "18")).
    assert (Q : quantity (removedCompanion tea 1 2 "18") = 0).
    { apply H; [|reflexivity]. vm_compute. right. left. reflexivity. }
    discriminate.
Qed.

(** C8, amended. After a successful sync every removed line has quantity
    0 and an originalQuantity equal to the total of its product's
    canceled rows. A decrement of an original line on a submitted bill
    lowers that line to max(0, quantity - 1) and adds the difference to
    the product's removed units, on a removed line whose
    originalQuantity is the pre-removal amount; so such a removed line
    counts the units removed, one per decrement of a positive line.
    Restoring a removed line makes every line with its local id an
    original line with originalQuantity cleared, whose quantity is
    [originalQuantity || 1]: the stored originalQuantity when it is
    not 0, and 1 when none or 0 is stored, as for a removed line that
    a sync made of canceled rows of total 0. Whatever their quantity,
    removed lines add nothing to the subtotal, which skips them. *)
Theorem C8_removed_lines :
  (forall env suppress now code bill st l,
      ready env = true ->
      In l (orderItems (fetchLastOrder env suppress now
                          (successWith code bill) st)) ->
      statusIs removed l = true ->
      quantity l = 0
      /\ originalQuantity l
         = Some (Zsum (map rowQuantity
                         (filter isCanceledRow
                            (rowsFor (_id (product l)) (billRows bill))))))
  /\ (forall now lid st idx target,
         Js.findIndex (hasLocalId lid) (orderItems st) = Some idx ->
         nth_error (orderItems st) idx = Some target ->
         isOriginal target = true ->
         Js.truthyOpt (existingBillId st) = true ->
         let st' := handleDecrementQuantity now lid st in
         let pid := _id (product target) in
         let newQuantity := Js.max0 (quantity target - 1) in
         nth_error (orderItems st') idx = Some (withQuantity target newQuantity)
         /\ removedUnits pid (orderItems st')
            = removedUnits pid (orderItems st) + (quantity target - newQuantity)
         /\ (1 <= quantity target -> quantity target - newQuantity = 1)
         /\ (exists line,
                In line (linesOf pid removed (orderItems st'))
                /\ originalQuantity line = Some (preRemovalTotal st target)))
  /\ (forall item st l,
         In l (orderItems (restoreRemoved item st)) ->
         sameLocalId (localId l) (localId item) = true ->
         itemStatus l = Some original
         /\ quantity l = originalQuantityOr1 item
         /\ originalQuantity l = None)
  /\ (forall items,
         getTotalOrderCost items
         = getTotalOrderCost
             (filter (fun i => negb (statusIs removed i)) items))
  /\ (forall item st l,
         In l (orderItems (restoreRemoved item st)) ->
         sameLocalId (localId l) (localId item) = true ->
         (forall q, originalQuantity item = Some q -> q <> 0 ->
                    quantity l = q)
         /\ (originalQuantity item = Some 0 \/ originalQuantity item = None ->
             quantity l = 1)).
Proof.
  split; [|split; [|split; [|split]]].
  - intros env suppress now code bill st l Hr Hl S.
    rewrite (synced_orderItems env suppress now code bill st Hr) in Hl.
    assert (Hm : In l (mappedItems (billRows bill))).
    { destruct suppress; [apply filter_In in Hl; apply Hl | exact Hl]. }
    apply mappedItems_line in Hm.
    exact (removed_line_of_group _ _ _ Hm S).
  - intros now lid st idx target Hf Hn Ho Hb st' pid newQuantity.
    destruct (decrement_original_shape now lid st idx target Hf Hn Ho Hb)
      as (H1 & H2 & H3 & _).
    split; [exact H1|]. split; [exact H2|]. split; [|exact H3].
    intros Hq. unfold newQuantity, Js.max0. lia.
  - exact restored_lines.
  - exact subtotal_skips_removed.
  - intros item st l Hl S.
    destruct (restored_lines item st l Hl S) as (_ & Q & _).
    rewrite Q. unfold originalQuantityOr1. split.
    + intros q E N. rewrite E. apply Z.eqb_neq in N. rewrite N. reflexivity.
    + intros [E|E]; rewrite E; reflexivity.
Qed.

Lemma C8_removed_lines_witness :
  let st := fetchLastOrder tableFour false "17" (successWith 200 pendingBill)
              initialState in
  let st' := handleDecrementQuantity "18" "srv-p1" st in
  nth_error (orderItems st') 0 = Some (withQuantity teaLine 1)
  /\ removedUnits "p1" (orderItems st') = 1.
Proof.
  intros st st'.
  destruct (proj1 (proj2 C8_removed_lines) "18" "srv-p1" st O teaLine
              eq_refl eq_refl eq_refl eq_refl)
    as (H1 & H2 & _).
  split; [exact H1 | exact H2].
Defined.

(** * Further properties *)

(** ** Lists under the array updates *)

Lemma Forall_setAt {A} (P : A -> Prop) (l : list A) (i : nat) (v : A) :
  Forall P l -> P v -> Forall P (Js.setAt l i v).
Proof.
  intros H Hv. revert i.
  induction H as [|a r Ha Hr IH]; intros i; simpl.
  - constructor.
  - destruct i; constructor; auto.
Qed.

Lemma Forall_removeAt {A} (P : A -> Prop) (l : list A) (i : nat) :
  Forall P l -> Forall P (Js.removeAt l i).
Proof.
  intros H. revert i.
  induction H as [|a r Ha Hr IH]; intros i; simpl.
  - constructor.
  - destruct i; [exact Hr | constructor; auto].
Qed.

Lemma Forall_map_same {A} (P : A -> Prop) (f : A -> A) (l : list A) :
  (forall x, P x -> P (f x)) -> Forall P l -> Forall P (map f l).
Proof.
  intros Hf H. induction H; simpl; constructor; auto.
Qed.

Lemma Forall_filter {A} (P : A -> Prop) (f : A -> bool) (l : list A) :
  Forall P l -> Forall P (filter f l).
Proof.
  intros H. induction H as [|a r Ha Hr IH]; simpl; [constructor|].
  destruct (f a); [constructor|]; assumption.
Qed.

Lemma Forall_snoc {A} (P : A -> Prop) (l : list A) (x : A) :
  Forall P l -> P x -> Forall P (l ++ [x]).
Proof.
  intros H Hx. apply Forall_app. split; [exact H | repeat constructor; exact Hx].
Qed.

Lemma Forall_nth_error {A} (P : A -> Prop) (l : list A) (i : nat) (x : A) :
  Forall P l -> nth_error l i = Some x -> P x.
Proof.
  intros H E. apply nth_error_In in E.
  rewrite Forall_forall in H. apply H. exact E.
Qed.

Lemma Forall_find {A} (P : A -> Prop) (f : A -> bool) (l : list A) (x : A) :
  Forall P l -> Js.find f l = Some x -> P x.
Proof.
  intros H E. apply find_in in E.
  rewrite Forall_forall in H. apply H. exact E.
Qed.

(** ** Quantities never go negative *)

Lemma withQuantity_nonneg (l : OrderItem) (q : Z) :
  lineNonneg l -> 0 <= q -> lineNonneg (withQuantity l q).
Proof. intros [_ H] Hq. split; [exact Hq | exact H]. Qed.

Lemma fresh_line_nonneg pr q s lid ids :
  0 <= q -> lineNonneg (mkOrderItem pr q s None lid ids).
Proof. intros Hq. split; [exact Hq | intros x E; discriminate]. Qed.

Lemma add_keeps_nonneg fresh pr st :
  nonnegDraft st -> nonnegDraft (handleAddToOrder fresh pr st).
Proof.
  intros [Hi Hs]. unfold handleAddToOrder.
  assert (Inc : forall x, lineNonneg x ->
                          lineNonneg (withQuantity x (quantity x + 1))).
  { intros x Hx. apply withQuantity_nonneg; [exact Hx|]. destruct Hx. lia. }
  destruct (addBranch st pr); split; cbn [orderItems originalSubmittedItems
                                           setOrderItems]; try exact Hs.
  - apply Forall_map_same; [|exact Hi]. intros x Hx.
    destruct (ofProduct (_id pr) x); [|exact Hx].
    apply fresh_line_nonneg. lia.
  - apply Forall_map_same; [|exact Hi]. intros x Hx.
    destruct (ofProduct (_id pr) x && statusIs addon x); auto.
  - apply Forall_snoc; [exact Hi|]. apply fresh_line_nonneg. lia.
  - apply Forall_map_same; [|exact Hi]. intros x Hx.
    destruct (ofProduct (_id pr) x); auto.
  - apply Forall_snoc; [exact Hi|]. apply fresh_line_nonneg. lia.
Qed.

Lemma increment_keeps_nonneg fresh lid st :
  nonnegDraft st -> nonnegDraft (handleIncrementQuantity fresh lid st).
Proof.
  intros [Hi Hs]. unfold handleIncrementQuantity.
  destruct (Js.findIndex (hasLocalId lid) (orderItems st)) as [idx|];
    [|split; assumption].
  destruct (nth_error (orderItems st) idx) as [target|] eqn:T;
    [|split; assumption].
  pose proof (Forall_nth_error _ _ _ _ Hi T) as Ht.
  destruct (Js.truthyOpt (existingBillId st) && isOriginal target).
  - destruct (Js.findIndex _ (orderItems st)) as [a|].
    + destruct (nth_error (orderItems st) a) as [x|] eqn:A;
        [|split; assumption].
      pose proof (Forall_nth_error _ _ _ _ Hi A) as Hx.
      split; [|exact Hs]. cbn [orderItems setOrderItems].
      apply Forall_setAt; [exact Hi|].
      apply withQuantity_nonneg; [exact Hx|]. destruct Hx. lia.
    + split; [|exact Hs]. cbn [orderItems setOrderItems].
      apply Forall_snoc; [exact Hi|]. apply fresh_line_nonneg. lia.
  - split; [|exact Hs]. cbn [orderItems setOrderItems].
    apply Forall_setAt; [exact Hi|].
    apply withQuantity_nonneg; [exact Ht|]. destruct Ht. lia.
Qed.

Lemma decrement_keeps_nonneg now lid st :
  nonnegDraft st -> nonnegDraft (handleDecrementQuantity now lid st).
Proof.
  intros [Hi Hs]. unfold handleDecrementQuantity.
  destruct (Js.findIndex (hasLocalId lid) (orderItems st)) as [idx|];
    [|split; assumption].
  destruct (nth_error (orderItems st) idx) as [target|] eqn:T;
    [|split; assumption].
  pose proof (Forall_nth_error _ _ _ _ Hi T) as Ht.
  assert (Hq : 0 <= quantity target) by (destruct Ht; assumption).
  assert (Hm : 0 <= Js.max0 (quantity target - 1)) by (unfold Js.max0; lia).
  assert (Hd : 0 <= quantity target - Js.max0 (quantity target - 1))
    by (unfold Js.max0; lia).
  set (t' := withQuantity target (Js.max0 (quantity target - 1))).
  assert (Ht' : lineNonneg t') by (apply withQuantity_nonneg; assumption).
  assert (Hn : Forall lineNonneg (Js.setAt (orderItems st) idx t'))
    by (apply Forall_setAt; assumption).
  destruct (isOriginal target && Js.truthyOpt (existingBillId st)).
  - split; [|exact Hs].
    cbn [orderItems setOrderItems setHasPendingChanges].
    fold t'.
    set (f := fun i => ofProduct (_id (product target)) i && statusIs removed i).
    assert (Tot : forall extra, 0 <= extra ->
               0 <= match Js.find (ofProduct (_id (product target)))
                            (originalSubmittedItems st) with
                    | Some o => quantity o
                    | None => quantity target + extra
                    end).
    { intros extra He.
      destruct (Js.find _ (originalSubmittedItems st)) as [o|] eqn:F; [|lia].
      destruct (Forall_find _ _ _ _ Hs F) as [Ho _]. exact Ho. }
    destruct (Js.findIndex f (Js.setAt (orderItems st) idx t')) as [r|].
    + destruct (nth_error (Js.setAt (orderItems st) idx t') r) as [e|] eqn:E.
      * destruct (Forall_nth_error _ _ _ _ Hn E) as [He _].
        apply Forall_setAt; [exact Hn|]. split; cbn.
        -- lia.
        -- intros q Q. inversion Q. apply Tot. exact He.
      * apply Forall_snoc; [exact Hn|]. split; cbn; [exact Hd|].
        intros q Q. inversion Q. apply Tot. lia.
    + apply Forall_snoc; [exact Hn|]. split; cbn; [exact Hd|].
      intros q Q. inversion Q. apply Tot. lia.
  - destruct (Js.max0 (quantity target - 1) <=? 0);
      (split; [|exact Hs]); cbn [orderItems setOrderItems].
    + apply Forall_removeAt. exact Hi.
    + exact Hn.
Qed.

Lemma restore_keeps_nonneg item st :
  In item (orderItems st) ->
  nonnegDraft st -> nonnegDraft (restoreRemoved item st).
Proof.
  intros Hin [Hi Hs]. split; [|exact Hs].
  unfold restoreRemoved. cbn [orderItems setOrderItems].
  assert (Hitem : lineNonneg item)
    by (rewrite Forall_forall in Hi; apply Hi; exact Hin).
  apply Forall_map_same; [|exact Hi]. intros x Hx.
  destruct (sameLocalId (localId x) (localId item)); [|exact Hx].
  apply fresh_line_nonneg. unfold originalQuantityOr1.
  destruct Hitem as [_ Ho].
  destruct (originalQuantity item) as [q|] eqn:Q; [|lia].
  destruct (q =? 0); [lia|]. apply Ho. reflexivity.
Qed.

Lemma commit_keeps_nonneg st :
  nonnegDraft st -> nonnegDraft (commitUpdate st).
Proof.
  intros [Hi Hs].
  assert (H : Forall lineNonneg
                (filter (fun item => negb (statusIs removed item))
                   (map (fun item =>
                           if statusIs addon item
                           then mkOrderItem (product item) (quantity item)
                                  (Some original) (originalQuantity item)
                                  (localId item) (serverItemIds item)
                           else item) (orderItems st)))).
  { apply Forall_filter. apply Forall_map_same; [|exact Hi].
    intros x Hx. destruct (statusIs addon x); exact Hx. }
  split; cbn; [exact H | apply Forall_filter; exact H].
Qed.

Lemma Zsum_nonneg (l : list Z) : Forall (fun z => 0 <= z) l -> 0 <= Zsum l.
Proof. intros H. induction H; simpl; lia. Qed.

Lemma sumQuantity_nonneg rows :
  (forall r, In r rows -> 0 <= rowQuantity r) -> 0 <= sumQuantity rows.
Proof.
  intros H. rewrite sumQuantity_Zsum. apply Zsum_nonneg.
  apply Forall_forall. intros z Hz. apply in_map_iff in Hz.
  destruct Hz as (r & <- & Hr). apply H. exact Hr.
Qed.

Lemma mapGroup_nonneg pid rows :
  (forall r, In r rows -> 0 <= rowQuantity r) ->
  Forall lineNonneg (mapGroup pid rows).
Proof.
  intros H. unfold mapGroup. apply Forall_app. split.
  - destruct (filter isActiveRow rows) as [|p r] eqn:A; [constructor|].
    assert (S : 0 <= sumQuantity (p :: r)).
    { apply sumQuantity_nonneg. intros x Hx. apply H.
      rewrite <- A in Hx. apply filter_In in Hx. apply Hx. }
    repeat constructor; cbn; [exact S|]. intros q Q. inversion Q; subst. exact S.
  - destruct (filter isCanceledRow rows) as [|p r] eqn:A; [constructor|].
    assert (S : 0 <= sumQuantity (p :: r)).
    { apply sumQuantity_nonneg. intros x Hx. apply H.
      rewrite <- A in Hx. apply filter_In in Hx. apply Hx. }
    repeat constructor; cbn; [lia|]. intros q Q. inversion Q; subst. exact S.
Qed.

Lemma mappedItems_nonneg rows :
  (forall r, In r rows -> 0 <= rowQuantity r) ->
  Forall lineNonneg (mappedItems rows).
Proof.
  intros H. apply Forall_forall. intros l Hl.
  apply mappedItems_line in Hl.
  assert (F : Forall lineNonneg
                (mapGroup (_id (product l))
                   (rowsFor (_id (product l)) rows))).
  { apply mapGroup_nonneg. intros r Hr. apply H.
    apply filter_In in Hr. apply Hr. }
  rewrite Forall_forall in F. apply F. exact Hl.
Qed.

Lemma sync_keeps_nonneg env suppress now code bill st :
  (forall r, In r (billRows bill) -> 0 <= rowQuantity r) ->
  nonnegDraft st ->
  nonnegDraft (fetchLastOrder env suppress now (successWith code bill) st).
Proof.
  intros Hr Hst.
  destruct (ready env) eqn:R.
  - pose proof (synced_orderItems env suppress now code bill st R) as HI.
    pose proof (synced_originals env suppress now code bill st R) as HS.
    cbv zeta in HS. unfold nonnegDraft. rewrite HS, HI.
    pose proof (mappedItems_nonneg _ Hr) as M.
    assert (F : Forall lineNonneg
                  (if suppress
                   then filter (fun i => negb (statusIs removed i))
                          (mappedItems (billRows bill))
                   else mappedItems (billRows bill))).
    { destruct suppress; [apply Forall_filter|]; exact M. }
    split; [exact F | apply Forall_filter; exact F].
  - unfold fetchLastOrder.
    assert (G : negb (Js.truthyOpt (apiUrl env)) || noTable env
                || isLoadingIp env = true).
    { unfold ready in R.
      destruct (Js.truthyOpt (apiUrl env)), (noTable env), (isLoadingIp env);
        simpl in *; congruence. }
    rewrite G. exact Hst.
Qed.

(** X1. No handler that edits the draft makes a quantity negative: if
    the quantities and stored original quantities of the draft and of
    the last submitted lines are not negative, they are still so after
    adding a product, after the plus and minus buttons, after restoring
    a removed line of the draft, after the local commit of Update KOT,
    and after a sync from a bill whose rows are not negative. *)
Theorem X1_quantities_stay_nonnegative (st : State) :
  nonnegDraft st ->
  (forall fresh pr, nonnegDraft (handleAddToOrder fresh pr st))
  /\ (forall fresh lid, nonnegDraft (handleIncrementQuantity fresh lid st))
  /\ (forall now lid, nonnegDraft (handleDecrementQuantity now lid st))
  /\ (forall item, In item (orderItems st) ->
                   nonnegDraft (restoreRemoved item st))
  /\ nonnegDraft (commitUpdate st)
  /\ (forall env suppress now code bill,
         (forall r, In r (billRows bill) -> 0 <= rowQuantity r) ->
         nonnegDraft
           (fetchLastOrder env suppress now (successWith code bill) st)).
Proof.
  intros H. split; [|split; [|split; [|split; [|split]]]].
  - intros. apply add_keeps_nonneg. exact H.
  - intros. apply increment_keeps_nonneg. exact H.
  - intros. apply decrement_keeps_nonneg. exact H.
  - intros. apply restore_keeps_nonneg; assumption.
  - apply commit_keeps_nonneg. exact H.
  - intros. apply sync_keeps_nonneg; assumption.
Qed.

Lemma X1_quantities_stay_nonnegative_witness :
  let st := mkState [teaLine] [teaLine] (Some "b1") (Some "B-7")
                    false false false false in
  nonnegDraft st /\ nonnegDraft (handleDecrementQuantity "18" "srv-p1" st).
Proof.
  intros st.
  assert (H : nonnegDraft st).
  { assert (L : lineNonneg teaLine).
    { split; cbn; [lia|]. intros q Q. inversion Q. lia. }
    split; (constructor; [exact L | constructor]). }
  split; [exact H|].
  exact (proj1 (proj2 (proj2 (X1_quantities_stay_nonnegative st H)))
               "18" "srv-p1").
Defined.

(** ** Lines stay classified while a bill is open *)

Lemma In_setAt {A} (l : list A) (i : nat) (v x : A) :
  In x (Js.setAt l i v) -> x = v \/ In x l.
Proof.
  revert i. induction l as [|a r IH]; intros i H; simpl in *.
  - destruct H.
  - destruct i; simpl in H.
    + destruct H as [<-|H]; auto.
    + destruct H as [<-|H]; auto. destruct (IH _ H); auto.
Qed.

Lemma In_removeAt {A} (l : list A) (i : nat) (x : A) :
  In x (Js.removeAt l i) -> In x l.
Proof.
  revert i. induction l as [|a r IH]; intros i H; simpl in *.
  - destruct H.
  - destruct i; simpl in H; auto.
    destruct H as [<-|H]; auto. right. exact (IH _ H).
Qed.

Lemma add_keeps_classified fresh pr st :
  billClassified st -> billClassified (handleAddToOrder fresh pr st).
Proof.
  intros H. unfold billClassified.
  assert (B : existingBillId (handleAddToOrder fresh pr st) = existingBillId st).
  { unfold handleAddToOrder. destruct (addBranch st pr); reflexivity. }
  rewrite B. intros Hb l Hl. specialize (H Hb).
  unfold handleAddToOrder in Hl.
  destruct (addBranch st pr); cbn [orderItems setOrderItems] in Hl.
  - apply in_map_iff in Hl. destruct Hl as (x & <- & Hx).
    destruct (ofProduct (_id pr) x); [discriminate | exact (H x Hx)].
  - apply in_map_iff in Hl. destruct Hl as (x & <- & Hx).
    destruct (ofProduct (_id pr) x && statusIs addon x); exact (H x Hx).
  - apply in_app_or in Hl. destruct Hl as [Hl|[<-|[]]];
      [exact (H l Hl) | discriminate].
  - apply in_map_iff in Hl. destruct Hl as (x & <- & Hx).
    destruct (ofProduct (_id pr) x); exact (H x Hx).
  - apply in_app_or in Hl. destruct Hl as [Hl|[<-|[]]]; [exact (H l Hl)|].
    cbn. rewrite Hb. discriminate.
Qed.

Lemma increment_keeps_classified fresh lid st :
  billClassified st -> billClassified (handleIncrementQuantity fresh lid st).
Proof.
  intros H. unfold billClassified.
  assert (B : existingBillId (handleIncrementQuantity fresh lid st)
              = existingBillId st).
  { unfold handleIncrementQuantity.
    destruct (Js.findIndex _ (orderItems st)); [|reflexivity].
    destruct (nth_error _ _); [|reflexivity].
    destruct (_ && _); [|reflexivity].
    destruct (Js.findIndex _ (orderItems st)); [|reflexivity].
    destruct (nth_error _ _); reflexivity. }
  rewrite B. intros Hb l Hl. specialize (H Hb).
  unfold handleIncrementQuantity in Hl.
  destruct (Js.findIndex (hasLocalId lid) (orderItems st)) as [idx|];
    [|exact (H l Hl)].
  destruct (nth_error (orderItems st) idx) as [target|] eqn:T;
    [|exact (H l Hl)].
  pose proof (H target (nth_error_In _ _ T)) as Ht.
  destruct (Js.truthyOpt (existingBillId st) && isOriginal target).
  - destruct (Js.findIndex _ (orderItems st)) as [a|].
    + destruct (nth_error (orderItems st) a) as [x|] eqn:A;
        [|exact (H l Hl)].
      cbn [orderItems setOrderItems] in Hl.
      apply In_setAt in Hl. destruct Hl as [->|Hl]; [|exact (H l Hl)].
      exact (H x (nth_error_In _ _ A)).
    + cbn [orderItems setOrderItems] in Hl.
      apply in_app_or in Hl. destruct Hl as [Hl|[<-|[]]];
        [exact (H l Hl) | discriminate].
  - cbn [orderItems setOrderItems] in Hl.
    apply In_setAt in Hl. destruct Hl as [->|Hl]; [exact Ht | exact (H l Hl)].
Qed.

Lemma decrement_keeps_classified now lid st :
  billClassified st -> billClassified (handleDecrementQuantity now lid st).
Proof.
  intros H. unfold billClassified.
  assert (B : existingBillId (handleDecrementQuantity now lid st)
              = existingBillId st).
  { unfold handleDecrementQuantity.
    destruct (Js.findIndex _ (orderItems st)); [|reflexivity].
    destruct (nth_error _ _); [|reflexivity].
    destruct (_ && _); [reflexivity|].
    destruct (_ <=? _); reflexivity. }
  rewrite B. intros Hb l Hl. specialize (H Hb).
  unfold handleDecrementQuantity in Hl.
  destruct (Js.findIndex (hasLocalId lid) (orderItems st)) as [idx|];
    [|exact (H l Hl)].
  destruct (nth_error (orderItems st) idx) as [target|] eqn:T;
    [|exact (H l Hl)].
  pose proof (H target (nth_error_In _ _ T)) as Ht.
  set (t' := withQuantity target (Js.max0 (quantity target - 1))) in *.
  assert (Hn : forall x, In x (Js.setAt (orderItems st) idx t') ->
                         itemStatus x <> None).
  { intros x Hx. apply In_setAt in Hx.
    destruct Hx as [->|Hx]; [exact Ht | exact (H x Hx)]. }
  destruct (isOriginal target && Js.truthyOpt (existingBillId st)).
  - cbn [orderItems setOrderItems setHasPendingChanges] in Hl.
    destruct (Js.findIndex _ (Js.setAt (orderItems st) idx t')) as [r|].
    + destruct (nth_error (Js.setAt (orderItems st) idx t') r) as [e|] eqn:E.
      * apply In_setAt in Hl. destruct Hl as [->|Hl]; [|exact (Hn l Hl)].
        exact (Hn e (nth_error_In _ _ E)).
      * apply in_app_or in Hl. destruct Hl as [Hl|[<-|[]]];
          [exact (Hn l Hl) | discriminate].
    + apply in_app_or in Hl. destruct Hl as [Hl|[<-|[]]];
        [exact (Hn l Hl) | discriminate].
  - destruct (Js.max0 (quantity target - 1) <=? 0);
      cbn [orderItems setOrderItems] in Hl.
    + apply In_removeAt in Hl. exact (H l Hl).
    + exact (Hn l Hl).
Qed.

Lemma restore_keeps_classified item st :
  billClassified st -> billClassified (restoreRemoved item st).
Proof.
  intros H Hb l Hl. specialize (H Hb).
  unfold restoreRemoved in Hl. cbn [orderItems setOrderItems] in Hl.
  apply in_map_iff in Hl. destruct Hl as (x & <- & Hx).
  destruct (sameLocalId (localId x) (localId item));
    [discriminate | exact (H x Hx)].
Qed.

Lemma commit_keeps_classified st :
  billClassified st -> billClassified (commitUpdate st).
Proof.
  intros H Hb l Hl. specialize (H Hb).
  unfold commitUpdate in Hl. cbn in Hl.
  apply filter_In in Hl. destruct Hl as [Hl _].
  apply in_map_iff in Hl. destruct Hl as (x & <- & Hx).
  destruct (statusIs addon x); [discriminate | exact (H x Hx)].
Qed.

Lemma mappedItems_classified rows l :
  In l (mappedItems rows) -> itemStatus l <> None.
Proof.
  intros H. destruct (mapped_line_cases rows l H) as [[E _]|[E _]];
    rewrite E; discriminate.
Qed.

Lemma sync_keeps_classified env suppress now response st :
  billClassified st ->
  billClassified (fetchLastOrder env suppress now response st).
Proof.
  intros H. unfold fetchLastOrder.
  destruct (negb (Js.truthyOpt (apiUrl env)) || noTable env || isLoadingIp env);
    [exact H|].
  assert (Free : forall st', existingBillId st' = None -> billClassified st').
  { intros st' E Hb. rewrite E in Hb. discriminate. }
  destruct response as [code [data|]|err]; try (apply Free; reflexivity).
  destruct (ts_data data) as [bill|]; [|apply Free; reflexivity].
  destruct (String.eqb (ts_status data) "success"); [|apply Free; reflexivity].
  intros _ l Hl.
  assert (M : In l (mappedItems (billRows bill))).
  { unfold syncFromBill in Hl.
    assert (L : forall x, In x (mappedItems (billRows bill)) ->
                          localId x <> None).
    { intros x Hx. apply mappedItems_line in Hx.
      apply (mapGroup_line _ _ _ Hx). }
    destruct suppress; cbn in Hl.
    - rewrite mapi_ensureLocalId in Hl.
      + apply filter_In in Hl. apply Hl.
      + intros x Hx. apply filter_In in Hx. apply L. apply Hx.
    - rewrite mapi_ensureLocalId in Hl by exact L. exact Hl. }
  exact (mappedItems_classified _ _ M).
Qed.

(** X2. While a bill id is set every line of the draft carries a status:
    adding a product, the plus and minus buttons, restore, the local
    commit of Update KOT and a sync, whatever the server answered, all
    keep it so. A line without a status can therefore only exist while
    the table has no bill. *)
Theorem X2_lines_stay_classified (st : State) :
  billClassified st ->
  (forall fresh pr, billClassified (handleAddToOrder fresh pr st))
  /\ (forall fresh lid, billClassified (handleIncrementQuantity fresh lid st))
  /\ (forall now lid, billClassified (handleDecrementQuantity now lid st))
  /\ (forall item, billClassified (restoreRemoved item st))
  /\ billClassified (commitUpdate st)
  /\ (forall env suppress now response,
         billClassified (fetchLastOrder env suppress now response st)).
Proof.
  intros H. split; [|split; [|split; [|split; [|split]]]].
  - intros. apply add_keeps_classified. exact H.
  - intros. apply increment_keeps_classified. exact H.
  - intros. apply decrement_keeps_classified. exact H.
  - intros. apply restore_keeps_classified. exact H.
  - apply commit_keeps_classified. exact H.
  - intros. apply sync_keeps_classified. exact H.
Qed.

Lemma X2_lines_stay_classified_witness :
  billClassified initialState
  /\ billClassified
       (handleAddToOrder "18-ab12cd" tea
          (fetchLastOrder tableFour false "17" (successWith 200 pendingBill)
             initialState)).
Proof.
  assert (H0 : billClassified initialState).
  { intros Hb. discriminate. }
  split; [exact H0|].
  pose proof (proj2 (proj2 (proj2 (proj2 (proj2
                (X2_lines_stay_classified initialState H0)))))
                tableFour false "17" (successWith 200 pendingBill)) as H1.
  exact (proj1 (X2_lines_stay_classified _ H1) "18-ab12cd" tea).
Defined.

(** ** Sync overwrites and is idempotent *)

(** The lines a sync puts in the draft. *)
Lemma finalMapped_ids (now : string) (suppress : bool) (bill : Bill) :
  mapi_from (ensureLocalId now) O
    (if suppress
     then filter (fun i => negb (statusIs removed i))
            (mappedItems (billRows bill))
     else mappedItems (billRows bill))
  = if suppress
    then filter (fun i => negb (statusIs removed i))
           (mappedItems (billRows bill))
    else mappedItems (billRows bill).
Proof.
  assert (L : forall l, In l (mappedItems (billRows bill)) -> localId l <> None).
  { intros l Hl. apply mappedItems_line in Hl.
    apply (mapGroup_line _ _ _ Hl). }
  apply mapi_ensureLocalId. intros x Hx.
  destruct suppress; [apply filter_In in Hx; apply L; apply Hx | exact (L x Hx)].
Qed.

(** The state a successful sync leaves, cell by cell. *)
Lemma synced_state env suppress now code bill st :
  ready env = true ->
  fetchLastOrder env suppress now (successWith code bill) st
  = let finalMapped :=
      if suppress
      then filter (fun i => negb (statusIs removed i))
             (mappedItems (billRows bill))
      else mappedItems (billRows bill) in
    mkState finalMapped (filter (statusIs original) finalMapped)
            (Js.orNull (bill_id bill)) (Js.orNull (bill_billNumber bill))
            (hasPendingChanges st)
            (if suppress then false else suppressRemovedAfterFetch st)
            (loading st) false.
Proof.
  intros Hr. unfold fetchLastOrder. rewrite (ready_guard env Hr).
  unfold successWith. cbn [ts_data ts_status].
  change (String.eqb "success" "success") with true. cbv iota.
  unfold syncFromBill.
  pose proof (finalMapped_ids now suppress bill) as E.
  destruct suppress; cbn in *; rewrite E; reflexivity.
Qed.

Lemma fetch_idempotent env suppress now now' response st :
  fetchLastOrder env suppress now' response
    (fetchLastOrder env suppress now response st)
  = fetchLastOrder env suppress now response st.
Proof.
  destruct (ready env) eqn:R.
  - destruct response as [code [data|]|err].
    + destruct data as [status [bill|]].
      * destruct (String.eqb status "success") eqn:S.
        -- apply String.eqb_eq in S. subst status.
           change (Fulfilled code (Some (mkTableStatus "success" (Some bill))))
             with (successWith code bill).
           rewrite !(synced_state env suppress _ code bill _ R).
           destruct suppress; reflexivity.
        -- unfold fetchLastOrder. rewrite (ready_guard env R).
           cbn [ts_data ts_status]. rewrite S. reflexivity.
      * unfold fetchLastOrder. rewrite (ready_guard env R). reflexivity.
    + unfold fetchLastOrder. rewrite (ready_guard env R). reflexivity.
    + unfold fetchLastOrder. rewrite (ready_guard env R). reflexivity.
  - unfold fetchLastOrder.
    assert (G : negb (Js.truthyOpt (apiUrl env)) || noTable env
                || isLoadingIp env = true).
    { unfold ready in R.
      destruct (Js.truthyOpt (apiUrl env)), (noTable env), (isLoadingIp env);
        simpl in *; congruence. }
    rewrite G. reflexivity.
Qed.

(** X3. Running the sync again on the same answer changes nothing more,
    whatever the answer was; and after an answer that carries a bill, or
    after a call that threw, the draft, the last submitted lines and the
    bill id depend on that answer only, not on what the screen held
    before: the answer that lands last wins. *)
Theorem X3_sync_is_idempotent_overwrite :
  (forall env suppress now now' response st,
      fetchLastOrder env suppress now' response
        (fetchLastOrder env suppress now response st)
      = fetchLastOrder env suppress now response st)
  /\ (forall env suppress now now' response st st',
         ready env = true ->
         (exists code bill, response = successWith code bill)
         \/ (exists err, response = Rejected err) ->
         let a := fetchLastOrder env suppress now response st in
         let b := fetchLastOrder env suppress now' response st' in
         orderItems a = orderItems b
         /\ originalSubmittedItems a = originalSubmittedItems b
         /\ existingBillId a = existingBillId b).
Proof.
  split.
  - exact fetch_idempotent.
  - intros env suppress now now' response st st' R [(code & bill & ->)|(err & ->)].
    + cbv zeta. rewrite !(synced_state env suppress _ code bill _ R).
      repeat split.
    + cbv zeta. unfold fetchLastOrder. rewrite (ready_guard env R).
      repeat split.
Qed.

Lemma X3_sync_is_idempotent_overwrite_witness :
  let stale := mkState [teaLine; teaLine] [] (Some "old") None
                       true false false false in
  let a := fetchLastOrder tableFour false "17" (successWith 200 pendingBill)
             stale in
  orderItems a = [teaLine] /\ existingBillId a = Some "b1".
Proof.
  intros stale a.
  assert (A : (exists code bill,
                  successWith 200 pendingBill = successWith code bill)
              \/ (exists err, successWith 200 pendingBill = Rejected err)).
  { left. exists 200, pendingBill. reflexivity. }
  destruct (proj2 X3_sync_is_idempotent_overwrite tableFour false "17" "17"
              (successWith 200 pendingBill) stale initialState eq_refl A)
    as (H1 & _ & H3).
  split; [exact (eq_trans H1 eq_refl) | exact (eq_trans H3 eq_refl)].
Defined.

(** ** Sync keeps the bill's active units *)

(** The total of the active rows of a list of rows. *)
Lemma Zsum_app (l l' : list Z) : Zsum (l ++ l') = Zsum l + Zsum l'.
Proof. unfold Zsum. induction l as [|z r IH]; simpl; lia. Qed.

Lemma getTotalItems_nil : getTotalItems [] = 0.
Proof. reflexivity. Qed.

Lemma getTotalItems_skips_removed (items : list OrderItem) :
  getTotalItems (filter (fun i => negb (statusIs removed i)) items)
  = getTotalItems items.
Proof.
  unfold getTotalItems. f_equal.
  induction items as [|a r IH]; simpl; [reflexivity|].
  destruct (negb (statusIs removed a)) eqn:E; simpl; rewrite ?E, IH; reflexivity.
Qed.

Lemma getTotalItems_mapGroup pid rows :
  getTotalItems (mapGroup pid rows)
  = Zsum (map rowQuantity (filter isActiveRow rows)).
Proof.
  unfold mapGroup. rewrite getTotalItems_app.
  assert (R : getTotalItems
                match filter isCanceledRow rows with
                | [] => []
                | proto :: _ =>
                    [mkOrderItem (protoProduct pid proto) 0 (Some removed)
                       (Some (sumQuantity (filter isCanceledRow rows)))
                       (Some ("srv-removed-" ++ pid)%string)
                       (Some (rowIds (filter isCanceledRow rows)))]
                end = 0).
  { destruct (filter isCanceledRow rows); reflexivity. }
  rewrite R, Z.add_0_r.
  destruct (filter isActiveRow rows) as [|p r] eqn:A; [reflexivity|].
  unfold getTotalItems.
  cbn [app filter statusIs itemStatus ItemStatus_eqb negb fold_left quantity].
  rewrite sumQuantity_Zsum. reflexivity.
Qed.

Lemma groupedUnits_set m k g :
  groupedUnits (JsMap.set m k g)
  = groupedUnits m
    - match JsMap.get m k with
      | Some old => Zsum (map rowQuantity (filter isActiveRow old))
      | None => 0
      end
    + Zsum (map rowQuantity (filter isActiveRow g)).
Proof.
  unfold groupedUnits. induction m as [|[k0 g0] r IH]; simpl.
  - lia.
  - destruct (String.eqb k0 k); simpl; [lia|]. rewrite IH. lia.
Qed.

Lemma groupedUnits_step m bi :
  groupedUnits (groupStep m bi)
  = groupedUnits m
    + match pidOf bi with
      | Some _ => if isActiveRow bi then rowQuantity bi else 0
      | None => 0
      end.
Proof.
  rewrite groupStep_push. destruct (pidOf bi) as [pid|]; [|lia].
  rewrite groupedUnits_set.
  destruct (JsMap.get m pid) as [g|].
  - rewrite filter_app, map_app, Zsum_app. simpl.
    destruct (isActiveRow bi); simpl; lia.
  - simpl. destruct (isActiveRow bi); simpl; lia.
Qed.

Lemma groupedUnits_fold items m :
  groupedUnits (fold_left groupStep items m)
  = groupedUnits m + Zsum (map rowQuantity (filter countedRow items)).
Proof.
  revert m. induction items as [|bi r IH]; intros m; simpl.
  - lia.
  - rewrite IH, groupedUnits_step. unfold countedRow at 2.
    destruct (pidOf bi); [destruct (isActiveRow bi)|]; simpl; lia.
Qed.

Lemma getTotalItems_groups (m : JsMap.t (list BillItem)) :
  getTotalItems (flat_map (fun kv => mapGroup (fst kv) (snd kv)) m)
  = groupedUnits m.
Proof.
  unfold groupedUnits. induction m as [|[k g] r IH]; simpl.
  - reflexivity.
  - rewrite getTotalItems_app, IH, getTotalItems_mapGroup. reflexivity.
Qed.

(** X4. After a successful sync the item count of the draft is the total
    quantity of the bill's rows that name a product, are not canceled
    and have a quantity above 0: grouping rows by product loses and adds
    no unit, with or without the removed lines. *)
Theorem X4_sync_keeps_active_units
  (env : Env) (suppress : bool) (now : string) (code : Z) (bill : Bill)
  (st : State) :
  ready env = true ->
  getTotalItems
    (orderItems (fetchLastOrder env suppress now (successWith code bill) st))
  = Zsum (map rowQuantity (filter countedRow (billRows bill))).
Proof.
  intros R. rewrite (synced_orderItems env suppress now code bill st R).
  assert (E : getTotalItems (mappedItems (billRows bill))
              = Zsum (map rowQuantity (filter countedRow (billRows bill)))).
  { unfold mappedItems, groupByProduct.
    rewrite getTotalItems_groups, groupedUnits_fold. reflexivity. }
  destruct suppress; [rewrite getTotalItems_skips_removed|]; exact E.
Qed.

Lemma X4_sync_keeps_active_units_witness :
  let rows := [mkBillItem (Some "i1") (Some (RefId "p1")) (Some "Tea")
                          (Some 2) (Some 10%float) "active";
               mkBillItem (Some "i2") (Some (RefId "p2")) (Some "Bun")
                          (Some 1) (Some 15%float) "canceled";
               mkBillItem (Some "i3") (Some (RefId "p1")) (Some "Tea")
                          (Some 3) (Some 10%float) "active";
               mkBillItem (Some "i4") None (Some "Misc")
                          (Some 7) (Some 1%float) "active"] in
  let bill := mkBill (Some "b1") (Some "B-7") "pending" (Some rows) in
  getTotalItems
    (orderItems (fetchLastOrder tableFour false "17" (successWith 200 bill)
                   initialState))
  = 5.
Proof.
  intros rows bill.
  exact (X4_sync_keeps_active_units tableFour false "17" 200 bill
           initialState eq_refl).
Defined.

(** ** Local ids after a sync *)

Lemma some_inj {A} (a b : A) : Some a = Some b -> a = b.
Proof. intros H. inversion H. reflexivity. Qed.

Lemma srv_id_inj (a b : string) :
  ("srv-" ++ a)%string = ("srv-" ++ b)%string -> a = b.
Proof. intros H. simpl in H. inversion H. reflexivity. Qed.

Lemma srv_removed_id_inj (a b : string) :
  ("srv-removed-" ++ a)%string = ("srv-removed-" ++ b)%string -> a = b.
Proof. intros H. simpl in H. inversion H. reflexivity. Qed.

Lemma srv_id_is_removed_id (a b : string) :
  ("srv-" ++ a)%string = ("srv-removed-" ++ b)%string ->
  String.prefix "removed-" a = true.
Proof.
  intros H. simpl in H. inversion H. subst a. simpl.
  destruct b; reflexivity.
Qed.

Lemma srv_id_not_own_removed_id (k : string) :
  ("srv-" ++ k)%string <> ("srv-removed-" ++ k)%string.
Proof.
  intros H. apply (f_equal String.length) in H. simpl in H. lia.
Qed.

Lemma mapGroup_ids k g l :
  In l (mapGroup k g) ->
  localId l = Some ("srv-" ++ k)%string
  \/ localId l = Some ("srv-removed-" ++ k)%string.
Proof.
  unfold mapGroup. intros H. apply in_app_or in H. destruct H as [H|H].
  - destruct (filter isActiveRow g); [destruct H|].
    destruct H as [<-|[]]. left. reflexivity.
  - destruct (filter isCanceledRow g); [destruct H|].
    destruct H as [<-|[]]. right. reflexivity.
Qed.

Lemma mapGroup_ids_NoDup k g : NoDup (map localId (mapGroup k g)).
Proof.
  unfold mapGroup.
  destruct (filter isActiveRow g) as [|p r];
    destruct (filter isCanceledRow g) as [|p' r']; cbn [map app localId].
  - constructor.
  - repeat constructor. intros [].
  - repeat constructor. intros [].
  - constructor; [|repeat constructor; intros []].
    intros [E|[]]. apply some_inj in E.
    symmetry in E. revert E. apply srv_id_not_own_removed_id.
Qed.

Lemma group_ids_NoDup (m : JsMap.t (list BillItem)) :
  NoDup (JsMap.keys m) ->
  (forall k g, In (k, g) m -> String.prefix "removed-" k = false) ->
  NoDup (map localId (flat_map (fun kv => mapGroup (fst kv) (snd kv)) m)).
Proof.
  induction m as [|[k g] r IH]; simpl; intros Hn Hp.
  - constructor.
  - inversion Hn as [|? ? Hk Hr]; subst.
    rewrite map_app. apply NoDup_app.
    + apply mapGroup_ids_NoDup.
    + apply IH; [exact Hr|]. intros k' g' H'. apply (Hp k' g'). right. exact H'.
    + intros x Hx Hx'.
      apply in_map_iff in Hx. destruct Hx as (l & <- & Hl).
      apply in_map_iff in Hx'. destruct Hx' as (l' & E & Hl').
      apply in_flat_map in Hl'. destruct Hl' as ([k' g'] & Hin & Hl').
      cbn [fst snd] in Hl'.
      assert (Nk : k' <> k).
      { intros ->. apply Hk. apply (in_map fst) in Hin. exact Hin. }
      pose proof (Hp k g (or_introl eq_refl)) as Pk.
      pose proof (Hp k' g' (or_intror Hin)) as Pk'.
      destruct (mapGroup_ids _ _ _ Hl) as [A|A];
        destruct (mapGroup_ids _ _ _ Hl') as [B|B];
        rewrite A, B in E; apply some_inj in E; rename E into E'.
      * apply srv_id_inj in E'. contradiction.
      * symmetry in E'. apply srv_id_is_removed_id in E'. congruence.
      * apply srv_id_is_removed_id in E'. congruence.
      * apply srv_removed_id_inj in E'. contradiction.
Qed.

Lemma ids_NoDup_filter (keep : OrderItem -> bool) (items : list OrderItem) :
  NoDup (map localId items) -> NoDup (map localId (filter keep items)).
Proof.
  intros N. induction items as [|x rest IH]; [exact N|].
  simpl in N. apply NoDup_cons_iff in N. destruct N as [Hx Hrest].
  simpl. destruct (keep x); [|exact (IH Hrest)].
  simpl. apply NoDup_cons_iff. split; [|exact (IH Hrest)].
  intros Hin. apply Hx. apply in_map_iff in Hin.
  destruct Hin as (y & E & Hy). apply filter_In in Hy.
  rewrite <- E. apply in_map. apply Hy.
Qed.

Lemma group_keys_plain rows k g :
  plainIds rows -> In (k, g) (groupByProduct rows) ->
  String.prefix "removed-" k = false.
Proof.
  intros Hp Hin. destruct (group_is_rowsFor _ _ _ Hin) as [E Hne].
  destruct g as [|r g']; [contradiction|].
  assert (Hr : In r (rowsFor k rows)) by (rewrite <- E; left; reflexivity).
  apply filter_In in Hr. destruct Hr as [Hr Hk].
  destruct (pidOf r) as [k'|] eqn:P; [|discriminate].
  apply String.eqb_eq in Hk. subst k'. exact (Hp r k Hr P).
Qed.

(** X5. After a successful sync of a bill whose product ids do not begin
    with "removed-", every line of the draft has a local id and no two
    lines share one, so a button that addresses a line by its local id
    reaches that line and no other. *)
Theorem X5_synced_local_ids_are_unique
  (env : Env) (suppress : bool) (now : string) (code : Z) (bill : Bill)
  (st : State) :
  ready env = true ->
  plainIds (billRows bill) ->
  let items := orderItems (fetchLastOrder env suppress now
                             (successWith code bill) st) in
  NoDup (map localId items)
  /\ (forall l, In l items -> localId l <> None)
  /\ (forall l l', In l items -> In l' items ->
                   localId l = localId l' -> l = l').
Proof.
  intros R Hp items.
  assert (N : NoDup (map localId items)).
  { subst items. rewrite (synced_orderItems env suppress now code bill st R).
    assert (M : NoDup (map localId (mappedItems (billRows bill)))).
    { unfold mappedItems. apply group_ids_NoDup.
      - apply groupByProduct_groupsOf.
      - intros k g. apply group_keys_plain. exact Hp. }
    destruct suppress; [apply ids_NoDup_filter|]; exact M. }
  split; [exact N|]. split.
  - intros l Hl. subst items.
    rewrite (synced_orderItems env suppress now code bill st R) in Hl.
    assert (Hm : In l (mappedItems (billRows bill))).
    { destruct suppress; [apply filter_In in Hl; apply Hl | exact Hl]. }
    apply mappedItems_line in Hm. apply (mapGroup_line _ _ _ Hm).
  - intros l l' Hl Hl' E.
    clear -N Hl Hl' E. induction items as [|a r IH]; [destruct Hl|].
    simpl in N. inversion N as [|? ? Ha Hr]; subst.
    destruct Hl as [<-|Hl], Hl' as [<-|Hl'].
    + reflexivity.
    + exfalso. apply Ha. rewrite E. apply in_map. exact Hl'.
    + exfalso. apply Ha. rewrite <- E. apply in_map. exact Hl.
    + apply IH; assumption.
Qed.

Lemma X5_synced_local_ids_are_unique_witness :
  let rows := [mkBillItem (Some "i1") (Some (RefId "p1")) (Some "Tea")
                          (Some 2) (Some 10%float) "active";
               mkBillItem (Some "i2") (Some (RefId "p1")) (Some "Tea")
                          (Some 1) (Some 10%float) "canceled"] in
  let bill := mkBill (Some "b1") (Some "B-7") "pending" (Some rows) in
  plainIds rows
  /\ NoDup (map localId
              (orderItems (fetchLastOrder tableFour false "17"
                             (successWith 200 bill) initialState))).
Proof.
  intros rows bill.
  assert (P : plainIds rows).
  { intros r k [<-|[<-|[]]] E; inversion E; reflexivity. }
  split; [exact P|].
  exact (proj1 (X5_synced_local_ids_are_unique tableFour false "17" 200 bill
                  initialState eq_refl P)).
Defined.

(** ** Pending changes right after a sync *)

Lemma truthy_orNull (o : option string) :
  Js.truthyOpt (Js.orNull o) = Js.truthyOpt o.
Proof.
  unfold Js.orNull. destruct (Js.truthyOpt o) eqn:E; [exact E | reflexivity].
Qed.

Lemma group_line_is_mapped rows pid l :
  In l (mapGroup pid (rowsFor pid rows)) -> In l (mappedItems rows).
Proof.
  intros H. rewrite <- mappedItems_of_product in H.
  apply filter_In in H. apply H.
Qed.

Lemma removed_line_has_canceled_row rows l :
  In l (mappedItems rows) -> statusIs removed l = true ->
  exists r, In r rows /\ isCanceledRow r = true.
Proof.
  intros H S. apply mappedItems_line in H.
  unfold mapGroup in H. apply in_app_or in H. destruct H as [H|H].
  - destruct (filter isActiveRow _); [destruct H|].
    destruct H as [E|[]]. rewrite <- E in S. discriminate.
  - destruct (filter isCanceledRow (rowsFor (_id (product l)) rows))
      as [|p r] eqn:C; [destruct H|].
    exists p.
    assert (Hp : In p (filter isCanceledRow (rowsFor (_id (product l)) rows)))
      by (rewrite C; left; reflexivity).
    apply filter_In in Hp. destruct Hp as [Hp Hc].
    apply filter_In in Hp. split; [apply Hp | exact Hc].
Qed.

Lemma synced_originals_agree rows pid a b :
  In a (mappedItems rows) -> In b (mappedItems rows) ->
  ofProduct pid a = true -> ofProduct pid b = true ->
  itemStatus a = Some original -> itemStatus b = Some original ->
  a = b.
Proof.
  intros Ha Hb Pa Pb Sa Sb.
  assert (L : forall x, In x (mappedItems rows) -> ofProduct pid x = true ->
                        itemStatus x = Some original ->
                        In x (filter (statusIs original)
                                (mapGroup pid (rowsFor pid rows)))).
  { intros x Hx Px Sx. rewrite <- mappedItems_of_product.
    apply filter_In. split; [apply filter_In; split; assumption|].
    unfold statusIs. rewrite Sx. reflexivity. }
  pose proof (L a Ha Pa Sa) as Ia. pose proof (L b Hb Pb Sb) as Ib.
  rewrite original_lines_of_group in Ia, Ib.
  destruct (filter isActiveRow (rowsFor pid rows)); [destruct Ia|].
  destruct Ia as [<-|[]], Ib as [<-|[]]. reflexivity.
Qed.

Section AfterSync.

Variables (env : Env) (suppress : bool) (now : string) (code : Z)
          (bill : Bill) (st : State).

Hypothesis isReady : ready env = true.
Hypothesis hasBillId : Js.truthyOpt (bill_id bill) = true.

Let st' := fetchLastOrder env suppress now (successWith code bill) st.

Lemma synced_lines_mapped l :
  In l (orderItems st') -> In l (mappedItems (billRows bill)).
Proof.
  unfold st'. rewrite (synced_orderItems env suppress now code bill st isReady).
  destruct suppress; [intros H; apply filter_In in H; apply H | trivial].
Qed.

Lemma synced_submitted_lines o :
  In o (originalSubmittedItems st') ->
  In o (orderItems st') /\ itemStatus o = Some original.
Proof.
  unfold st'.
  rewrite (synced_originals env suppress now code bill st isReady).
  intros H. apply filter_In in H. destruct H as [H S]. split; [exact H|].
  unfold statusIs in S. destruct (itemStatus o) as [[| |]|]; try discriminate.
  reflexivity.
Qed.

Lemma existsb_same {A} (f g : A -> bool) (l : list A) :
  (forall x, In x l -> f x = g x) -> existsb f l = existsb g l.
Proof.
  induction l as [|a r IH]; simpl; intros H; [reflexivity|].
  rewrite (H a (or_introl eq_refl)), IH; [reflexivity|].
  intros x Hx. apply H. right. exact Hx.
Qed.

(** After a sync the pending-changes effect only looks for a removed
    line beside an original one. *)
Lemma synced_pending_value :
  computePending st'
  = existsb
      (fun orig =>
         match removedLineOf (_id (product orig)) (orderItems st') with
         | Some _ => true
         | None => false
         end) (originalSubmittedItems st').
Proof.
  unfold computePending.
  assert (B : Js.truthyOpt (existingBillId st') = true).
  { unfold st'. rewrite (synced_state env suppress now code bill st isReady).
    cbn. rewrite truthy_orNull. exact hasBillId. }
  rewrite B. cbn [negb].
  assert (A : existsb (fun i => statusIs addon i && (0 <? quantity i))
                      (orderItems st') = false).
  { destruct (existsb _ (orderItems st')) eqn:E; [|reflexivity].
    apply existsb_exists in E. destruct E as (l & Hl & E).
    apply synced_lines_mapped in Hl.
    unfold statusIs in E.
    destruct (mapped_line_cases _ _ Hl) as [[S _]|[S _]];
      rewrite S in E; discriminate. }
  rewrite A. cbn [orb].
  apply existsb_same. intros orig Ho.
  destruct (synced_submitted_lines orig Ho) as [Hin So].
  unfold removedLineOf.
  destruct (Js.find (fun i => ofProduct (_id (product orig)) i
                              && statusIs removed i) (orderItems st'));
    [reflexivity|].
  destruct (Js.find (fun i => ofProduct (_id (product orig)) i && isOriginal i)
                    (orderItems st')) as [c|] eqn:F.
  - apply List.find_some in F. destruct F as [Hc F].
    apply andb_true_iff in F. destruct F as [Pc Oc].
    assert (Sc : itemStatus c = Some original).
    { destruct (mapped_line_cases _ _ (synced_lines_mapped c Hc))
        as [[S _]|[S _]]; [exact S|].
      unfold isOriginal in Oc. rewrite S in Oc. discriminate. }
    assert (E : c = orig).
    { apply (synced_originals_agree (billRows bill) (_id (product orig)));
        auto using synced_lines_mapped.
      apply String.eqb_refl. }
    subst c. rewrite Z.eqb_refl. reflexivity.
  - exfalso. pose proof (List.find_none _ _ F orig Hin) as N. cbn beta in N.
    unfold ofProduct, isOriginal in N.
    rewrite String.eqb_refl, So in N. discriminate.
Qed.

(** X6. Right after a sync that adopted a bill, nothing is pending when
    the sync suppressed the removed lines or the bill has no canceled
    row: the Update KOT button is disabled. *)
Theorem X6_clean_sync_has_nothing_pending :
  suppress = true
  \/ (forall r, In r (billRows bill) -> isCanceledRow r = false) ->
  computePending st' = false.
Proof.
  intros H. rewrite synced_pending_value.
  destruct (existsb _ (originalSubmittedItems st')) eqn:E; [|reflexivity].
  exfalso. apply existsb_exists in E. destruct E as (orig & Ho & E).
  destruct (removedLineOf (_id (product orig)) (orderItems st')) as [x|] eqn:F;
    [|discriminate].
  apply List.find_some in F. destruct F as [Hx F].
  apply andb_true_iff in F. destruct F as [_ Sx].
  destruct H as [H|H].
  - unfold st' in Hx.
    rewrite (synced_orderItems env suppress now code bill st isReady), H in Hx.
    apply filter_In in Hx. destruct Hx as [_ Hx]. rewrite Sx in Hx.
    discriminate.
  - destruct (removed_line_has_canceled_row _ _ (synced_lines_mapped x Hx) Sx)
      as (r & Hr & Hc).
    rewrite (H r Hr) in Hc. discriminate.
Qed.

(** X7. When a sync that keeps removed lines adopts a bill in which some
    product has both an active and a canceled row, changes are reported
    as pending although the draft was not touched, so the Update KOT
    button is enabled; and if the rows are not negative, the request it
    would send against that bill edits and adds nothing and carries the
    status "bill-printed". *)
Theorem X7_cancellation_history_looks_pending (pid : string) :
  suppress = false ->
  filter isActiveRow (rowsFor pid (billRows bill)) <> [] ->
  filter isCanceledRow (rowsFor pid (billRows bill)) <> [] ->
  computePending st' = true
  /\ ((forall r, In r (billRows bill) -> 0 <= rowQuantity r) ->
      let req := buildUpdateData st' bill (billRows bill) in
      update_editedItems req = []
      /\ update_addedItems req = []
      /\ update_status req = "bill-printed").
Proof.
  intros Hs Ha Hc. split.
  - rewrite synced_pending_value. apply existsb_exists.
    assert (I : orderItems st' = mappedItems (billRows bill)).
    { unfold st'.
      rewrite (synced_orderItems env suppress now code bill st isReady), Hs.
      reflexivity. }
    destruct (active_rows_have_original (billRows bill) pid Ha)
      as (o & Oin & Op & Oo).
    exists o. split.
    + unfold st'.
      rewrite (synced_originals env suppress now code bill st isReady).
      fold st'. rewrite I. apply filter_In. split; [exact Oin|].
      unfold statusIs. rewrite Oo. reflexivity.
    + apply String.eqb_eq in Op. rewrite Op.
      destruct (removedLineOf pid (orderItems st')) eqn:F; [reflexivity|].
      exfalso. rewrite I in F.
      destruct (filter isCanceledRow (rowsFor pid (billRows bill)))
        as [|p r] eqn:C; [contradiction|].
      set (gone := mkOrderItem (protoProduct pid p) 0 (Some removed)
                     (Some (sumQuantity (p :: r)))
                     (Some ("srv-removed-" ++ pid)%string)
                     (Some (rowIds (p :: r)))).
      assert (G : In gone (mappedItems (billRows bill))).
      { apply (group_line_is_mapped _ pid). unfold mapGroup. rewrite C.
        apply in_or_app. right. left. reflexivity. }
      pose proof (List.find_none _ _ F gone G) as N. cbn beta in N.
      unfold ofProduct, statusIs, gone in N. cbn in N.
      rewrite String.eqb_refl in N. discriminate.
  - intros Hq req.
    destruct (synced_draft_sends_nothing env suppress now code bill st
                isReady Hq) as [E A].
    fold st' in E, A. subst req. unfold buildUpdateData.
    cbn [update_editedItems update_addedItems update_status].
    rewrite E, A. repeat split.
Qed.

End AfterSync.

Lemma X6_clean_sync_has_nothing_pending_witness :
  computePending
    (fetchLastOrder tableFour false "17" (successWith 200 pendingBill)
       initialState) = false.
Proof.
  apply (X6_clean_sync_has_nothing_pending tableFour false "17" 200
           pendingBill initialState eq_refl eq_refl).
  right. intros r [<-|[]]. reflexivity.
Defined.

Lemma X7_cancellation_history_looks_pending_witness :
  let rows := [mkBillItem (Some "i1") (Some (RefId "p1")) (Some "Tea")
                          (Some 2) (Some 10%float) "active";
               mkBillItem (Some "i2") (Some (RefId "p1")) (Some "Tea")
                          (Some 0) (Some 10%float) "canceled"] in
  let bill := mkBill (Some "b1") (Some "B-7") "pending" (Some rows) in
  computePending
    (fetchLastOrder tableFour false "17" (successWith 200 bill) initialState)
  = true.
Proof.
  intros rows bill.
  apply (X7_cancellation_history_looks_pending tableFour false "17" 200 bill
           initialState eq_refl eq_refl "p1" eq_refl);
    discriminate.
Defined.

(** ** The minus button *)

Lemma findIndex_of_split {A} (f : A -> bool) (l1 l2 : list A) (x : A) :
  f x = true -> (forall y, In y l1 -> f y = false) ->
  Js.findIndex f (l1 ++ x :: l2) = Some (List.length l1).
Proof.
  intros Hx Hn. induction l1 as [|a r IH]; simpl.
  - rewrite Hx. reflexivity.
  - rewrite (Hn a (or_introl eq_refl)).
    rewrite IH; [reflexivity|]. intros y Hy. apply Hn. right. exact Hy.
Qed.

Lemma findIndex_absent {A} (f : A -> bool) (l : list A) :
  (forall y, In y l -> f y = false) -> Js.findIndex f l = None.
Proof.
  induction l as [|a r IH]; simpl; intros Hn; [reflexivity|].
  rewrite (Hn a (or_introl eq_refl)).
  rewrite IH; [reflexivity|]. intros y Hy. apply Hn. right. exact Hy.
Qed.

Lemma removeAt_middle {A} (l1 l2 : list A) (x : A) :
  Js.removeAt (l1 ++ x :: l2) (List.length l1) = l1 ++ l2.
Proof. induction l1 as [|a r IH]; simpl; [|rewrite IH]; reflexivity. Qed.

Lemma In_setAt_other {A} (l : list A) (i : nat) (v x y : A) :
  In x l -> nth_error l i = Some y -> x <> y -> In x (Js.setAt l i v).
Proof.
  revert i. induction l as [|a r IH]; intros i Hin Hn Hne; [destruct Hin|].
  destruct i; simpl in *.
  - inversion Hn; subst. destruct Hin as [E|Hin]; [congruence|].
    right. exact Hin.
  - destruct Hin as [E|Hin]; [left; exact E|]. right. eapply IH; eauto.
Qed.

Lemma In_removeAt_other {A} (l : list A) (i : nat) (x y : A) :
  In x l -> nth_error l i = Some y -> x <> y -> In x (Js.removeAt l i).
Proof.
  revert i. induction l as [|a r IH]; intros i Hin Hn Hne; [destruct Hin|].
  destruct i; simpl in *.
  - inversion Hn; subst. destruct Hin as [E|Hin]; [congruence | exact Hin].
  - destruct Hin as [E|Hin]; [left; exact E|]. right. eapply IH; eauto.
Qed.

(** X9. The minus button on a line that is not an original line of a
    submitted bill (an addon, or any line while the table has no bill)
    lowers the line by one, deletes it when its quantity is 1 or less,
    and touches nothing else: no removed line is made and the other
    cells of the state stay as they were. *)
Theorem X9_minus_on_unsent_line
  (now lid : string) (st : State) (l1 l2 : list OrderItem) (t : OrderItem) :
  orderItems st = l1 ++ t :: l2 ->
  (forall x, In x l1 -> hasLocalId lid x = false) ->
  hasLocalId lid t = true ->
  isOriginal t && Js.truthyOpt (existingBillId st) = false ->
  handleDecrementQuantity now lid st
  = setOrderItems
      (if quantity t <=? 1
       then l1 ++ l2
       else l1 ++ withQuantity t (quantity t - 1) :: l2) st.
Proof.
  intros Hl Hn Ht Hb. unfold handleDecrementQuantity.
  rewrite Hl, (findIndex_of_split _ _ _ _ Ht Hn), nth_error_middle, Hb.
  unfold Js.max0.
  destruct (quantity t <=? 1) eqn:Q.
  - apply Z.leb_le in Q.
    assert (E : (Z.max 0 (quantity t - 1) <=? 0) = true)
      by (apply Z.leb_le; lia).
    rewrite E, removeAt_middle. reflexivity.
  - apply Z.leb_gt in Q.
    assert (E : (Z.max 0 (quantity t - 1) <=? 0) = false)
      by (apply Z.leb_gt; lia).
    rewrite E, setAt_middle.
    replace (Z.max 0 (quantity t - 1)) with (quantity t - 1) by lia.
    reflexivity.
Qed.

Lemma X9_minus_on_unsent_line_witness :
  let extra := mkOrderItem tea 1 (Some addon) None (Some "local-17-ab12cd")
                           None in
  let st := mkState [teaLine; extra] [teaLine] (Some "b1") (Some "B-7")
                    false false false false in
  handleDecrementQuantity "18" "local-17-ab12cd" st
  = setOrderItems [teaLine] st.
Proof.
  intros extra st.
  apply (X9_minus_on_unsent_line "18" "local-17-ab12cd" st [teaLine] []
           extra eq_refl).
  - intros x [<-|[]]. reflexivity.
  - reflexivity.
  - reflexivity.
Defined.

Lemma decrement_keeps_line_without_id now lid st l :
  In l (orderItems st) -> localId l = None -> statusIs removed l = false ->
  In l (orderItems (handleDecrementQuantity now lid st)).
Proof.
  intros Hin Hid Hs. unfold handleDecrementQuantity.
  destruct (Js.findIndex (hasLocalId lid) (orderItems st)) as [idx|] eqn:F;
    [|exact Hin].
  destruct (findIndex_split _ _ _ F) as (l1 & t & l2 & Hl & Hlen & Ht & _).
  assert (T : nth_error (orderItems st) idx = Some t)
    by (rewrite Hl, <- Hlen; apply nth_error_middle).
  rewrite T.
  assert (Nt : l <> t).
  { intros ->. unfold hasLocalId in Ht. rewrite Hid in Ht. discriminate. }
  set (t' := withQuantity t (Js.max0 (quantity t - 1))).
  assert (I1 : In l (Js.setAt (orderItems st) idx t'))
    by (apply (In_setAt_other _ _ _ _ t); assumption).
  destruct (isOriginal t && Js.truthyOpt (existingBillId st)).
  - cbn [orderItems setOrderItems setHasPendingChanges]. fold t'.
    destruct (Js.findIndex _ (Js.setAt (orderItems st) idx t')) as [r|] eqn:R.
    + destruct (findIndex_split _ _ _ R) as (a & e & b & Hab & Ha & He & _).
      assert (E : nth_error (Js.setAt (orderItems st) idx t') r = Some e)
        by (rewrite Hab, <- Ha; apply nth_error_middle).
      rewrite E.
      apply (In_setAt_other _ _ _ _ e); [exact I1 | exact E|].
      intros ->. apply andb_true_iff in He. destruct He as [_ He].
      rewrite Hs in He. discriminate.
    + apply in_or_app. left. exact I1.
  - destruct (Js.max0 (quantity t - 1) <=? 0); cbn [orderItems setOrderItems].
    + apply (In_removeAt_other _ _ _ t); assumption.
    + exact I1.
Qed.

(** X10. A local id that no line of the draft carries makes the plus and
    minus buttons do nothing; and a line without a local id that is not
    a removed line is never changed or deleted by the minus button,
    whatever id is pressed. The addon line that [handleAddToOrder]
    makes beside an original line has no local id, so it cannot be
    decremented. *)
Theorem X10_lines_out_of_reach :
  (forall now fresh lid st,
      (forall x, In x (orderItems st) -> hasLocalId lid x = false) ->
      handleDecrementQuantity now lid st = st
      /\ handleIncrementQuantity fresh lid st = st)
  /\ (forall now lid st l,
         In l (orderItems st) -> localId l = None ->
         statusIs removed l = false ->
         In l (orderItems (handleDecrementQuantity now lid st))).
Proof.
  split.
  - intros now fresh lid st H.
    unfold handleDecrementQuantity, handleIncrementQuantity.
    rewrite (findIndex_absent _ _ H). split; reflexivity.
  - exact decrement_keeps_line_without_id.
Qed.

Lemma X10_lines_out_of_reach_witness :
  let extra := mkOrderItem tea 1 (Some addon) None None None in
  let st := mkState [teaLine; extra] [teaLine] (Some "b1") (Some "B-7")
                    false false false false in
  In extra (orderItems (handleDecrementQuantity "18" "srv-p1" st)).
Proof.
  intros extra st.
  apply (proj2 X10_lines_out_of_reach "18" "srv-p1" st extra).
  - right. left. reflexivity.
  - reflexivity.
  - reflexivity.
Defined.

(** ** Repeated presses *)

Lemma decrement_first pr q ids c rest number now :
  handleDecrementQuantity now ("srv-" ++ _id pr)%string
    (syncedState pr q ids c rest number)
  = mkState [withQuantity (syncedLine pr q ids) (Js.max0 (q - 1));
             removedCompanion pr (q - Js.max0 (q - 1)) q now]
            [syncedLine pr q ids] (Some (String c rest)) number
            true false false false.
Proof.
  unfold handleDecrementQuantity, syncedState, syncedLine. crunch.
  reflexivity.
Qed.

Lemma decrement_next pr q ids c rest number now0 now a b :
  handleDecrementQuantity now ("srv-" ++ _id pr)%string
    (mkState [withQuantity (syncedLine pr q ids) a;
              removedCompanion pr b q now0]
             [syncedLine pr q ids] (Some (String c rest)) number
             true false false false)
  = mkState [withQuantity (syncedLine pr q ids) (Js.max0 (a - 1));
             removedCompanion pr (b + (a - Js.max0 (a - 1))) q now0]
            [syncedLine pr q ids] (Some (String c rest)) number
            true false false false.
Proof.
  unfold handleDecrementQuantity, syncedLine, removedCompanion. crunch.
  reflexivity.
Qed.

Lemma pressMinus_more pr q ids c rest number now0 (more : list string) :
  forall a b, 0 <= a -> a + b = q ->
  pressMinus ("srv-" ++ _id pr)%string more
    (mkState [withQuantity (syncedLine pr q ids) a;
              removedCompanion pr b q now0]
             [syncedLine pr q ids] (Some (String c rest)) number
             true false false false)
  = mkState [withQuantity (syncedLine pr q ids)
               (Z.max 0 (a - Z.of_nat (List.length more)));
             removedCompanion pr (q - Z.max 0 (a - Z.of_nat (List.length more)))
               q now0]
            [syncedLine pr q ids] (Some (String c rest)) number
            true false false false.
Proof.
  unfold pressMinus.
  induction more as [|now more IH]; intros a b Ha Hab.
  - cbn [fold_left List.length Z.of_nat].
    replace (Z.max 0 (a - 0)) with a by lia.
    replace (q - a) with b by lia. reflexivity.
  - cbn [fold_left]. rewrite decrement_next.
    rewrite IH by (unfold Js.max0; lia).
    unfold Js.max0.
    replace (Z.max 0 (Z.max 0 (a - 1) - Z.of_nat (List.length more)))
      with (Z.max 0 (a - Z.of_nat (List.length (now :: more))))
      by (cbn [List.length]; lia).
    reflexivity.
Qed.

(** X8. On a freshly synced original line of [q] units, pressing the
    minus button k times leaves exactly two lines: the original line at
    max(0, q - k) and one removed line holding the min(k, q) units taken
    off, with originalQuantity [q] and the local id of the first press.
    No quantity goes below zero, the submitted baseline keeps [q], and
    the draft is flagged as changed. *)
Theorem X8_repeated_minus_on_synced_line
  (pr : Product) (q : Z) (ids : option (list string)) (c : Ascii.ascii)
  (rest : string) (number : option string) (now : string)
  (more : list string) :
  0 <= q ->
  let k := Z.of_nat (List.length (now :: more)) in
  pressMinus ("srv-" ++ _id pr)%string (now :: more)
    (syncedState pr q ids c rest number)
  = mkState [withQuantity (syncedLine pr q ids) (Z.max 0 (q - k));
             removedCompanion pr (Z.min k q) q now]
            [syncedLine pr q ids] (Some (String c rest)) number
            true false false false.
Proof.
  intros Hq k.
  change (pressMinus ("srv-" ++ _id pr)%string (now :: more)
            (syncedState pr q ids c rest number))
    with (pressMinus ("srv-" ++ _id pr)%string more
            (handleDecrementQuantity now ("srv-" ++ _id pr)%string
               (syncedState pr q ids c rest number))).
  rewrite decrement_first.
  rewrite (pressMinus_more pr q ids c rest number now more
             (Js.max0 (q - 1)) (q - Js.max0 (q - 1)))
    by (unfold Js.max0; lia).
  unfold Js.max0. subst k. cbn [List.length].
  replace (Z.max 0 (Z.max 0 (q - 1) - Z.of_nat (List.length more)))
    with (Z.max 0 (q - Z.of_nat (S (List.length more)))) by lia.
  replace (q - Z.max 0 (q - Z.of_nat (S (List.length more))))
    with (Z.min (Z.of_nat (S (List.length more))) q) by lia.
  reflexivity.
Qed.

Lemma X8_repeated_minus_on_synced_line_witness :
  pressMinus "srv-p1" ["17"; "18"; "19"]
    (syncedState tea 2 None (Ascii.ascii_of_nat 98) "1" (Some "B-7"))
  = mkState [withQuantity (syncedLine tea 2 None) 0;
             removedCompanion tea 2 2 "17"]
            [syncedLine tea 2 None] (Some "b1") (Some "B-7")
            true false false false.
Proof.
  apply (X8_repeated_minus_on_synced_line tea 2 None (Ascii.ascii_of_nat 98) "1" (Some "B-7")
           "17" ["18"; "19"]).
  lia.
Defined.

(** ** The plus button and repeated taps *)

Lemma addon_not_removed (x : OrderItem) :
  statusIs addon x = true -> statusIs removed x = false.
Proof.
  unfold statusIs. destruct (itemStatus x) as [[| |]|]; simpl; congruence.
Qed.

Lemma draftQuantity_cons pid (x : OrderItem) (l : list OrderItem) :
  draftQuantity pid (x :: l)
  = (if ofProduct pid x && negb (statusIs removed x) then quantity x else 0)
    + draftQuantity pid l.
Proof.
  change (x :: l) with ([x] ++ l). rewrite draftQuantity_app. f_equal.
  unfold draftQuantity, getTotalItems. simpl.
  destruct (ofProduct pid x); simpl; [|reflexivity].
  destruct (statusIs removed x); reflexivity.
Qed.

Lemma draftQuantity_nil pid : draftQuantity pid [] = 0.
Proof. reflexivity. Qed.

Section PlusOnSentLine.

Variables (fresh lid : string) (st : State).
Variables (l1 l2 : list OrderItem) (t : OrderItem).

Hypothesis split_at : orderItems st = l1 ++ t :: l2.
Hypothesis first_hit : forall x, In x l1 -> hasLocalId lid x = false.
Hypothesis hit : hasLocalId lid t = true.
Hypothesis billSubmitted : Js.truthyOpt (existingBillId st) = true.
Hypothesis targetOriginal : isOriginal t = true.

Let pid := _id (product t).
Let isAddonOfPid := fun i : OrderItem => ofProduct pid i && statusIs addon i.
Let others := fun i : OrderItem => negb (isAddonOfPid i).
Let st' := handleIncrementQuantity fresh lid st.

Lemma plus_on_sent_line_cases :
  (exists p a s,
      orderItems st = p ++ a :: s /\ isAddonOfPid a = true
      /\ st' = setOrderItems (p ++ withQuantity a (quantity a + 1) :: s) st)
  \/ (linesOf pid addon (orderItems st) = []
      /\ st' = setOrderItems
                 (orderItems st
                  ++ [mkOrderItem (product t) 1 (Some addon) None
                        (Some ("local-" ++ fresh)%string) None]) st).
Proof.
  assert (F0 : Js.findIndex (hasLocalId lid) (orderItems st)
               = Some (List.length l1))
    by (rewrite split_at; apply findIndex_of_split; assumption).
  assert (T0 : nth_error (orderItems st) (List.length l1) = Some t)
    by (rewrite split_at; apply nth_error_middle).
  unfold st', handleIncrementQuantity.
  rewrite F0, T0, billSubmitted, targetOriginal. cbn [andb].
  fold pid. fold isAddonOfPid.
  destruct (Js.findIndex isAddonOfPid (orderItems st)) as [ai|] eqn:F.
  - left. destruct (findIndex_split _ _ _ F) as (p & a & s & Hl & Hlen & Ha & _).
    exists p, a, s. split; [exact Hl|]. split; [exact Ha|].
    rewrite Hl, <- Hlen, nth_error_middle, setAt_middle. reflexivity.
  - right. split; [|reflexivity].
    unfold linesOf. fold isAddonOfPid. apply filter_none.
    intros x Hx. pose proof (findIndex_none_find _ _ F) as N.
    exact (List.find_none _ _ N x Hx).
Qed.

End PlusOnSentLine.

(** X11. The plus button on an original line of a submitted bill never
    changes that line: the one unit goes to the product's addon line,
    which is made (with a local id of its own) when there is none. Every
    line that is not an addon line of the product stays as it was, in
    order; the product's draft quantity grows by exactly one; the
    submitted baseline and the other cells are untouched. *)
Theorem X11_plus_on_sent_line
  (fresh lid : string) (st : State) (l1 l2 : list OrderItem) (t : OrderItem) :
  orderItems st = l1 ++ t :: l2 ->
  (forall x, In x l1 -> hasLocalId lid x = false) ->
  hasLocalId lid t = true ->
  Js.truthyOpt (existingBillId st) = true ->
  isOriginal t = true ->
  let pid := _id (product t) in
  let others := fun i => negb (ofProduct pid i && statusIs addon i) in
  let st' := handleIncrementQuantity fresh lid st in
  filter others (orderItems st') = filter others (orderItems st)
  /\ draftQuantity pid (orderItems st') = draftQuantity pid (orderItems st) + 1
  /\ (linesOf pid addon (orderItems st) = [] ->
      orderItems st'
      = orderItems st ++ [mkOrderItem (product t) 1 (Some addon) None
                            (Some ("local-" ++ fresh)%string) None])
  /\ st' = setOrderItems (orderItems st') st.
Proof.
  intros Hs Hf Hh Hb Ho pid others st'.
  destruct (plus_on_sent_line_cases fresh lid st l1 l2 t Hs Hf Hh Hb Ho)
    as [(p & a & s & Hl & Ha & E)|[Hn E]];
    fold pid in Ha || fold pid in Hn; fold st' in E.
  - apply andb_true_iff in Ha. destruct Ha as [Ha1 Ha2].
    assert (Oa : others a = false) by (unfold others; rewrite Ha1, Ha2;
                                       reflexivity).
    rewrite E. cbn [orderItems setOrderItems]. rewrite Hl.
    split; [|split; [|split]].
    + rewrite !filter_app. cbn [filter].
      change (others (withQuantity a (quantity a + 1))) with (others a).
      rewrite Oa. reflexivity.
    + rewrite !draftQuantity_app, !draftQuantity_cons.
      change (ofProduct pid (withQuantity a (quantity a + 1)))
        with (ofProduct pid a).
      change (statusIs removed (withQuantity a (quantity a + 1)))
        with (statusIs removed a).
      rewrite Ha1, (addon_not_removed _ Ha2). cbn [andb negb quantity withQuantity].
      lia.
    + intros N. exfalso.
      assert (In a (linesOf pid addon (p ++ a :: s))).
      { apply filter_In. split; [apply in_or_app; right; left; reflexivity|].
        rewrite Ha1, Ha2. reflexivity. }
      rewrite N in H. destruct H.
    + reflexivity.
  - rewrite E. cbn [orderItems setOrderItems].
    split; [|split; [|split]].
    + rewrite filter_app. cbn [filter]. unfold others at 2.
      unfold ofProduct, statusIs. cbn [product itemStatus _id].
      fold pid. rewrite String.eqb_refl. cbn.
      apply app_nil_r.
    + rewrite draftQuantity_app, draftQuantity_cons, draftQuantity_nil.
      unfold ofProduct, statusIs. cbn [product itemStatus _id quantity].
      fold pid. rewrite String.eqb_refl. cbn. lia.
    + intros _. reflexivity.
    + reflexivity.
Qed.

Lemma X11_plus_on_sent_line_witness :
  let st := syncedState tea 2 None (Ascii.ascii_of_nat 98) "1" (Some "B-7") in
  orderItems (handleIncrementQuantity "17-ab12cd" "srv-p1" st)
  = [syncedLine tea 2 None;
     mkOrderItem tea 1 (Some addon) None (Some "local-17-ab12cd") None].
Proof.
  intros st.
  refine (proj1 (proj2 (proj2
            (X11_plus_on_sent_line "17-ab12cd" "srv-p1" st []
               [] (syncedLine tea 2 None) eq_refl _ eq_refl eq_refl eq_refl)))
            eq_refl).
  intros x [].
Defined.

Lemma tap_again fresh pr st items q lid ids :
  orderItems st = items ++ [mkOrderItem pr q None None lid ids] ->
  (forall x, In x items -> ofProduct (_id pr) x = false) ->
  Js.truthyOpt (existingBillId st) = false ->
  handleAddToOrder fresh pr st
  = setOrderItems (items ++ [mkOrderItem pr (q + 1) None None lid ids]) st.
Proof.
  intros Hl Hn Hb.
  assert (N : List.find (fun item => ofProduct (_id pr) item
                                     && negb (statusIs removed item)) items
              = None).
  { apply findIndex_none_find, findIndex_absent.
    intros y Hy. rewrite (Hn y Hy). reflexivity. }
  unfold handleAddToOrder, addBranch, existingItemFor, Js.find.
  rewrite Hl, (find_app_missing _ _ _ N).
  cbn [List.find]. unfold ofProduct at 1, statusIs at 1.
  cbn [product itemStatus]. rewrite String.eqb_refl. cbn [andb negb].
  unfold statusIs at 1. cbn [itemStatus]. rewrite Hb. cbn [andb].
  rewrite map_app. cbn [map]. unfold ofProduct at 2. cbn [product].
  rewrite String.eqb_refl.
  rewrite map_unchanged; [reflexivity|].
  intros x Hx. rewrite (Hn x Hx). reflexivity.
Qed.

Lemma tap_first fresh pr st :
  (forall x, In x (orderItems st) -> ofProduct (_id pr) x = false) ->
  Js.truthyOpt (existingBillId st) = false ->
  handleAddToOrder fresh pr st
  = setOrderItems (orderItems st
                   ++ [mkOrderItem pr 1 None None
                         (Some ("local-" ++ fresh)%string) None]) st.
Proof.
  intros Hn Hb.
  assert (N : List.find (fun item => ofProduct (_id pr) item
                                     && negb (statusIs removed item))
                (orderItems st) = None).
  { apply findIndex_none_find, findIndex_absent.
    intros y Hy. rewrite (Hn y Hy). reflexivity. }
  unfold handleAddToOrder, addBranch, existingItemFor, Js.find.
  rewrite N, Hb. reflexivity.
Qed.

Lemma tap_more pr items lid ids (more : list string) :
  (forall x, In x items -> ofProduct (_id pr) x = false) ->
  forall q st,
    orderItems st = items ++ [mkOrderItem pr q None None lid ids] ->
    Js.truthyOpt (existingBillId st) = false ->
    tapProduct pr more st
    = setOrderItems
        (items ++ [mkOrderItem pr (q + Z.of_nat (List.length more))
                     None None lid ids]) st.
Proof.
  intros Hn. unfold tapProduct.
  induction more as [|f more IH]; intros q st Hl Hb.
  - cbn [fold_left List.length Z.of_nat]. rewrite Z.add_0_r, <- Hl.
    destruct st; reflexivity.
  - cbn [fold_left]. rewrite (tap_again f pr st items q lid ids Hl Hn Hb).
    rewrite (IH (q + 1)); [|reflexivity | exact Hb].
    replace (q + 1 + Z.of_nat (List.length more))
      with (q + Z.of_nat (List.length (f :: more)))
      by (cbn [List.length]; lia).
    reflexivity.
Qed.

(** X12. While the table has no bill, tapping a product the draft does
    not hold yet makes one unclassified line of quantity 1 with a new
    local id at the end of the draft, and every further tap raises that
    same line by one: n taps give one line of quantity n, the lines of
    other products and the other cells of the state being untouched. *)
Theorem X12_taps_merge_on_new_order
  (pr : Product) (st : State) (fresh : string) (more : list string) :
  (forall x, In x (orderItems st) -> ofProduct (_id pr) x = false) ->
  Js.truthyOpt (existingBillId st) = false ->
  tapProduct pr (fresh :: more) st
  = setOrderItems
      (orderItems st
       ++ [mkOrderItem pr (Z.of_nat (List.length (fresh :: more))) None None
             (Some ("local-" ++ fresh)%string) None]) st.
Proof.
  intros Hn Hb.
  change (tapProduct pr (fresh :: more) st)
    with (tapProduct pr more (handleAddToOrder fresh pr st)).
  rewrite (tap_first fresh pr st Hn Hb).
  rewrite (tap_more pr (orderItems st) (Some ("local-" ++ fresh)%string) None
             more Hn 1); [|reflexivity | exact Hb].
  replace (1 + Z.of_nat (List.length more))
    with (Z.of_nat (List.length (fresh :: more)))
    by (cbn [List.length]; lia).
  reflexivity.
Qed.

Lemma X12_taps_merge_on_new_order_witness :
  orderItems (tapProduct tea ["17-ab12cd"; "18-ef34gh"; "19-ij56kl"]
                initialState)
  = [mkOrderItem tea 3 None None (Some "local-17-ab12cd") None].
Proof.
  refine (f_equal orderItems
            (X12_taps_merge_on_new_order tea initialState "17-ab12cd"
               ["18-ef34gh"; "19-ij56kl"] _ eq_refl)).
  intros x [].
Defined.

(** X13. Adding a product never deletes or reorders a line: every line
    of the draft stays at its position with the same product, status,
    local id and originalQuantity, its quantity the same or one more;
    the draft grows by at most one line, and no other cell of the state
    changes. In particular a removed line is never revived by it. *)
Theorem X13_add_is_monotone (fresh : string) (pr : Product) (st : State) :
  let st' := handleAddToOrder fresh pr st in
  (List.length (orderItems st) <= List.length (orderItems st')
   <= S (List.length (orderItems st)))%nat
  /\ (forall i x, nth_error (orderItems st) i = Some x ->
        exists x',
          nth_error (orderItems st') i = Some x'
          /\ product x' = product x /\ itemStatus x' = itemStatus x
          /\ localId x' = localId x
          /\ originalQuantity x' = originalQuantity x
          /\ serverItemIds x' = serverItemIds x
          /\ (quantity x' = quantity x \/ quantity x' = quantity x + 1))
  /\ st' = setOrderItems (orderItems st') st.
Proof.
  intros st'. subst st'. unfold handleAddToOrder.
  pose proof (addBranch_never_restores st pr) as NR.
  destruct (addBranch st pr); [congruence| | | |];
    cbn [orderItems setOrderItems];
    (split; [|split; [|reflexivity]]);
    try (rewrite length_map; lia);
    try (rewrite length_app; cbn [List.length]; lia);
    intros i x Hx.
  - rewrite nth_error_map, Hx. cbn [option_map].
    destruct (ofProduct (_id pr) x && statusIs addon x);
      eexists; (split; [reflexivity|]); cbn; intuition.
  - exists x. rewrite nth_error_app1
      by (apply nth_error_Some; congruence). intuition.
  - rewrite nth_error_map, Hx. cbn [option_map].
    destruct (ofProduct (_id pr) x);
      eexists; (split; [reflexivity|]); cbn; intuition.
  - exists x. rewrite nth_error_app1
      by (apply nth_error_Some; congruence). intuition.
Qed.

Lemma X13_add_is_monotone_witness :
  let st := syncedState tea 2 None (Ascii.ascii_of_nat 98) "1" (Some "B-7") in
  exists x',
    nth_error (orderItems (handleAddToOrder "17-ab12cd" tea st)) 0 = Some x'
    /\ product x' = tea /\ itemStatus x' = Some original
    /\ localId x' = Some "srv-p1"
    /\ originalQuantity x' = Some 2
    /\ serverItemIds x' = None
    /\ (quantity x' = 2 \/ quantity x' = 2 + 1).
Proof.
  intros st.
  exact (proj1 (proj2 (X13_add_is_monotone "17-ab12cd" tea st))
           O (syncedLine tea 2 None) eq_refl).
Defined.

(** ** What the diff asks of the server *)

Lemma greedy_edit_lowers (e : EditedItem) (rows : list BillItem) :
  forall remaining,
    0 <= remaining ->
    In e (greedyEdits remaining rows) ->
    exists r, In r rows /\ itemId e = item_id r
              /\ 0 <= newQuantity e < rowQuantity r
              /\ changeType e = (if newQuantity e =? 0 then canceled else edit).
Proof.
  unfold greedyEdits.
  induction rows as [|r rest IH]; intros remaining Hr Hin; [destruct Hin|].
  cbn [greedyShares filter] in Hin.
  set (share := Z.min (rowQuantity r) remaining) in *.
  unfold shareDiffers at 1 in Hin. cbn [fst snd] in Hin.
  assert (Rest : In e (map editOfShare
                         (filter shareDiffers
                            (greedyShares (remaining - share) rest))) ->
                 exists r0, In r0 (r :: rest) /\ itemId e = item_id r0
                            /\ 0 <= newQuantity e < rowQuantity r0
                            /\ changeType e
                               = (if newQuantity e =? 0 then canceled else edit)).
  { intros H. destruct (IH (remaining - share)) as (r0 & H0 & H1);
      [unfold share; lia | exact H|].
    exists r0. split; [right; exact H0 | exact H1]. }
  destruct (share =? rowQuantity r) eqn:D; cbn [negb map] in Hin.
  - apply Rest. exact Hin.
  - destruct Hin as [E|Hin]; [|apply Rest; exact Hin].
    apply Z.eqb_neq in D. exists r. subst e.
    unfold editOfShare. cbn [fst snd itemId newQuantity changeType].
    split; [left; reflexivity|]. split; [reflexivity|].
    split; [unfold share in *; lia|].
    destruct (0 <? share) eqn:P, (share =? 0) eqn:Z0; try reflexivity.
    + apply Z.ltb_lt in P. apply Z.eqb_eq in Z0. lia.
    + apply Z.ltb_ge in P. apply Z.eqb_neq in Z0. unfold share in *. lia.
Qed.

(** X14. Whatever the draft holds (quantities not negative), every entry
    of [editedItems] lowers an existing row of the bill: it names a row
    whose status is not canceled, and its new quantity is at least 0 and
    strictly below the row's quantity, with change type canceled exactly
    at 0. The diff never raises a row: extra units travel only in
    [addedItems]. *)
Theorem X14_edits_only_lower_rows
  (st : State) (billItems : list BillItem) (e : EditedItem) :
  (forall oi, In oi (orderItems st) -> 0 <= quantity oi) ->
  In e (computeEditedItems st billItems) ->
  exists r,
    In r billItems /\ isActiveServerItem r = true
    /\ itemId e = item_id r
    /\ 0 <= newQuantity e < rowQuantity r
    /\ changeType e = (if newQuantity e =? 0 then canceled else edit).
Proof.
  intros Hq Hin. unfold computeEditedItems in Hin.
  rewrite (products_are_greedy _ _ (desired_nonneg st Hq)) in Hin.
  cbn [app] in Hin. apply in_flat_map in Hin.
  destruct Hin as ([k g] & Hg & He). cbn [fst snd] in He.
  destruct (JsMap.get (desiredByProduct st) k) as [d|] eqn:D; [|destruct He].
  destruct (greedy_edit_lowers e _ d (desired_nonneg st Hq k d D) He)
    as (r & Hr & H1).
  apply filter_In in Hr. destruct Hr as [Hr Ha].
  destruct (group_is_rowsFor _ _ _ Hg) as [-> _].
  apply filter_In in Hr. destruct Hr as [Hr _].
  exists r. split; [exact Hr|]. split; [exact Ha | exact H1].
Qed.

Lemma X14_edits_only_lower_rows_witness :
  let st := setOrderItems [withQuantity (syncedLine tea 2 None) 1]
              (syncedState tea 2 None (Ascii.ascii_of_nat 98) "1"
                 (Some "B-7")) in
  exists r,
    In r [teaRow] /\ isActiveServerItem r = true
    /\ Some "i1" = item_id r
    /\ 0 <= 1 < rowQuantity r
    /\ edit = edit.
Proof.
  intros st.
  apply (X14_edits_only_lower_rows st [teaRow] (mkEditedItem (Some "i1") 1 edit)).
  - intros oi [<-|[]]. cbn. lia.
  - left. reflexivity.
Defined.

Lemma desiredStep_other items submitted m oi pid :
  ofProduct pid oi = false ->
  JsMap.get (desiredStep items submitted m oi) pid = JsMap.get m pid.
Proof.
  intros H. unfold ofProduct in H. apply String.eqb_neq in H.
  unfold desiredStep.
  destruct (isOriginal oi); [apply get_set_other; exact H|].
  destruct (statusIs removed oi); [|reflexivity].
  destruct (Js.find _ items); apply get_set_other; exact H.
Qed.

Lemma desiredStep_addon items submitted m oi :
  isOriginal oi = false -> statusIs removed oi = false ->
  desiredStep items submitted m oi = m.
Proof. intros H1 H2. unfold desiredStep. rewrite H1, H2. reflexivity. Qed.

Section DesiredOfOriginal.

Variables (items submitted : list OrderItem) (pid : string) (q : Z).

Hypothesis hasOriginal :
  exists o, In o items /\ ofProduct pid o = true /\ isOriginal o = true.
Hypothesis sameQuantity :
  forall x, In x items -> ofProduct pid x = true -> isOriginal x = true ->
            quantity x = q.

Lemma desiredStep_of_pid m oi :
  In oi items -> ofProduct pid oi = true ->
  isOriginal oi = true \/ statusIs removed oi = true ->
  JsMap.get (desiredStep items submitted m oi) pid = Some q.
Proof.
  intros Hin Hp Hs. pose proof Hp as Hk. unfold ofProduct in Hk.
  apply String.eqb_eq in Hk. unfold desiredStep. rewrite Hk.
  destruct (isOriginal oi) eqn:O.
  - rewrite get_set_same. f_equal. apply sameQuantity; assumption.
  - destruct Hs as [Hs|Hs]; [discriminate|]. rewrite Hs.
    destruct (Js.find (fun i => ofProduct pid i && isOriginal i) items)
      as [o'|] eqn:F.
    + rewrite get_set_same. f_equal.
      pose proof F as F'. apply List.find_some in F'.
      destruct F' as [Ho' Hb]. apply andb_true_iff in Hb.
      destruct Hb as [Hb1 Hb2]. apply sameQuantity; assumption.
    + exfalso. destruct hasOriginal as (o & Ho & Hp' & Hi).
      pose proof (List.find_none _ _ F o Ho) as N. simpl in N.
      rewrite Hp', Hi in N. discriminate.
Qed.

Lemma desired_fold_of_original (l : list OrderItem) :
  (forall x, In x l -> In x items) ->
  forall m,
    JsMap.get m pid = Some q
    \/ (exists o, In o l /\ ofProduct pid o = true /\ isOriginal o = true) ->
    JsMap.get (fold_left (desiredStep items submitted) l m) pid = Some q.
Proof.
  induction l as [|oi r IH]; intros Hsub m Hm.
  - destruct Hm as [Hm|(o & [] & _)]. exact Hm.
  - cbn [fold_left].
    apply IH; [intros x Hx; apply Hsub; right; exact Hx|].
    destruct (ofProduct pid oi) eqn:P.
    + destruct (isOriginal oi) eqn:O.
      * left. apply desiredStep_of_pid; auto. apply Hsub. left. reflexivity.
      * destruct (statusIs removed oi) eqn:R.
        -- left. apply desiredStep_of_pid; auto. apply Hsub. left. reflexivity.
        -- rewrite (desiredStep_addon _ _ _ _ O R).
           destruct Hm as [Hm|(o & [E|Ho] & Hp & Hi)].
           ++ left. exact Hm.
           ++ subst o. congruence.
           ++ right. exists o. auto.
    + rewrite (desiredStep_other _ _ _ _ _ P).
      destruct Hm as [Hm|(o & [E|Ho] & Hp & Hi)].
      * left. exact Hm.
      * subst o. congruence.
      * right. exists o. auto.
Qed.

End DesiredOfOriginal.

Lemma desired_fold_unlisted items submitted pid (l : list OrderItem) :
  (forall x, In x l -> ofProduct pid x = true ->
             isOriginal x = false /\ statusIs removed x = false) ->
  forall m,
    JsMap.get (fold_left (desiredStep items submitted) l m) pid
    = JsMap.get m pid.
Proof.
  induction l as [|oi r IH]; intros H m; [reflexivity|].
  cbn [fold_left]. rewrite IH by (intros x Hx; apply H; right; exact Hx).
  destruct (ofProduct pid oi) eqn:P.
  - destruct (H oi (or_introl eq_refl) P) as [O R].
    rewrite (desiredStep_addon _ _ _ _ O R). reflexivity.
  - apply desiredStep_other. exact P.
Qed.

(** X15. The quantity Update KOT wants the server to hold for a product:
    when the draft has a line of the product that is original (or
    unclassified), it is that line's quantity, whatever the product's
    removed and addon lines say and wherever they stand in the draft;
    when the product has only addon lines, there is no wanted quantity,
    and the product's turn of the loop adds no edit for any of its
    rows. *)
Theorem X15_desired_quantity_of_product (st : State) (pid : string) :
  (forall q,
      (exists o, In o (orderItems st) /\ ofProduct pid o = true
                 /\ isOriginal o = true) ->
      (forall x, In x (orderItems st) -> ofProduct pid x = true ->
                 isOriginal x = true -> quantity x = q) ->
      JsMap.get (desiredByProduct st) pid = Some q)
  /\ ((forall x, In x (orderItems st) -> ofProduct pid x = true ->
                 statusIs addon x = true) ->
      JsMap.get (desiredByProduct st) pid = None
      /\ forall rows editedItems,
           productStep (desiredByProduct st) editedItems (pid, rows)
           = editedItems).
Proof.
  split.
  - intros q He Hq. unfold desiredByProduct.
    apply (desired_fold_of_original _ _ pid q He Hq).
    + auto.
    + right. exact He.
  - intros Ha.
    assert (N : JsMap.get (desiredByProduct st) pid = None).
    { unfold desiredByProduct. rewrite desired_fold_unlisted; [reflexivity|].
      intros x Hx Hp. pose proof (Ha x Hx Hp) as A.
      unfold isOriginal, statusIs in *.
      destruct (itemStatus x) as [[| |]|]; simpl in *; split; congruence. }
    split; [exact N|].
    intros rows editedItems. unfold productStep. cbn [fst snd].
    rewrite N. reflexivity.
Qed.

Lemma X15_desired_quantity_of_product_witness :
  let st := mkState [withQuantity (syncedLine tea 2 None) 1;
                     removedCompanion tea 1 2 "17"]
              [syncedLine tea 2 None] (Some "b1") (Some "B-7")
              true false false false in
  JsMap.get (desiredByProduct st) "p1" = Some 1.
Proof.
  intros st.
  apply (proj1 (X15_desired_quantity_of_product st "p1") 1).
  - exists (withQuantity (syncedLine tea 2 None) 1).
    split; [left; reflexivity | split; reflexivity].
  - intros x [<-|[<-|[]]]; [reflexivity | discriminate].
Defined.

(** ** Update KOT as a whole *)

Lemma commit_has_no_addon st l :
  In l (orderItems (commitUpdate st)) -> statusIs addon l = false.
Proof.
  unfold commitUpdate. cbn [orderItems setOrderItems setHasPendingChanges
    setSuppressRemovedAfterFetch setOriginalSubmittedItems].
  intros H. apply filter_In in H. destruct H as [H _].
  apply in_map_iff in H. destruct H as (x & <- & _).
  destruct (statusIs addon x) eqn:A; [reflexivity | exact A].
Qed.

Lemma mapped_has_no_addon rows l :
  In l (mappedItems rows) -> statusIs addon l = false.
Proof.
  intros H. unfold statusIs.
  destruct (mapped_line_cases rows l H) as [[E _]|[E _]]; rewrite E;
    reflexivity.
Qed.

Lemma sync_adds_no_addon env suppress now response st :
  (forall l, In l (orderItems st) -> statusIs addon l = false) ->
  forall l, In l (orderItems (fetchLastOrder env suppress now response st)) ->
            statusIs addon l = false.
Proof.
  intros H l. destruct (ready env) eqn:R.
  - destruct response as [code [[status [bill|]]|]|err];
      try (unfold fetchLastOrder; rewrite (ready_guard env R); cbn;
           solve [apply H | intros []]).
    destruct (String.eqb status "success") eqn:S.
    + apply String.eqb_eq in S. subst status.
      change (Fulfilled code (Some (mkTableStatus "success" (Some bill))))
        with (successWith code bill).
      rewrite (synced_orderItems env suppress now code bill st R).
      destruct suppress; intros Hl.
      * apply filter_In in Hl. destruct Hl as [Hl _].
        exact (mapped_has_no_addon _ _ Hl).
      * exact (mapped_has_no_addon _ _ Hl).
    + unfold fetchLastOrder. rewrite (ready_guard env R).
      cbn [ts_data ts_status]. rewrite S. cbn. apply H.
  - unfold fetchLastOrder. unfold ready in R.
    destruct (Js.truthyOpt (apiUrl env)), (noTable env), (isLoadingIp env);
      simpl in R; try discriminate; cbn; apply H.
Qed.

Lemma sync_keeps_pending_flag env suppress now response st :
  hasPendingChanges (fetchLastOrder env suppress now response st)
  = hasPendingChanges st.
Proof.
  unfold fetchLastOrder.
  destruct (negb (Js.truthyOpt (apiUrl env)) || noTable env || isLoadingIp env);
    [reflexivity|].
  destruct response as [code [[status [bill|]]|]|err]; try reflexivity.
  cbn [ts_data ts_status]. destruct (String.eqb status "success");
    [|reflexivity].
  unfold syncFromBill. destruct suppress; reflexivity.
Qed.

Ltac early_exit :=
  cbn [run_alerts run_state run_request];
  split;
  [ intros _; first [left; reflexivity | right; reflexivity]
  | split;
    [ intros req E; discriminate E
    | intros; first [left; reflexivity
                    | right; eexists; split; reflexivity] ] ].

(** X16. Unless it ends with the "KOT updated successfully!" alert,
    [updateKOT] changes no cell of the state but the loading flag,
    whichever guard or call failed; and a request goes out only when the
    screen is ready, the draft has a bill id and the bill was fetched
    with its rows, the request being the diff of the draft against
    those rows. A call fulfilled with a status other than 200 or 201
    ends without any alert. *)
Theorem X16_update_needs_success
  (env : Env) (suppress : bool) (now typeError : string)
  (billResponse : Axios TableStatus) (putResponse : Axios unit)
  (refetch : Axios TableStatus) (st : State) :
  let r := updateKOT env suppress now typeError billResponse putResponse
             refetch st in
  (run_alerts r <> [mkAlert "Success" "KOT updated successfully!"] ->
   run_state r = st \/ run_state r = setLoading false st)
  /\ (forall req, run_request r = Some req ->
        ready env = true /\ Js.truthyOpt (existingBillId st) = true
        /\ exists code data bill rows,
             billResponse = Fulfilled code (Some data)
             /\ ts_status data = "success" /\ ts_data data = Some bill
             /\ bill_items bill = Some rows
             /\ req = buildUpdateData st bill rows)
  /\ (forall status body,
        putResponse = Fulfilled status body -> okStatus status = false ->
        run_alerts r = []
        \/ exists a, run_alerts r = [a] /\ run_request r = None).
Proof.
  intros r. subst r. unfold updateKOT, ready, okStatus.
  destruct (isLoadingIp env); [early_exit|].
  destruct (Js.truthyOpt (apiUrl env)); cbn [negb andb]; [|early_exit].
  destruct (noTable env); cbn [negb andb]; [early_exit|].
  destruct (Js.truthyOpt (existingBillId st)); cbn [negb]; [|early_exit].
  destruct billResponse as [code [data|]|berr]; try early_exit.
  destruct (ts_data data) as [bill|] eqn:D; [|early_exit].
  destruct (String.eqb (ts_status data) "success") eqn:S; cbn [negb];
    [|early_exit].
  apply String.eqb_eq in S.
  destruct (bill_items bill) as [rows|] eqn:I; [|early_exit].
  assert (Sent : forall req,
             Some (buildUpdateData st bill rows) = Some req ->
             true = true /\ true = true
             /\ exists code0 data0 bill0 rows0,
                  Fulfilled code (Some data) = Fulfilled code0 (Some data0)
                  /\ ts_status data0 = "success" /\ ts_data data0 = Some bill0
                  /\ bill_items bill0 = Some rows0
                  /\ req = buildUpdateData st bill0 rows0).
  { intros req E. inversion E. split; [reflexivity|]. split; [reflexivity|].
    exists code, data, bill, rows. auto. }
  destruct putResponse as [status body|perr].
  - destruct ((status =? 200) || (status =? 201)) eqn:K.
    + cbn [run_alerts run_state run_request].
      split; [intros N; exfalso; apply N; reflexivity|].
      split; [exact Sent|].
      intros s b E K'. inversion E; subst. congruence.
    + cbn [run_alerts run_state run_request].
      split; [intros _; right; reflexivity|].
      split; [exact Sent|]. intros; left; reflexivity.
  - cbn [run_alerts run_state run_request].
    split; [intros _; right; reflexivity|].
    split; [exact Sent|]. intros; discriminate.
Qed.

Lemma X16_update_needs_success_witness :
  let st := mkState [teaLine; mkOrderItem tea 1 (Some addon) None None None]
                    [teaLine] (Some "b1") (Some "B-7") true false false false in
  let r := updateKOT tableFour false "17" "TypeError"
             (successWith 200 pendingBill) (Fulfilled 204 None)
             (successWith 200 pendingBill) st in
  run_state r = st \/ run_state r = setLoading false st.
Proof.
  intros st r.
  apply (proj1 (X16_update_needs_success tableFour false "17" "TypeError"
                  (successWith 200 pendingBill) (Fulfilled 204 None)
                  (successWith 200 pendingBill) st)).
  discriminate.
Defined.

Lemma effect_reads_draft_only st :
  computePending (setLoading false (pendingEffect st)) = computePending st
  /\ hasPendingChanges (setLoading false (pendingEffect st))
     = computePending st.
Proof. split; reflexivity. Qed.

(** A sync that keeps the removed lines and adopts a bill in which a
    product has an active and a canceled row is seen as pending. *)
Lemma history_is_pending env suppress now code bill st pid :
  ready env = true -> Js.truthyOpt (bill_id bill) = true ->
  suppress = false ->
  filter isActiveRow (rowsFor pid (billRows bill)) <> [] ->
  filter isCanceledRow (rowsFor pid (billRows bill)) <> [] ->
  computePending (fetchLastOrder env suppress now (successWith code bill) st)
  = true.
Proof.
  intros Hr Hb Hs Ha Hc.
  set (st' := fetchLastOrder env suppress now (successWith code bill) st).
  assert (I : orderItems st' = mappedItems (billRows bill)).
  { unfold st'. rewrite (synced_orderItems env suppress now code bill st Hr), Hs.
    reflexivity. }
  unfold st'. rewrite (synced_pending_value env suppress now code bill st Hr Hb).
  fold st'. apply existsb_exists.
  destruct (active_rows_have_original (billRows bill) pid Ha)
    as (o & Oin & Op & Oo).
  exists o. split.
  - unfold st'. rewrite (synced_originals env suppress now code bill st Hr).
    fold st'. rewrite I. apply filter_In. split; [exact Oin|].
    unfold statusIs. rewrite Oo. reflexivity.
  - apply String.eqb_eq in Op. rewrite Op.
    destruct (removedLineOf pid (orderItems st')) eqn:F; [reflexivity|].
    exfalso. rewrite I in F.
    destruct (filter isCanceledRow (rowsFor pid (billRows bill)))
      as [|p r] eqn:C; [contradiction|].
    assert (G : In (mkOrderItem (protoProduct pid p) 0 (Some removed)
                      (Some (sumQuantity (p :: r)))
                      (Some ("srv-removed-" ++ pid)%string)
                      (Some (rowIds (p :: r))))
                   (mappedItems (billRows bill))).
    { apply (group_line_is_mapped _ pid). unfold mapGroup. rewrite C.
      apply in_or_app. right. left. reflexivity. }
    pose proof (List.find_none _ _ F _ G) as N. cbn beta in N.
    unfold ofProduct, statusIs in N. cbn in N.
    rewrite String.eqb_refl in N. discriminate.
Qed.

(** A sync that drops the removed lines, or adopts a bill without a
    canceled row, is not seen as pending. *)
Lemma clean_sync_is_not_pending env suppress now code bill st :
  ready env = true -> Js.truthyOpt (bill_id bill) = true ->
  suppress = true
  \/ (forall r, In r (billRows bill) -> isCanceledRow r = false) ->
  computePending (fetchLastOrder env suppress now (successWith code bill) st)
  = false.
Proof.
  intros Hr Hb H.
  set (st' := fetchLastOrder env suppress now (successWith code bill) st).
  unfold st'. rewrite (synced_pending_value env suppress now code bill st Hr Hb).
  fold st'.
  destruct (existsb _ (originalSubmittedItems st')) eqn:E; [|reflexivity].
  exfalso. apply existsb_exists in E. destruct E as (orig & Ho & E).
  destruct (removedLineOf (_id (product orig)) (orderItems st')) as [x|] eqn:F;
    [|discriminate].
  apply List.find_some in F. destruct F as [Hx F].
  apply andb_true_iff in F. destruct F as [_ Sx].
  pose proof (synced_lines_mapped env suppress now code bill st Hr x Hx) as Hm.
  destruct H as [H|H].
  - unfold st' in Hx.
    rewrite (synced_orderItems env suppress now code bill st Hr), H in Hx.
    apply filter_In in Hx. destruct Hx as [_ Hx]. rewrite Sx in Hx.
    discriminate.
  - destruct (removed_line_has_canceled_row _ _ Hm Sx) as (r & Hrow & Hc).
    rewrite (H r Hrow) in Hc. discriminate.
Qed.

(** X17. When the update is answered with 200 or 201, the run ends with
    the success alert, the request that was sent is the diff of the
    draft as it stood before against the fetched rows, the loading flag
    is off and, whatever the closing re-sync receives (the bill, no
    bill, or an error), the draft holds no addon line. The pending flag
    is not the [false] the handler writes: the pending-changes effect
    recomputes it, so it is what [computePending] gives on the final
    draft. It is false when the re-sync adopts the bill without its
    removed lines or the bill has no canceled row, and also when the
    re-sync is rejected; it is true, and Update KOT stays enabled, when
    the re-sync runs with the stale suppress flag [false] and adopts a
    bill in which some product has an active and a canceled row. *)
Theorem X17_successful_update_leaves_no_addon
  (env : Env) (suppress : bool) (now typeError : string)
  (code : Z) (data : TableStatus) (bill : Bill) (rows : list BillItem)
  (status : Z) (body : option unit)
  (refetch : Axios TableStatus) (st : State) :
  ready env = true ->
  Js.truthyOpt (existingBillId st) = true ->
  ts_status data = "success" -> ts_data data = Some bill ->
  bill_items bill = Some rows ->
  okStatus status = true ->
  let r := updateKOT env suppress now typeError (Fulfilled code (Some data))
             (Fulfilled status body) refetch st in
  run_alerts r = [mkAlert "Success" "KOT updated successfully!"]
  /\ run_request r = Some (buildUpdateData st bill rows)
  /\ (forall l, In l (orderItems (run_state r)) -> statusIs addon l = false)
  /\ hasPendingChanges (run_state r) = computePending (run_state r)
  /\ loading (run_state r) = false
  /\ (forall code' bill',
        refetch = successWith code' bill' ->
        Js.truthyOpt (bill_id bill') = true ->
        (suppress = true
         \/ (forall x, In x (billRows bill') -> isCanceledRow x = false) ->
         hasPendingChanges (run_state r) = false)
        /\ (forall pid,
              suppress = false ->
              filter isActiveRow (rowsFor pid (billRows bill')) <> [] ->
              filter isCanceledRow (rowsFor pid (billRows bill')) <> [] ->
              hasPendingChanges (run_state r) = true))
  /\ (forall err, refetch = Rejected err ->
        orderItems (run_state r) = []
        /\ hasPendingChanges (run_state r) = false).
Proof.
  intros Hr Hb Hs Hd Hi Hk r.
  destruct (ready_parts env Hr) as (H1 & H2 & H3).
  subst r. unfold updateKOT, okStatus in *.
  rewrite H1, H2, H3, Hb, Hd, Hs, Hi, Hk.
  change (String.eqb "success" "success") with true.
  cbn [negb run_alerts run_request run_state].
  set (st2 := pendingEffect (commitUpdate (setLoading true st))).
  destruct (effect_reads_draft_only
              (fetchLastOrder env suppress now refetch st2)) as [P1 P2].
  split; [reflexivity|]. split; [reflexivity|].
  split; [|split; [|split; [reflexivity|split]]].
  - change (orderItems (setLoading false
              (pendingEffect (fetchLastOrder env suppress now refetch st2))))
      with (orderItems (fetchLastOrder env suppress now refetch st2)).
    apply sync_adds_no_addon.
    change (orderItems st2)
      with (orderItems (commitUpdate (setLoading true st))).
    apply commit_has_no_addon.
  - rewrite P1, P2. reflexivity.
  - intros code' bill' E Hid. rewrite P2, E. split.
    + intros H. apply clean_sync_is_not_pending; assumption.
    + intros pid S A C. apply (history_is_pending _ _ _ _ _ _ pid); assumption.
  - intros err E. rewrite P2, E. unfold fetchLastOrder.
    rewrite (ready_guard env Hr). split; reflexivity.
Qed.

Lemma X17_successful_update_leaves_no_addon_witness :
  let rows := [mkBillItem (Some "i1") (Some (RefId "p1")) (Some "Tea")
                          (Some 1) (Some 10%float) "active";
               mkBillItem (Some "i2") (Some (RefId "p1")) (Some "Tea")
                          (Some 1) (Some 10%float) "canceled"] in
  let after := mkBill (Some "b1") (Some "B-7") "pending" (Some rows) in
  let st := handleDecrementQuantity "16" "srv-p1"
              (fetchLastOrder tableFour false "15"
                 (successWith 200 pendingBill) initialState) in
  let r := updateKOT tableFour false "17" "TypeError"
             (successWith 200 pendingBill) (Fulfilled 200 None)
             (successWith 200 after) st in
  run_alerts r = [mkAlert "Success" "KOT updated successfully!"]
  /\ run_request r = Some (buildUpdateData st pendingBill [teaRow])
  /\ hasPendingChanges (run_state r) = true.
Proof.
  intros rows after st r.
  destruct (X17_successful_update_leaves_no_addon tableFour false "17"
              "TypeError" 200 (mkTableStatus "success" (Some pendingBill))
              pendingBill [teaRow] 200 None (successWith 200 after) st
              eq_refl eq_refl eq_refl eq_refl eq_refl eq_refl)
    as (H1 & H2 & _ & _ & _ & H6 & _).
  split; [exact H1|]. split; [exact H2|].
  apply (proj2 (H6 200 after eq_refl eq_refl) "p1" eq_refl); discriminate.
Defined.

(** ** Creating the bill *)

Lemma length_zero_iff_nil {A} (l : list A) :
  Nat.eqb (List.length l) 0 = false <-> l <> [].
Proof.
  destruct l; simpl; split; intros H; congruence.
Qed.

Lemma fetchBillNumber_core env response sc :
  let sc' := fst (fetchBillNumber env response sc) in
  orderItems (core sc') = orderItems (core sc)
  /\ originalSubmittedItems (core sc') = originalSubmittedItems (core sc)
  /\ existingBillId (core sc') = existingBillId (core sc)
  /\ hasPendingChanges (core sc') = hasPendingChanges (core sc)
  /\ loading (core sc') = loading (core sc).
Proof.
  unfold fetchBillNumber.
  destruct (negb (Js.truthyOpt (apiUrl env))); [cbn; auto|].
  destruct response as [code [data|]|err]; cbn; auto.
Qed.

Lemma fetchBillNumber_answer env response sc p :
  snd (fetchBillNumber env response sc) = Some p ->
  exists code info,
    response = Fulfilled code (Some info)
    /\ p = (currentBillNumber info, number info)
    /\ billNumber (core (fst (fetchBillNumber env response sc)))
       = currentBillNumber info
    /\ sequenceNumber (fst (fetchBillNumber env response sc)) = number info.
Proof.
  unfold fetchBillNumber.
  destruct (negb (Js.truthyOpt (apiUrl env))); [discriminate|].
  destruct response as [code [info|]|err]; cbn; try discriminate.
  intros E. inversion E. exists code, info. auto.
Qed.

Lemma updateBillNumber_core env n put refreshed sc :
  let sc' := fst (fst (updateBillNumber env n put refreshed sc)) in
  orderItems (core sc') = orderItems (core sc)
  /\ originalSubmittedItems (core sc') = originalSubmittedItems (core sc)
  /\ existingBillId (core sc') = existingBillId (core sc)
  /\ hasPendingChanges (core sc') = hasPendingChanges (core sc)
  /\ loading (core sc') = loading (core sc).
Proof.
  unfold updateBillNumber.
  destruct (negb (Js.truthyOpt (apiUrl env))); [cbn; auto|].
  destruct put as [status body|err]; [|cbn; auto].
  destruct (okStatus status); [|cbn; auto].
  destruct refreshed as [code [data|]|err]; cbn; auto.
Qed.

Lemma updateBillNumber_sent env n put refreshed sc :
  Js.truthyOpt (apiUrl env) = true ->
  snd (updateBillNumber env (Some n) put refreshed sc) = [SentSequence (n + 1)].
Proof.
  intros H. unfold updateBillNumber. rewrite H. cbn [negb].
  destruct put as [status body|err]; [|reflexivity].
  destruct (okStatus status); [|reflexivity].
  destruct refreshed as [code [data|]|err]; reflexivity.
Qed.

Section Submit.

Variables (taxSettings : TaxSettings) (env : Env) (suppress : bool).
Variables (now : string) (srv : Server) (sc : Screen).

Let o := submitKOT taxSettings env suppress now srv sc.

Lemma submit_cases :
  (out_sent o = []
   /\ out_alerts o <> [submitSuccess]
   /\ (out_screen o = sc
       \/ out_screen o
          = withCore (setLoading false)
              (fst (fetchBillNumber env (onGetBillNumber srv)
                      (withCore (setLoading true) sc)))))
  \/ (ready env = true
      /\ orderItems (core sc) <> []
      /\ Js.truthyOpt (existingBillId (core sc)) = false
      /\ exists code info,
           onGetBillNumber srv = Fulfilled code (Some info)
           /\ Js.truthyOpt (currentBillNumber info) = true
           /\ let bd := buildBillData taxSettings env (currentBillNumber info)
                          "pending" (orderItems (core sc)) in
              let sc2 := fst (fetchBillNumber env (onGetBillNumber srv)
                                (withCore (setLoading true) sc)) in
              (out_sent o = [SentCreate bd]
               /\ out_alerts o <> [submitSuccess]
               /\ out_screen o = withCore (setLoading false) sc2)
              \/ (out_sent o = [SentCreate bd; SentSequence (number info + 1)]
                  /\ out_alerts o = [submitSuccess]
                  /\ (exists status body,
                         onCreate srv = Fulfilled status body
                         /\ okStatus status = true)
                  /\ out_screen o
                     = let sc3 := fst (fst (updateBillNumber env
                                              (Some (number info))
                                              (onUpdateSequence srv)
                                              (onRefreshBillNumber srv) sc2)) in
                       let originalItems :=
                         map asOriginal (orderItems (core sc)) in
                       withCore (setLoading false)
                         (withCore (fetchLastOrder env suppress now
                                      (onGetTableStatus srv))
                            (withCore
                               (fun st =>
                                  setOriginalSubmittedItems originalItems
                                    (setOrderItems originalItems st)) sc3)))).
Proof.
  unfold o, submitKOT, ready.
  destruct (isLoadingIp env); [left; cbn; repeat split; auto; discriminate|].
  destruct (Js.truthyOpt (apiUrl env)) eqn:U; cbn [negb andb];
    [|left; cbn; repeat split; auto; discriminate].
  destruct (noTable env); cbn [negb andb];
    [left; cbn; repeat split; auto; discriminate|].
  destruct (Nat.eqb (List.length (orderItems (core sc))) 0) eqn:L;
    [left; cbn; repeat split; auto; discriminate|].
  apply length_zero_iff_nil in L.
  destruct (snd (fetchBillNumber env (onGetBillNumber srv)
                   (withCore (setLoading true) sc))) as [[bn sq]|] eqn:F;
    [|left; cbn; repeat split; auto; discriminate].
  destruct (fetchBillNumber_answer _ _ _ _ F) as (code & info & Hg & Hp & _).
  inversion Hp; subst bn sq.
  destruct (Js.truthyOpt (currentBillNumber info)) eqn:T; cbn [negb];
    [|left; cbn; repeat split; auto; discriminate].
  destruct (Js.truthyOpt (existingBillId (core sc))) eqn:B;
    [left; cbn; repeat split; auto; discriminate|].
  right. split; [reflexivity|]. split; [exact L|]. split; [reflexivity|].
  exists code, info. split; [exact Hg|]. split; [exact T|].
  destruct (onCreate srv) as [status body|err] eqn:C.
  - destruct (okStatus status) eqn:K.
    + right. cbn [out_sent out_alerts out_screen].
      rewrite (updateBillNumber_sent _ _ _ _ _ U).
      split; [reflexivity|]. split; [reflexivity|].
      split; [exists status, body; auto | reflexivity].
    + left. cbn. repeat split; auto; discriminate.
  - left. cbn [out_sent out_alerts out_screen]. repeat split; auto.
    unfold submitSuccess. intros E. inversion E.
Qed.

End Submit.

(** X18. [submitKOT] sends a create request only when the screen is
    ready, the draft is not empty, no bill id is set and a bill number
    was fetched; the request then carries that number, status pending
    and the draft's lines. The sequence is advanced (to the fetched
    number plus one) only after a create answered 200 or 201. Unless the
    run ends with the success alert, the draft's lines, the submitted
    baseline, the bill id and the pending flag are as before. *)
Theorem X18_submit_creates_only_new_bills
  (taxSettings : TaxSettings) (env : Env) (suppress : bool) (now : string)
  (srv : Server) (sc : Screen) :
  let o := submitKOT taxSettings env suppress now srv sc in
  (forall bd, In (SentCreate bd) (out_sent o) ->
     ready env = true /\ orderItems (core sc) <> []
     /\ Js.truthyOpt (existingBillId (core sc)) = false
     /\ exists code info,
          onGetBillNumber srv = Fulfilled code (Some info)
          /\ Js.truthyOpt (currentBillNumber info) = true
          /\ bd = buildBillData taxSettings env (currentBillNumber info)
                    "pending" (orderItems (core sc)))
  /\ (forall n, In (SentSequence n) (out_sent o) ->
        out_alerts o = [submitSuccess]
        /\ (exists status body,
               onCreate srv = Fulfilled status body /\ okStatus status = true)
        /\ exists code info,
             onGetBillNumber srv = Fulfilled code (Some info)
             /\ n = number info + 1)
  /\ (out_alerts o <> [submitSuccess] ->
      orderItems (core (out_screen o)) = orderItems (core sc)
      /\ originalSubmittedItems (core (out_screen o))
         = originalSubmittedItems (core sc)
      /\ existingBillId (core (out_screen o)) = existingBillId (core sc)
      /\ hasPendingChanges (core (out_screen o))
         = hasPendingChanges (core sc)).
Proof.
  intros o. unfold o. clear o.
  pose proof (fetchBillNumber_core env (onGetBillNumber srv)
                (withCore (setLoading true) sc)) as FC.
  cbn zeta in FC. destruct FC as (F1 & F2 & F3 & F4 & _).
  destruct (submit_cases taxSettings env suppress now srv sc)
    as [(S & A & Sc)|(R & L & B & code & info & G & T & Cases)].
  - rewrite S. split; [intros bd []|]. split; [intros n []|].
    intros _. destruct Sc as [-> | ->]; [auto|].
    cbn [core withCore orderItems originalSubmittedItems existingBillId
         hasPendingChanges setLoading].
    rewrite F1, F2, F3, F4. cbn. auto.
  - cbn zeta in Cases.
    destruct Cases as [(S & A & Sc)|(S & A & K & Sc)]; rewrite S.
    + split.
      { intros bd [E|[]]. inversion E. repeat split; auto.
        exists code, info. auto. }
      split; [intros n [E|[]]; discriminate E|].
      intros _. rewrite Sc.
      cbn [core withCore orderItems originalSubmittedItems existingBillId
           hasPendingChanges setLoading].
      rewrite F1, F2, F3, F4. cbn. auto.
    + split.
      { intros bd [E|[E|[]]]; [|discriminate E]. inversion E.
        repeat split; auto. exists code, info. auto. }
      split.
      { intros n [E|[E|[]]]; [discriminate E|]. inversion E.
        split; [exact A|]. split; [exact K|]. exists code, info. auto. }
      intros N. contradiction.
Qed.

Lemma X18_submit_creates_only_new_bills_witness :
  let srv := mkServer (Fulfilled 200 (Some (mkBillNumberInfo (Some "B-7") 7)))
               (Fulfilled 201 None) (Fulfilled 200 None)
               (Fulfilled 200 (Some (mkBillNumberInfo (Some "B-8") 8)))
               (Fulfilled 200 None) (successWith 200 pendingBill) in
  let sc := mkScreen (setOrderItems
                        [mkOrderItem tea 2 None None (Some "local-1") None]
                        initialState) 0 false in
  let o := submitKOT initialTaxSettings tableFour false "17" srv sc in
  out_alerts o = [submitSuccess].
Proof.
  intros srv sc o.
  apply (proj1 (proj2 (X18_submit_creates_only_new_bills initialTaxSettings
                         tableFour false "17" srv sc)) 8).
  right. left. reflexivity.
Defined.

(** X19. When the table already has a bill, [submitKOT] sends nothing
    and shows the conflict alert, yet it has fetched a bill number
    first: the bill number and sequence shown on the screen are
    overwritten with the freshly reserved ones, which are not those of
    the table's bill. The draft and the bill id stay as they were. *)
Theorem X19_submit_on_existing_bill
  (taxSettings : TaxSettings) (env : Env) (suppress : bool) (now : string)
  (srv : Server) (sc : Screen) (code : Z) (info : BillNumberInfo) :
  ready env = true ->
  orderItems (core sc) <> [] ->
  Js.truthyOpt (existingBillId (core sc)) = true ->
  onGetBillNumber srv = Fulfilled code (Some info) ->
  Js.truthyOpt (currentBillNumber info) = true ->
  let o := submitKOT taxSettings env suppress now srv sc in
  out_sent o = [] /\ out_alerts o = [conflictAlert]
  /\ billNumber (core (out_screen o)) = currentBillNumber info
  /\ sequenceNumber (out_screen o) = number info
  /\ orderItems (core (out_screen o)) = orderItems (core sc)
  /\ existingBillId (core (out_screen o)) = existingBillId (core sc)
  /\ loading (core (out_screen o)) = false.
Proof.
  intros Hr Hl Hb Hg Ht o. subst o.
  destruct (ready_parts env Hr) as (H1 & H2 & H3).
  apply length_zero_iff_nil in Hl.
  unfold submitKOT, fetchBillNumber.
  rewrite H1, H2, H3, Hl, Hg. cbn [negb fst snd]. rewrite Ht, Hb.
  cbn. auto 10.
Qed.

Lemma X19_submit_on_existing_bill_witness :
  let srv := mkServer (Fulfilled 200 (Some (mkBillNumberInfo (Some "B-9") 9)))
               (Fulfilled 201 None) (Fulfilled 200 None)
               (Fulfilled 200 (Some (mkBillNumberInfo (Some "B-10") 10)))
               (Fulfilled 200 None) (successWith 200 pendingBill) in
  let sc := mkScreen (syncedState tea 2 None (Ascii.ascii_of_nat 98) "1"
                        (Some "B-7")) 7 false in
  let o := submitKOT initialTaxSettings tableFour false "17" srv sc in
  billNumber (core (out_screen o)) = Some "B-9"
  /\ existingBillId (core (out_screen o)) = Some "b1".
Proof.
  intros srv sc o.
  destruct (X19_submit_on_existing_bill initialTaxSettings tableFour false
              "17" srv sc 200 (mkBillNumberInfo (Some "B-9") 9)
              eq_refl ltac:(discriminate) eq_refl eq_refl eq_refl)
    as (_ & _ & H3 & _ & _ & H6 & _).
  split; [exact H3 | exact H6].
Defined.

Lemma sync_lines_sent env suppress now response st :
  (forall l, In l (orderItems st) ->
             itemStatus l = Some original \/ itemStatus l = Some removed) ->
  forall l, In l (orderItems (fetchLastOrder env suppress now response st)) ->
            itemStatus l = Some original \/ itemStatus l = Some removed.
Proof.
  intros H l. destruct (ready env) eqn:R.
  - destruct response as [code [[status [bill|]]|]|err];
      try (unfold fetchLastOrder; rewrite (ready_guard env R); cbn;
           solve [apply H | intros []]).
    destruct (String.eqb status "success") eqn:S.
    + apply String.eqb_eq in S. subst status.
      change (Fulfilled code (Some (mkTableStatus "success" (Some bill))))
        with (successWith code bill).
      rewrite (synced_orderItems env suppress now code bill st R).
      assert (M : forall x, In x (mappedItems (billRows bill)) ->
                            itemStatus x = Some original
                            \/ itemStatus x = Some removed).
      { intros x Hx. destruct (mapped_line_cases _ _ Hx) as [[E _]|[E _]];
          auto. }
      destruct suppress; intros Hl; [|exact (M _ Hl)].
      apply filter_In in Hl. destruct Hl as [Hl _]. exact (M _ Hl).
    + unfold fetchLastOrder. rewrite (ready_guard env R).
      cbn [ts_data ts_status]. rewrite S. cbn. apply H.
  - unfold fetchLastOrder. unfold ready in R.
    destruct (Js.truthyOpt (apiUrl env)), (noTable env), (isLoadingIp env);
      simpl in R; try discriminate; cbn; apply H.
Qed.

(** X20. A create answered 200 or 201 ends [submitKOT] with the success
    alert, a create request with status pending followed by the
    sequence update; whatever the closing re-sync receives, every line
    left in the draft is an original or a removed line (none is an
    addon or unclassified), and the loading flag is off. When the
    re-sync call is rejected the draft is left empty and without a bill
    id, although the bill was created. *)
Theorem X20_submit_success
  (taxSettings : TaxSettings) (env : Env) (suppress : bool) (now : string)
  (srv : Server) (sc : Screen) (code : Z) (info : BillNumberInfo)
  (status : Z) (body : option unit) :
  ready env = true ->
  orderItems (core sc) <> [] ->
  Js.truthyOpt (existingBillId (core sc)) = false ->
  onGetBillNumber srv = Fulfilled code (Some info) ->
  Js.truthyOpt (currentBillNumber info) = true ->
  onCreate srv = Fulfilled status body ->
  okStatus status = true ->
  let o := submitKOT taxSettings env suppress now srv sc in
  out_alerts o = [submitSuccess]
  /\ out_sent o
     = [SentCreate (buildBillData taxSettings env (currentBillNumber info)
                      "pending" (orderItems (core sc)));
        SentSequence (number info + 1)]
  /\ (forall l, In l (orderItems (core (out_screen o))) ->
        itemStatus l = Some original \/ itemStatus l = Some removed)
  /\ loading (core (out_screen o)) = false
  /\ (forall err, onGetTableStatus srv = Rejected err ->
        orderItems (core (out_screen o)) = []
        /\ existingBillId (core (out_screen o)) = None).
Proof.
  intros Hr Hl Hb Hg Ht Hc Hk o. subst o.
  destruct (submit_cases taxSettings env suppress now srv sc)
    as [(S & A & Sc)|(_ & _ & _ & code' & info' & G & _ & Cases)].
  - exfalso. revert S. unfold submitKOT, fetchBillNumber.
    destruct (ready_parts env Hr) as (H1 & H2 & H3).
    apply length_zero_iff_nil in Hl.
    rewrite H1, H2, H3, Hl, Hg. cbn [negb fst snd]. rewrite Ht, Hb, Hc, Hk.
    discriminate.
  - rewrite Hg in G. inversion G; subst code' info'. cbn zeta in Cases.
    destruct Cases as [(S & A & Sc)|(S & A & K & Sc)].
    + exfalso. revert A. unfold submitKOT, fetchBillNumber.
      destruct (ready_parts env Hr) as (H1 & H2 & H3).
      apply length_zero_iff_nil in Hl.
      rewrite H1, H2, H3, Hl, Hg. cbn [negb fst snd]. rewrite Ht, Hb, Hc, Hk.
      intros N. apply N. reflexivity.
    + split; [exact A|]. split; [exact S|]. rewrite Sc.
      cbn [core withCore loading setLoading orderItems existingBillId].
      split; [|split; [reflexivity|]].
      * apply sync_lines_sent. cbn [orderItems setOrderItems
          setOriginalSubmittedItems].
        intros l Hin. apply in_map_iff in Hin. destruct Hin as (x & <- & _).
        left. reflexivity.
      * intros err E. rewrite E. unfold fetchLastOrder.
        rewrite (ready_guard env Hr). cbn. auto.
Qed.

Lemma X20_submit_success_witness :
  let srv := mkServer (Fulfilled 200 (Some (mkBillNumberInfo (Some "B-7") 7)))
               (Fulfilled 201 None) (Fulfilled 200 None)
               (Fulfilled 200 (Some (mkBillNumberInfo (Some "B-8") 8)))
               (Fulfilled 200 None)
               (Rejected (mkAxiosError None None (Some "Network Error"))) in
  let sc := mkScreen (setOrderItems
                        [mkOrderItem tea 2 None None (Some "local-1") None]
                        initialState) 0 false in
  let o := submitKOT initialTaxSettings tableFour false "17" srv sc in
  out_alerts o = [submitSuccess]
  /\ orderItems (core (out_screen o)) = [].
Proof.
  intros srv sc o.
  destruct (X20_submit_success initialTaxSettings tableFour false "17" srv sc
              200 (mkBillNumberInfo (Some "B-7") 7) 201 None
              eq_refl ltac:(discriminate) eq_refl eq_refl eq_refl eq_refl
              eq_refl)
    as (H1 & _ & _ & _ & H5).
  split; [exact H1|].
  exact (proj1 (H5 (mkAxiosError None None (Some "Network Error")) eq_refl)).
Defined.

(** ** Completing, cancelling and clearing *)

Lemma cleared_screen sc :
  let sc' := withCore (setLoading false) (clearedForNewOrder sc) in
  orderItems (core sc') = [] /\ originalSubmittedItems (core sc') = []
  /\ existingBillId (core sc') = None /\ billNumber (core sc') = None
  /\ sequenceNumber sc' = 0 /\ loading (core sc') = false.
Proof. cbn. auto 10. Qed.

Section Complete.

Variables (taxSettings : TaxSettings) (env : Env) (srv : Server) (sc : Screen).

Let o := handleCompleteOrder taxSettings env srv sc.
Let done := mkAlert "Success" "Order completed successfully!".

Lemma complete_cases :
  exists sc' sent,
    orderItems (core sc') = orderItems (core sc)
    /\ originalSubmittedItems (core sc') = originalSubmittedItems (core sc)
    /\ existingBillId (core sc') = existingBillId (core sc)
    /\ ((out_alerts o <> [done] /\ out_sent o = sent
         /\ (out_screen o = sc \/ out_screen o = withCore (setLoading false) sc'))
        \/ (out_alerts o = [done] /\ out_sent o = sent
            /\ out_screen o = withCore (setLoading false)
                                (clearedForNewOrder sc')))
    /\ (sent = []
        \/ (Js.truthyOpt (existingBillId (core sc)) = true
            /\ sent = [SentUpdateStatus (existingBillId (core sc)) "completed"])
        \/ (Js.truthyOpt (existingBillId (core sc)) = false
            /\ exists number n,
                 Js.truthyOpt number = true
                 /\ (sent = [SentCreate
                               (buildBillData taxSettings env number
                                  "completed" (orderItems (core sc)))]
                     /\ out_alerts o <> [done]
                     \/ sent = [SentCreate
                                  (buildBillData taxSettings env number
                                     "completed" (orderItems (core sc)));
                                SentSequence (n + 1)]
                        /\ out_alerts o = [done]))).
Proof.
  unfold o, done, handleCompleteOrder.
  destruct (isLoadingIp env);
    [exists sc, []; cbn; repeat split; auto; left; repeat split; auto;
     discriminate|].
  destruct (Js.truthyOpt (apiUrl env)) eqn:U; cbn [negb];
    [|exists sc, []; cbn; repeat split; auto; left; repeat split; auto;
      discriminate].
  destruct (noTable env);
    [exists sc, []; cbn; repeat split; auto; left; repeat split; auto;
     discriminate|].
  destruct (Nat.eqb (List.length (orderItems (core sc))) 0);
    [exists sc, []; cbn; repeat split; auto; left; repeat split; auto;
     discriminate|].
  destruct (Js.truthyOpt (existingBillId (core sc))) eqn:B.
  - exists (withCore (setLoading true) sc),
      [SentUpdateStatus (existingBillId (core sc)) "completed"].
    split; [reflexivity|]. split; [reflexivity|]. split; [reflexivity|].
    split; [|right; left; split; reflexivity].
    destruct (onUpdateStatus srv) as [status body|err].
    + destruct (okStatus status).
      * right. cbn. auto.
      * left. cbn. repeat split; auto. discriminate.
    + left. cbn. repeat split; auto. intros E. inversion E.
  - pose proof (fetchBillNumber_core env (onGetBillNumber srv)
                  (withCore (setLoading true) sc)) as FC.
    cbn zeta in FC. destruct FC as (F1 & F2 & F3 & _).
    set (sc2 := fst (fetchBillNumber env (onGetBillNumber srv)
                       (withCore (setLoading true) sc))) in *.
    destruct (snd (fetchBillNumber env (onGetBillNumber srv)
                     (withCore (setLoading true) sc))) as [[bn sq]|] eqn:F.
    2:{ exists sc2, []. cbn [out_alerts out_sent out_screen].
        repeat split; auto. left. repeat split; auto. discriminate. }
    destruct (Js.truthyOpt bn) eqn:T; cbn [negb].
    2:{ exists sc2, []. cbn [out_alerts out_sent out_screen].
        repeat split; auto. left. repeat split; auto. discriminate. }
    destruct (onCreate srv) as [status body|err] eqn:C.
    + destruct (okStatus status) eqn:K.
      * pose proof (updateBillNumber_core env (Some sq) (onUpdateSequence srv)
                      (onRefreshBillNumber srv) sc2) as UC.
        cbn zeta in UC. destruct UC as (U1 & U2 & U3 & _).
        eexists. eexists.
        split; [|split; [|split; [|split]]].
        4:{ right. cbn [out_alerts out_sent out_screen].
            split; [reflexivity|]. split; reflexivity. }
        -- rewrite U1. exact F1.
        -- rewrite U2. exact F2.
        -- rewrite U3. exact F3.
        -- right. right. split; [reflexivity|]. exists bn, sq.
           split; [exact T|]. right.
           rewrite (updateBillNumber_sent _ _ _ _ _ U).
           split; reflexivity.
      * exists sc2. eexists.
        split; [exact F1|]. split; [exact F2|]. split; [exact F3|].
        cbn [out_alerts out_sent out_screen].
        split; [left; split; [discriminate | split; [reflexivity | auto]]|].
        right. right. split; [reflexivity|]. exists bn, 0.
        split; [exact T|]. left. split; [reflexivity | discriminate].
    + exists sc2. eexists.
      split; [exact F1|]. split; [exact F2|]. split; [exact F3|].
      cbn [out_alerts out_sent out_screen].
      split; [left; split; [intros E; inversion E
                           | split; [reflexivity | auto]]|].
      right. right. split; [reflexivity|]. exists bn, 0.
      split; [exact T|]. left. split; [reflexivity|].
      intros E; inversion E.
Qed.

End Complete.

(** X21. [handleCompleteOrder] ends in one of two ways. With the
    "Order completed successfully!" alert the screen is reset for a new
    order: draft, submitted baseline, bill id and bill number empty,
    sequence 0, loading off. Without it the draft, the baseline and the
    bill id are as before. A table with a bill gets only a status
    update to completed for that bill; a table without one gets a
    create request with status completed carrying the draft, and no
    status update. *)
Theorem X21_complete_resets_only_on_success
  (taxSettings : TaxSettings) (env : Env) (srv : Server) (sc : Screen) :
  let o := handleCompleteOrder taxSettings env srv sc in
  let done := mkAlert "Success" "Order completed successfully!" in
  (out_alerts o = [done] ->
   orderItems (core (out_screen o)) = []
   /\ originalSubmittedItems (core (out_screen o)) = []
   /\ existingBillId (core (out_screen o)) = None
   /\ billNumber (core (out_screen o)) = None
   /\ sequenceNumber (out_screen o) = 0
   /\ loading (core (out_screen o)) = false)
  /\ (out_alerts o <> [done] ->
      orderItems (core (out_screen o)) = orderItems (core sc)
      /\ originalSubmittedItems (core (out_screen o))
         = originalSubmittedItems (core sc)
      /\ existingBillId (core (out_screen o)) = existingBillId (core sc))
  /\ (forall id s, In (SentUpdateStatus id s) (out_sent o) ->
        Js.truthyOpt (existingBillId (core sc)) = true
        /\ id = existingBillId (core sc) /\ s = "completed")
  /\ (forall bd, In (SentCreate bd) (out_sent o) ->
        Js.truthyOpt (existingBillId (core sc)) = false
        /\ data_status bd = "completed"
        /\ data_items bd = sanitizedItems (orderItems (core sc))).
Proof.
  intros o done. unfold o, done. clear o done.
  destruct (complete_cases taxSettings env srv sc)
    as (sc' & sent & E1 & E2 & E3 & How & What).
  split; [|split; [|split]].
  - intros A. destruct How as [(N & _)|(_ & S & Sc)]; [contradiction|].
    rewrite Sc. destruct (cleared_screen sc') as (C1 & C2 & C3 & C4 & C5 & C6).
    auto 10.
  - intros N. destruct How as [(_ & _ & [Sc|Sc])|(A & _)];
      [rewrite Sc; auto | rewrite Sc; cbn; auto | contradiction].
  - intros id s Hin.
    destruct How as [(_ & S & _)|(_ & S & _)]; rewrite S in Hin;
      (destruct What as [W|[(B & W)|(_ & number & n & _ & [(W & _)|(W & _)])]];
       rewrite W in Hin; cbn in Hin;
       repeat match goal with
              | H : _ \/ _ |- _ => destruct H
              | H : False |- _ => destruct H
              | H : SentUpdateStatus _ _ = SentUpdateStatus _ _ |- _ =>
                  inversion H; clear H
              | H : SentCreate _ = SentUpdateStatus _ _ |- _ => discriminate H
              | H : SentSequence _ = SentUpdateStatus _ _ |- _ => discriminate H
              end; auto).
  - intros bd Hin.
    destruct How as [(_ & S & _)|(_ & S & _)]; rewrite S in Hin;
      (destruct What as [W|[(B & W)|(B & number & n & _ & [(W & _)|(W & _)])]];
       rewrite W in Hin; cbn in Hin;
       repeat match goal with
              | H : _ \/ _ |- _ => destruct H
              | H : False |- _ => destruct H
              | H : SentCreate _ = SentCreate _ |- _ =>
                  inversion H; clear H
              | H : SentUpdateStatus _ _ = SentCreate _ |- _ => discriminate H
              | H : SentSequence _ = SentCreate _ |- _ => discriminate H
              end; auto).
Qed.

Lemma X21_complete_resets_only_on_success_witness :
  let srv := mkServer (Fulfilled 200 (Some (mkBillNumberInfo (Some "B-7") 7)))
               (Fulfilled 201 None) (Fulfilled 200 None)
               (Fulfilled 200 (Some (mkBillNumberInfo (Some "B-8") 8)))
               (Fulfilled 200 None) (successWith 200 pendingBill) in
  let sc := mkScreen (syncedState tea 2 None (Ascii.ascii_of_nat 98) "1"
                        (Some "B-7")) 7 false in
  let o := handleCompleteOrder initialTaxSettings tableFour srv sc in
  orderItems (core (out_screen o)) = []
  /\ existingBillId (core (out_screen o)) = None.
Proof.
  intros srv sc o.
  destruct (proj1 (X21_complete_resets_only_on_success initialTaxSettings
                     tableFour srv sc) eq_refl)
    as (H1 & _ & H3 & _).
  split; [exact H1 | exact H3].
Defined.

(** X22. [handleCancelOrder] asks the server for one thing only, and
    only after the user confirmed on a table with a bill: the status
    cancelled for that bill. With the "Order cancelled successfully!"
    alert the screen is reset for a new order; on a table with a bill
    and without that alert the draft, the baseline, the bill id and the
    bill number are as before. On a table without a bill the handler is
    [handleClearOrder]: nothing is sent and nothing is shown. *)
Theorem X22_cancel_resets_only_on_success
  (env : Env) (confirmed : bool) (srv : Server) (sc : Screen) :
  let o := handleCancelOrder env confirmed srv sc in
  let done := mkAlert "Success" "Order cancelled successfully!" in
  (out_sent o = []
   \/ (confirmed = true /\ Js.truthyOpt (existingBillId (core sc)) = true
       /\ out_sent o
          = [SentUpdateStatus (existingBillId (core sc)) "cancelled"]))
  /\ (out_alerts o = [done] ->
      orderItems (core (out_screen o)) = []
      /\ originalSubmittedItems (core (out_screen o)) = []
      /\ existingBillId (core (out_screen o)) = None
      /\ billNumber (core (out_screen o)) = None
      /\ sequenceNumber (out_screen o) = 0
      /\ loading (core (out_screen o)) = false)
  /\ (Js.truthyOpt (existingBillId (core sc)) = true ->
      out_alerts o <> [done] ->
      orderItems (core (out_screen o)) = orderItems (core sc)
      /\ originalSubmittedItems (core (out_screen o))
         = originalSubmittedItems (core sc)
      /\ existingBillId (core (out_screen o)) = existingBillId (core sc)
      /\ billNumber (core (out_screen o)) = billNumber (core sc)
      /\ sequenceNumber (out_screen o) = sequenceNumber sc)
  /\ (Js.truthyOpt (existingBillId (core sc)) = false ->
      isLoadingIp env = false -> Js.truthyOpt (apiUrl env) = true ->
      o = mkOutcome (handleClearOrder confirmed sc) [] []).
Proof.
  intros o done. unfold o, done, handleCancelOrder. clear o done.
  destruct (isLoadingIp env).
  { cbn. repeat split; auto; discriminate. }
  destruct (Js.truthyOpt (apiUrl env)); cbn [negb].
  2:{ cbn. repeat split; auto; discriminate. }
  destruct (Js.truthyOpt (existingBillId (core sc))) eqn:B; cbn [negb].
  2:{ cbn [out_sent out_alerts out_screen].
      split; [left; reflexivity|]. split; [discriminate|].
      split; [discriminate | reflexivity]. }
  destruct confirmed; cbn [negb].
  2:{ cbn. repeat split; auto; discriminate. }
  destruct (onUpdateStatus srv) as [status body|err].
  - destruct (okStatus status); cbn.
    + split; [right; auto|]. split; [auto 10|].
      split; [intros _ N; exfalso; apply N; reflexivity | discriminate].
    + split; [right; auto|]. split; [discriminate|].
      split; [auto 10 | discriminate].
  - cbn. split; [right; auto|].
    split; [intros E; inversion E|]. split; [auto 10 | discriminate].
Qed.

Lemma X22_cancel_resets_only_on_success_witness :
  let srv := mkServer (Fulfilled 200 (Some (mkBillNumberInfo (Some "B-7") 7)))
               (Fulfilled 201 None) (Fulfilled 200 None)
               (Fulfilled 200 (Some (mkBillNumberInfo (Some "B-8") 8)))
               (Fulfilled 500 None) (successWith 200 pendingBill) in
  let sc := mkScreen (syncedState tea 2 None (Ascii.ascii_of_nat 98) "1"
                        (Some "B-7")) 7 false in
  let o := handleCancelOrder tableFour true srv sc in
  orderItems (core (out_screen o)) = orderItems (core sc)
  /\ billNumber (core (out_screen o)) = Some "B-7".
Proof.
  intros srv sc o.
  destruct (proj1 (proj2 (proj2
              (X22_cancel_resets_only_on_success tableFour true srv sc)))
              eq_refl ltac:(discriminate))
    as (H1 & _ & _ & H4 & _).
  split; [exact H1 | exact H4].
Defined.

Lemma no_desired_no_edits (groups : list (string * list BillItem)) :
  forall acc, fold_left (productStep JsMap.empty) groups acc = acc.
Proof.
  induction groups as [|kv rest IH]; intros acc; [reflexivity|].
  cbn [fold_left]. rewrite IH. reflexivity.
Qed.

(** X23. A confirmed clear empties the draft and the submitted baseline
    and keeps the bill id; the bill number and the sequence are kept on
    a table with a bill and reset on a table without one. Nothing is
    pending afterwards, and the request Update KOT would build from the
    cleared draft has no edited and no added item and the status
    bill-printed, whatever rows the bill holds: clearing cancels no row
    of the bill. *)
Theorem X23_clear_cancels_nothing
  (sc : Screen) (currentBill : Bill) (billItems : list BillItem) :
  let sc' := handleClearOrder true sc in
  orderItems (core sc') = []
  /\ originalSubmittedItems (core sc') = []
  /\ existingBillId (core sc') = existingBillId (core sc)
  /\ (if Js.truthyOpt (existingBillId (core sc))
      then billNumber (core sc') = billNumber (core sc)
           /\ sequenceNumber sc' = sequenceNumber sc
      else billNumber (core sc') = None /\ sequenceNumber sc' = 0)
  /\ computePending (core sc') = false
  /\ buildUpdateData (core sc') currentBill billItems
     = mkUpdateData (existingBillId (core sc)) "bill-printed" [] [].
Proof.
  intros sc'. subst sc'. unfold handleClearOrder, clearConfirmed.
  assert (P : forall st,
             orderItems st = [] -> originalSubmittedItems st = [] ->
             computePending st = false
             /\ buildUpdateData st currentBill billItems
                = mkUpdateData (existingBillId st) "bill-printed" [] []).
  { intros st Ho Hs. split.
    - unfold computePending. rewrite Ho, Hs.
      destruct (Js.truthyOpt (existingBillId st)); reflexivity.
    - unfold buildUpdateData, computeEditedItems, desiredByProduct.
      rewrite Ho. cbn [fold_left]. rewrite no_desired_no_edits. reflexivity. }
  cbn [core withCore existingBillId setOrderItems setOriginalSubmittedItems].
  destruct (Js.truthyOpt (existingBillId (core sc))) eqn:B; cbn [negb].
  - repeat (split; [reflexivity|]). split; [split; reflexivity|].
    apply (P (setOriginalSubmittedItems [] (setOrderItems [] (core sc))));
      reflexivity.
  - repeat (split; [reflexivity|]). split; [split; reflexivity|].
    apply (P (setBillNumber None
                (setOriginalSubmittedItems [] (setOrderItems [] (core sc)))));
      reflexivity.
Qed.

(** ** What counts as a pending change *)

Lemma pending_of_addon st a :
  Js.truthyOpt (existingBillId st) = true ->
  In a (orderItems st) -> statusIs addon a = true -> 0 < quantity a ->
  computePending st = true.
Proof.
  intros Hb Hin Ha Hq. unfold computePending. rewrite Hb. cbn [negb].
  apply orb_true_iff. left. apply existsb_exists. exists a.
  split; [exact Hin|]. rewrite Ha. apply Z.ltb_lt. exact Hq.
Qed.

Lemma pending_of_removed st o r :
  Js.truthyOpt (existingBillId st) = true ->
  In o (originalSubmittedItems st) -> In r (orderItems st) ->
  ofProduct (_id (product o)) r = true -> statusIs removed r = true ->
  computePending st = true.
Proof.
  intros Hb Ho Hr Hp Hs. unfold computePending. rewrite Hb. cbn [negb].
  apply orb_true_iff. right. apply existsb_exists. exists o.
  split; [exact Ho|].
  destruct (Js.find (fun i => ofProduct (_id (product o)) i
                              && statusIs removed i) (orderItems st))
    as [x|] eqn:F; [reflexivity|].
  pose proof (List.find_none _ _ F r Hr) as N. cbn in N.
  rewrite Hp, Hs in N. discriminate.
Qed.

Lemma In_setAt_new {A} (l : list A) (i : nat) (v y : A) :
  nth_error l i = Some y -> In v (Js.setAt l i v).
Proof.
  revert i. induction l as [|a r IH]; intros i H.
  - destruct i; discriminate.
  - destruct i; simpl in *; [left; reflexivity|]. right. eapply IH; eauto.
Qed.

Lemma classified_addon st l :
  billClassified st -> Js.truthyOpt (existingBillId st) = true ->
  In l (orderItems st) ->
  statusIs removed l = false -> statusIs original l = false ->
  statusIs addon l = true.
Proof.
  intros Hc Hb Hin Hr Ho. pose proof (Hc Hb l Hin) as N.
  unfold statusIs in *. destruct (itemStatus l) as [[| |]|];
    simpl in *; congruence.
Qed.

Lemma isOriginal_classified l :
  itemStatus l <> None -> isOriginal l = statusIs original l.
Proof.
  unfold isOriginal, statusIs. destruct (itemStatus l) as [[| |]|];
    simpl; congruence.
Qed.

Lemma decrement_keeps_baseline now lid st :
  originalSubmittedItems (handleDecrementQuantity now lid st)
  = originalSubmittedItems st
  /\ existingBillId (handleDecrementQuantity now lid st) = existingBillId st.
Proof.
  unfold handleDecrementQuantity.
  destruct (Js.findIndex (hasLocalId lid) (orderItems st)) as [idx|]; auto.
  destruct (nth_error (orderItems st) idx) as [t|]; auto.
  destruct (isOriginal t && Js.truthyOpt (existingBillId st)); auto.
  destruct (Js.max0 (quantity t - 1) <=? 0); auto.
Qed.

Section EditsArePending.

Variable st : State.

Hypothesis billSubmitted : Js.truthyOpt (existingBillId st) = true.
Hypothesis linesClassified : billClassified st.
Hypothesis quantitiesNonneg : forall l, In l (orderItems st) -> 0 <= quantity l.

Lemma add_is_pending fresh pr :
  computePending (handleAddToOrder fresh pr st) = true.
Proof.
  unfold handleAddToOrder, addBranch.
  destruct (existingItemFor pr (orderItems st)) as [e|] eqn:E.
  - pose proof (existingItem_not_removed _ _ _ E) as R. rewrite R.
    pose proof E as E'. unfold existingItemFor in E'.
    apply List.find_some in E'. destruct E' as [Hin Hp].
    apply andb_true_iff in Hp. destruct Hp as [Hp _].
    rewrite billSubmitted. cbn [andb].
    destruct (statusIs original e) eqn:O.
    + destruct (Js.find (fun item => ofProduct (_id pr) item
                                     && statusIs addon item) (orderItems st))
        as [a|] eqn:F.
      * apply List.find_some in F. destruct F as [Ha Hpa].
        apply (pending_of_addon _ (withQuantity a (quantity a + 1)));
          [exact billSubmitted | | |].
        -- cbn [orderItems setOrderItems]. apply in_map_iff. exists a.
           rewrite Hpa. auto.
        -- apply andb_true_iff in Hpa. apply Hpa.
        -- cbn. pose proof (quantitiesNonneg a Ha). lia.
      * apply (pending_of_addon _ (mkOrderItem pr 1 (Some addon) None None
                                     None));
          [exact billSubmitted | | reflexivity | reflexivity].
        cbn [orderItems setOrderItems]. apply in_or_app. right. left.
        reflexivity.
    + pose proof (classified_addon st e linesClassified billSubmitted Hin R O)
        as A.
      apply (pending_of_addon _ (withQuantity e (quantity e + 1)));
        [exact billSubmitted | | exact A |].
      * cbn [orderItems setOrderItems]. apply in_map_iff. exists e.
        rewrite Hp. auto.
      * cbn. pose proof (quantitiesNonneg e Hin). lia.
  - rewrite billSubmitted.
    apply (pending_of_addon _ (mkOrderItem pr 1 (Some addon) None
                                 (Some ("local-" ++ fresh)%string) None));
      [exact billSubmitted | | reflexivity | reflexivity].
    cbn [orderItems setOrderItems]. apply in_or_app. right. left.
    reflexivity.
Qed.

Lemma increment_is_pending fresh lid idx t :
  Js.findIndex (hasLocalId lid) (orderItems st) = Some idx ->
  nth_error (orderItems st) idx = Some t ->
  statusIs removed t = false ->
  computePending (handleIncrementQuantity fresh lid st) = true.
Proof.
  intros F T R. unfold handleIncrementQuantity.
  rewrite F, T, billSubmitted. cbn [andb].
  assert (Hin : In t (orderItems st)) by (eapply nth_error_In; eauto).
  destruct (isOriginal t) eqn:O.
  - destruct (Js.findIndex (fun i => ofProduct (_id (product t)) i
                                     && statusIs addon i) (orderItems st))
      as [ai|] eqn:FA.
    + destruct (findIndex_split _ _ _ FA) as (p & a & s & Hl & Hlen & Ha & _).
      assert (Ta : nth_error (orderItems st) ai = Some a)
        by (rewrite Hl, <- Hlen; apply nth_error_middle).
      rewrite Ta.
      apply (pending_of_addon _ (withQuantity a (quantity a + 1)));
        [exact billSubmitted | | |].
      * cbn [orderItems setOrderItems]. eapply In_setAt_new. exact Ta.
      * apply andb_true_iff in Ha. apply Ha.
      * cbn. assert (In a (orderItems st)) by (eapply nth_error_In; eauto).
        pose proof (quantitiesNonneg a H). lia.
    + apply (pending_of_addon _ (mkOrderItem (product t) 1 (Some addon) None
                                   (Some ("local-" ++ fresh)%string) None));
        [exact billSubmitted | | reflexivity | reflexivity].
      cbn [orderItems setOrderItems]. apply in_or_app. right. left.
      reflexivity.
  - assert (A : statusIs addon t = true).
    { apply (classified_addon st t linesClassified billSubmitted Hin R).
      rewrite <- isOriginal_classified; [exact O|].
      exact (linesClassified billSubmitted t Hin). }
    apply (pending_of_addon _ (withQuantity t (quantity t + 1)));
      [exact billSubmitted | | exact A |].
    + cbn [orderItems setOrderItems]. eapply In_setAt_new. exact T.
    + cbn. pose proof (quantitiesNonneg t Hin). lia.
Qed.

Lemma decrement_is_pending now lid idx t o :
  Js.findIndex (hasLocalId lid) (orderItems st) = Some idx ->
  nth_error (orderItems st) idx = Some t ->
  isOriginal t = true ->
  In o (originalSubmittedItems st) ->
  _id (product o) = _id (product t) ->
  computePending (handleDecrementQuantity now lid st) = true.
Proof.
  intros F T O Ho Hp.
  destruct (decrement_original_shape now lid st idx t F T O billSubmitted)
    as (_ & _ & (line & Hl & _) & _).
  destruct (decrement_keeps_baseline now lid st) as [S B].
  apply filter_In in Hl. destruct Hl as [Hl Hb].
  apply andb_true_iff in Hb. destruct Hb as [Hb1 Hb2].
  apply (pending_of_removed _ o line).
  - rewrite B. exact billSubmitted.
  - rewrite S. exact Ho.
  - exact Hl.
  - rewrite Hp. exact Hb1.
  - exact Hb2.
Qed.

End EditsArePending.

(** X24. On a table with a bill whose draft is classified and has no
    negative quantity, every edit is seen as a pending change by the
    effect that enables Update KOT: adding any product, the plus button
    on any line that is not a removed line, and the minus button on an
    original line of a product of the submitted baseline all leave a
    draft for which [computePending] is true. *)
Theorem X24_edits_are_pending (st : State) :
  Js.truthyOpt (existingBillId st) = true ->
  billClassified st ->
  (forall l, In l (orderItems st) -> 0 <= quantity l) ->
  (forall fresh pr, computePending (handleAddToOrder fresh pr st) = true)
  /\ (forall fresh lid idx t,
        Js.findIndex (hasLocalId lid) (orderItems st) = Some idx ->
        nth_error (orderItems st) idx = Some t ->
        statusIs removed t = false ->
        computePending (handleIncrementQuantity fresh lid st) = true)
  /\ (forall now lid idx t o,
        Js.findIndex (hasLocalId lid) (orderItems st) = Some idx ->
        nth_error (orderItems st) idx = Some t ->
        isOriginal t = true ->
        In o (originalSubmittedItems st) ->
        _id (product o) = _id (product t) ->
        computePending (handleDecrementQuantity now lid st) = true).
Proof.
  intros Hb Hc Hq. split; [|split].
  - intros fresh pr. apply add_is_pending; assumption.
  - intros fresh lid idx t. apply increment_is_pending; assumption.
  - intros now lid idx t o. apply decrement_is_pending; assumption.
Qed.

Lemma X24_edits_are_pending_witness :
  let st := syncedState tea 2 None (Ascii.ascii_of_nat 98) "1" (Some "B-7") in
  computePending st = false
  /\ computePending (handleDecrementQuantity "17" "srv-p1" st) = true.
Proof.
  intros st. split; [reflexivity|].
  assert (Hc : billClassified st).
  { intros _ l [<-|[]]. discriminate. }
  assert (Hq : forall l, In l (orderItems st) -> 0 <= quantity l).
  { intros l [<-|[]]. cbn. lia. }
  exact (proj2 (proj2 (X24_edits_are_pending st eq_refl Hc Hq))
           "17" "srv-p1" O (syncedLine tea 2 None) (syncedLine tea 2 None)
           eq_refl eq_refl eq_refl (or_introl eq_refl) eq_refl).
Defined.

(** ** The earlier iteration: remove in place, then restore *)

Lemma restore_in_place (item v : OrderItem) (l1 l2 : list OrderItem)
  (lid : string) :
  localId item = Some lid -> localId v = Some lid ->
  (forall x, In x l1 -> hasLocalId lid x = false) ->
  (forall x, In x l2 -> hasLocalId lid x = false) ->
  map (fun i => if sameLocalId (localId i) (localId item)
                then mkOrderItem (product i) (originalQuantityOr1 item)
                       (Some original) None (localId i) (serverItemIds i)
                else i) (l1 ++ v :: l2)
  = l1 ++ mkOrderItem (product v) (originalQuantityOr1 item) (Some original)
            None (localId v) (serverItemIds v) :: l2.
Proof.
  intros Hi Hv H1 H2. rewrite map_app. cbn [map].
  assert (Other : forall l, (forall x, In x l -> hasLocalId lid x = false) ->
            map (fun i => if sameLocalId (localId i) (localId item)
                          then mkOrderItem (product i) (originalQuantityOr1 item)
                                 (Some original) None (localId i)
                                 (serverItemIds i)
                          else i) l = l).
  { intros l H. apply map_unchanged. intros x Hx. specialize (H x Hx).
    unfold hasLocalId in H. rewrite Hi. unfold sameLocalId.
    destruct (localId x); [rewrite H|]; reflexivity. }
  rewrite (Other l1 H1), (Other l2 H2), Hi, Hv.
  unfold sameLocalId. rewrite String.eqb_refl. reflexivity.
Qed.

(** X25. In the third iteration of the screen the minus button on an
    original line of a submitted bill that holds one unit (or none)
    turns the line into a removed line in place, with quantity 0 and
    the line's quantity as originalQuantity; the restore button then
    puts an original line back at the same position with the same
    product, local id and server ids, nothing else in the draft being
    touched, so that the draft never holds two lines for that unit.
    Above one unit the button only lowers the quantity and records no
    removal. *)
Theorem X25_v3_remove_then_restore
  (lid : string) (st : State) (l1 l2 : list OrderItem) (t : OrderItem) :
  orderItems st = l1 ++ t :: l2 ->
  (forall x, In x l1 -> hasLocalId lid x = false) ->
  (forall x, In x l2 -> hasLocalId lid x = false) ->
  hasLocalId lid t = true ->
  isOriginal t = true ->
  Js.truthyOpt (existingBillId st) = true ->
  let st1 := OrderV3.handleDecrementQuantity lid st in
  let gone := mkOrderItem (product t) 0 (Some removed) (Some (quantity t))
                (localId t) (serverItemIds t) in
  (quantity t <= 1 ->
   st1 = setOrderItems (l1 ++ gone :: l2) st
   /\ restoreRemoved gone st1
      = setOrderItems
          (l1 ++ mkOrderItem (product t)
                   (if quantity t =? 0 then 1 else quantity t)
                   (Some original) None (localId t) (serverItemIds t) :: l2)
          st)
  /\ (1 < quantity t ->
      st1 = setOrderItems (l1 ++ withQuantity t (quantity t - 1) :: l2) st).
Proof.
  intros Hl H1 H2 Ht Ho Hb st1 gone.
  assert (F : Js.findIndex (hasLocalId lid) (orderItems st)
              = Some (List.length l1))
    by (rewrite Hl; apply findIndex_of_split; assumption).
  assert (T : nth_error (orderItems st) (List.length l1) = Some t)
    by (rewrite Hl; apply nth_error_middle).
  assert (Lt : localId t = Some lid).
  { unfold hasLocalId in Ht. destruct (localId t) as [s|]; [|discriminate].
    apply String.eqb_eq in Ht. congruence. }
  subst st1. unfold OrderV3.handleDecrementQuantity.
  rewrite F, T, Ho, Hb. cbn [andb]. split.
  - intros Q.
    assert (E : (quantity t - 1 <=? 0) = true) by (apply Z.leb_le; lia).
    rewrite E, Hl, setAt_middle. fold gone. split; [reflexivity|].
    unfold restoreRemoved. cbn [orderItems setOrderItems].
    rewrite (restore_in_place gone gone l1 l2 lid Lt Lt H1 H2).
    reflexivity.
  - intros Q.
    assert (E : (quantity t - 1 <=? 0) = false) by (apply Z.leb_gt; lia).
    rewrite E, Hl, setAt_middle. reflexivity.
Qed.

Lemma X25_v3_remove_then_restore_witness :
  let line := mkOrderItem tea 1 (Some original) None (Some "srv-p1") None in
  let st := mkState [line] [line] (Some "b1") (Some "B-7")
              false false false false in
  let gone := mkOrderItem tea 0 (Some removed) (Some 1) (Some "srv-p1") None in
  restoreRemoved gone (OrderV3.handleDecrementQuantity "srv-p1" st) = st.
Proof.
  intros line st gone.
  refine (proj2 (proj1 (X25_v3_remove_then_restore "srv-p1" st [] [] line
                          eq_refl _ _ eq_refl eq_refl eq_refl) _)).
  - intros x [].
  - intros x [].
  - cbn. lia.
Defined.

(** ** The table screen *)

Lemma allTables_range (n t : Z) : In t (Home.allTables n) <-> 1 <= t <= n.
Proof.
  unfold Home.allTables. rewrite in_map_iff. split.
  - intros (i & <- & Hi). apply in_seq in Hi. lia.
  - intros H. exists (Z.to_nat (t - 1)). split; [lia|].
    apply in_seq. lia.
Qed.

Lemma allTables_NoDup (n : Z) : NoDup (Home.allTables n).
Proof.
  unfold Home.allTables.
  generalize (seq_NoDup (Z.to_nat n) 0).
  induction (seq 0 (Z.to_nat n)) as [|a r IH]; intros H; cbn [map].
  - constructor.
  - inversion H as [|? ? Ha Hr]; subst. constructor; [|exact (IH Hr)].
    intros Hin. apply in_map_iff in Hin. destruct Hin as (b & E & Hb).
    assert (b = a) by lia. subst b. contradiction.
Qed.

(** X26. When the count call answers 200 with n >= 1 tables, the table
    screen lists exactly the tables 1..n, each once, whether occupied or
    not, and shows no alert; whatever the order in which the checks
    settle, a listed table is marked occupied exactly when its own check
    answered success with a bill whose status is pending, preparing or
    ready. A check that fails, or a bill in any other status, leaves
    the table unmarked. *)
Theorem X26_tables_listed_and_marked
  (env : Env) (typeError : string) (status : Z) (n : Z)
  (checks : Z -> Axios TableStatus) (settled : list Z) (s : Home.Tables) :
  isLoadingIp env = false -> Js.truthyOpt (apiUrl env) = true ->
  1 <= n ->
  Permutation settled (Home.allTables n) ->
  let r := Home.fetchAvailableTables env typeError
             (Fulfilled 200 (Some (Home.mkCountInfo (Some n)))) checks
             settled s in
  snd r = []
  /\ Home.tablesLoading (fst r) = false
  /\ NoDup (Home.availableTables (fst r))
  /\ (forall t, In t (Home.availableTables (fst r)) <-> 1 <= t <= n)
  /\ (forall t, In t (Home.occupiedTables (fst r))
                <-> 1 <= t <= n /\ Home.isOccupied (checks t) = true)
  /\ (forall t code bill,
        checks t = successWith code bill ->
        OrderV1.includes Home.occupiedStatuses (bill_status bill) = false ->
        ~ In t (Home.occupiedTables (fst r)))
  /\ (forall t err, checks t = Rejected err ->
                    ~ In t (Home.occupiedTables (fst r))).
Proof.
  intros Hl Hu Hn Hp r. subst r. unfold Home.fetchAvailableTables.
  rewrite Hl, Hu. cbn [negb Home.count].
  change (200 =? 200) with true. cbv iota.
  assert (E : (1 <=? n) = true) by (apply Z.leb_le; exact Hn).
  rewrite E. cbn [fst snd Home.availableTables Home.occupiedTables
                  Home.tablesLoading].
  assert (Occ : forall t,
             In t (filter (fun t0 => Home.isOccupied (checks t0)) settled)
             <-> 1 <= t <= n /\ Home.isOccupied (checks t) = true).
  { intros t. rewrite filter_In, <- allTables_range. split.
    - intros [H1 H2]. split; [|exact H2].
      exact (Permutation_in _ Hp H1).
    - intros [H1 H2]. split; [|exact H2].
      exact (Permutation_in _ (Permutation_sym Hp) H1). }
  split; [reflexivity|]. split; [reflexivity|].
  split; [apply allTables_NoDup|]. split; [apply allTables_range|].
  split; [exact Occ|]. split.
  - intros t code bill Hc Hs Hin. apply Occ in Hin. destruct Hin as [_ Ho].
    rewrite Hc in Ho. unfold Home.isOccupied, successWith in Ho.
    cbn [ts_data ts_status] in Ho. rewrite Hs, andb_false_r in Ho.
    discriminate.
  - intros t err Hc Hin. apply Occ in Hin. destruct Hin as [_ Ho].
    rewrite Hc in Ho. discriminate.
Qed.

Lemma X26_tables_listed_and_marked_witness :
  let checks := fun t : Z =>
                  if t =? 2 then successWith 200 pendingBill
                  else successWith 200 completedBill in
  let r := Home.fetchAvailableTables tableFour "TypeError"
             (Fulfilled 200 (Some (Home.mkCountInfo (Some 3)))) checks
             [3; 1; 2] (Home.mkTables [] [] true) in
  In 2 (Home.occupiedTables (fst r)) /\ ~ In 1 (Home.occupiedTables (fst r)).
Proof.
  intros checks r.
  assert (P : Permutation [3; 1; 2] (Home.allTables 3)).
  { change (Home.allTables 3) with ([1; 2] ++ [3]).
    apply Permutation_cons_append. }
  destruct (X26_tables_listed_and_marked tableFour "TypeError" 200 3 checks
              [3; 1; 2] (Home.mkTables [] [] true) eq_refl eq_refl
              ltac:(lia) P)
    as (_ & _ & _ & _ & H5 & H6 & _).
  split.
  - apply H5. split; [lia | reflexivity].
  - exact (H6 1 200 completedBill eq_refl eq_refl).
Defined.

(** X27. The two screens disagree on a bill that is not pending,
    preparing or ready (completed, bill-printed, cancelled): on the
    same success answer the table screen leaves the table unmarked,
    while the order screen's sync adopts the bill, taking its id, its
    number and its rows; the first iteration of the order screen, like
    the table screen, keeps no bill. *)
Theorem X27_unmarked_table_opens_with_bill
  (env : Env) (suppress : bool) (now : string) (code : Z) (bill : Bill)
  (st : State) (mapBillItems : list BillItem -> list OrderItem) :
  ready env = true ->
  OrderV1.includes Home.occupiedStatuses (bill_status bill) = false ->
  let st' := fetchLastOrder env suppress now (successWith code bill) st in
  Home.isOccupied (successWith code bill) = false
  /\ existingBillId st' = Js.orNull (bill_id bill)
  /\ billNumber st' = Js.orNull (bill_billNumber bill)
  /\ orderItems st'
     = (if suppress
        then filter (fun i => negb (statusIs removed i))
               (mappedItems (billRows bill))
        else mappedItems (billRows bill))
  /\ existingBillId (OrderV1.fetchLastOrder mapBillItems
                        (mkTableStatus "success" (Some bill)) st) = None.
Proof.
  intros Hr Hs st'. subst st'.
  rewrite (synced_state env suppress now code bill st Hr). cbn zeta.
  cbn [existingBillId billNumber orderItems].
  split.
  { unfold Home.isOccupied, successWith. cbn [ts_data ts_status].
    rewrite Hs. apply andb_false_r. }
  split; [reflexivity|]. split; [reflexivity|]. split.
  - reflexivity.
  - unfold OrderV1.fetchLastOrder. cbn [ts_data ts_status].
    change (String.eqb "success" "success") with true. cbv iota.
    change OrderV1.activeStatuses with Home.occupiedStatuses.
    rewrite Hs. reflexivity.
Qed.

Lemma X27_unmarked_table_opens_with_bill_witness :
  let st' := fetchLastOrder tableFour false "17"
               (successWith 200 completedBill) initialState in
  Home.isOccupied (successWith 200 completedBill) = false
  /\ existingBillId st' = bill_id completedBill.
Proof.
  intros st'.
  destruct (X27_unmarked_table_opens_with_bill tableFour false "17" 200
              completedBill initialState (fun _ => []) eq_refl eq_refl)
    as (H1 & H2 & _).
  split; [exact H1 | exact H2].
Defined.
